(** * Cache-first profile retrieval: a shallow embedding

    The development embeds the scrape / poll / cache algorithm of
    [linkedin_scraper_server.py] and of [mcp-brightdata-test.py] and proves
    properties of it.

    Conventions of the embedding.
    - A Python [str] is a [string]; one [ascii] stands for one character.
    - A value decoded from JSON is a [json]; Python's [None] is [JNull].
      Numbers are Python integers: no branch of the programs computes with
      a number, only its truth value and its (in)equality to a string are
      ever inspected.
    - Operations on a value of the wrong kind raise as they do in Python:
      [.get] on anything but a dict is an [AttributeError], slicing anything
      but a string or a list a [TypeError].
    - [json.loads], [json.dumps] are library functions: the programs are
      parameterised by a decoder and an encoder ([codec]); [RefJson.loads]
      and [RefJson.dumps] below are reference implementations used to run
      the programs on concrete inputs.
    - The scrape provider and the memory store are an explicit [world] of
      replies; every call is recorded in a trace of [event]s.  Calls to the
      provider, searches, writes and the creation of the client may raise;
      [print], [time.sleep] and [client.close] do not.
    - [ClientMemoryRecord(...)] is a record of its arguments; the class
      validates them, and refuses an entity that is not a string
      ([validated]).
    - [json.dumps(_, indent=2, ensure_ascii=False)], the validation of a
      text as [HttpUrl] and the default [min_relevance] of the client
      library are parameters of the definitions that use them;
      [RefIndent.dumps_indent] is a reference implementation of the first.
    - A [LinkedInResponse] keeps the exception it reports, where the source
      stores its [str]. *)

From Stdlib Require Import String Ascii List ZArith Bool Arith Lia.
From Stdlib Require QArith.
From Stdlib Require Import DecimalString.
Import ListNotations.
Set Warnings "-register-all".
Open Scope list_scope.
Open Scope string_scope.

(* ================================================================== *)
(** ** Python strings *)

Module PyStr.

(** [s.rstrip(c)]: every trailing occurrence of the character is removed. *)
Fixpoint rstrip (c : ascii) (s : string) : string :=
  match s with
  | EmptyString => EmptyString
  | String a t =>
      match rstrip c t with
      | EmptyString => if Ascii.eqb a c then EmptyString else String a EmptyString
      | t' => String a t'
      end
  end.

(** [s.lstrip(c)] for a class of characters. *)
Fixpoint lstrip_by (p : ascii -> bool) (s : string) : string :=
  match s with
  | EmptyString => EmptyString
  | String a t => if p a then lstrip_by p t else s
  end.

Fixpoint rstrip_by (p : ascii -> bool) (s : string) : string :=
  match s with
  | EmptyString => EmptyString
  | String a t =>
      match rstrip_by p t with
      | EmptyString => if p a then EmptyString else String a EmptyString
      | t' => String a t'
      end
  end.

(** [str.isspace] on the characters below 256. *)
Definition isspace (a : ascii) : bool :=
  let n := nat_of_ascii a in
  (((9 <=? n) && (n <=? 13)) || ((28 <=? n) && (n <=? 32))
   || (n =? 133) || (n =? 160))%nat.

(** [s.strip()] *)
Definition strip (s : string) : string := rstrip_by isspace (lstrip_by isspace s).

(** [s.split(c)] for a one-character separator: never empty, keeps empty
    fields. *)
Fixpoint split (c : ascii) (s : string) : list string :=
  match s with
  | EmptyString => [EmptyString]
  | String a t =>
      if Ascii.eqb a c then EmptyString :: split c t
      else match split c t with
           | [] => [String a EmptyString]
           | h :: r => String a h :: r
           end
  end.

(** [s[:n]] *)
Definition slice_to (n : nat) (s : string) : string := substring 0 n s.

Definition nonempty (s : string) : bool :=
  match s with EmptyString => false | _ => true end.

Definition newline : ascii := ascii_of_nat 10.
Definition slash : ascii := "/"%char.

End PyStr.

(* ================================================================== *)
(** ** Decoded JSON values and the Python operations applied to them *)

Inductive json : Type :=
| JNull
| JBool (b : bool)
| JInt (n : Z)
| JStr (s : string)
| JArr (items : list json)
| JObj (fields : list (string * json)).

(** Exceptions the programs can meet.  [except Exception] catches all of
    them, [except json.JSONDecodeError] only the first. *)
Inductive exn : Type :=
| JSONDecodeError
| AttributeError
| TypeError
| Failure (msg : string)        (* raise Exception(msg) *)
| ExternalError (what : string) (* raised inside a library or by the network *).

Inductive result (A : Type) : Type :=
| Val (a : A)
| Exn (e : exn).
Arguments Val {A} a.
Arguments Exn {A} e.

Definition is_JSONDecodeError (e : exn) : bool :=
  match e with JSONDecodeError => true | _ => false end.

Definition is_Exception (e : exn) : bool := true.

Module Py.

(** Truth value of an object: [None], [False], [0], [""], [[]], [{}] are
    false. *)
Definition truthy (v : json) : bool :=
  match v with
  | JNull => false
  | JBool b => b
  | JInt n => negb (n =? 0)%Z
  | JStr s => PyStr.nonempty s
  | JArr l => match l with [] => false | _ => true end
  | JObj l => match l with [] => false | _ => true end
  end.

Fixpoint assoc (k : string) (l : list (string * json)) : option json :=
  match l with
  | [] => None
  | (k', v) :: r => if String.eqb k k' then Some v else assoc k r
  end.

(** [v.get(k, default)]: only a dict has the method. *)
Definition get (v : json) (k : string) (default : json) : result json :=
  match v with
  | JObj l => Val (match assoc k l with Some x => x | None => default end)
  | _ => Exn AttributeError
  end.

(** [isinstance(v, dict)] *)
Definition is_dict (v : json) : bool :=
  match v with JObj _ => true | _ => false end.

(** [isinstance(v, str)] *)
Definition is_str (v : json) : bool :=
  match v with JStr _ => true | _ => false end.

(** [k in v] for a dict [v]. *)
Definition has_key (k : string) (l : list (string * json)) : bool :=
  match assoc k l with Some _ => true | None => false end.

(** [v == s] where [s] is a [str]. *)
Definition eq_str (v : json) (s : string) : bool :=
  match v with JStr s' => String.eqb s' s | _ => false end.

(** [a or b] on already evaluated operands (both operands here are
    effect-free). *)
Definition or_ (a b : json) : json := if truthy a then a else b.

(** [v[:n]]: strings and lists can be sliced. *)
Definition slice_to (n : nat) (v : json) : result json :=
  match v with
  | JStr s => Val (JStr (PyStr.slice_to n s))
  | JArr l => Val (JArr (firstn n l))
  | _ => Exn TypeError
  end.

(** The elements a [for] loop visits: the items of a list, the
    characters of a string, the keys of a dict; other values are not
    iterable. *)
Definition iter (v : json) : result (list json) :=
  match v with
  | JArr l => Val l
  | JStr s => Val (map (fun a => JStr (String a EmptyString)) (list_ascii_of_string s))
  | JObj l => Val (map (fun kv => JStr (fst kv)) l)
  | _ => Exn TypeError
  end.

Definition string_of_Z (n : Z) : string := NilZero.string_of_int (Z.to_int n).

Definition dquote : ascii := ascii_of_nat 34.

Definition hex_digit (n : nat) : ascii :=
  ascii_of_nat (if (n <? 10)%nat then 48 + n else 87 + n)%nat.

(** [repr] of a [str], on the characters below 256: the characters that
    are not printable, which are those below 32, from 127 to 160, and 173,
    are written [\xNN]. *)
Definition repr_char (q : ascii) (a : ascii) : string :=
  let n := nat_of_ascii a in
  if Ascii.eqb a "\"%char then "\\"
  else if Ascii.eqb a q then String "\"%char (String q EmptyString)
  else if (n =? 10)%nat then "\n"
  else if (n =? 13)%nat then "\r"
  else if (n =? 9)%nat then "\t"
  else if ((n <? 32) || ((127 <=? n) && (n <=? 160)) || (n =? 173))%nat then
    String "\"%char (String "x"%char
      (String (hex_digit (n / 16)) (String (hex_digit (n mod 16)) EmptyString)))
  else String a EmptyString.

Fixpoint contains (c : ascii) (s : string) : bool :=
  match s with
  | EmptyString => false
  | String a t => Ascii.eqb a c || contains c t
  end.

Definition repr_str (s : string) : string :=
  let q := if contains "'"%char s && negb (contains dquote s)
           then dquote else "'"%char in
  String q (String.concat EmptyString (map (repr_char q) (list_ascii_of_string s)))
  ++ String q EmptyString.

Fixpoint repr (v : json) : string :=
  match v with
  | JNull => "None"
  | JBool true => "True"
  | JBool false => "False"
  | JInt n => string_of_Z n
  | JStr s => repr_str s
  | JArr l => "[" ++ String.concat ", " (map repr l) ++ "]"
  | JObj l =>
      "{" ++ String.concat ", "
               (map (fun kv => repr_str (fst kv) ++ ": " ++ repr (snd kv)) l)
      ++ "}"
  end.

(** [str(v)], the conversion an f-string applies. *)
Definition str (v : json) : string :=
  match v with
  | JStr s => s
  | _ => repr v
  end.

End Py.

(* ================================================================== *)
(** ** The outside world: scrape provider and memory store *)

(** [json.loads] and [json.dumps(_, ensure_ascii=False)]. *)
Record codec : Type := {
  loads : string -> option json;
  dumps : json -> string
}.

Inductive MemoryTypeEnum : Type := SEMANTIC | EPISODIC.

(** The keyword arguments of [ClientMemoryRecord(...)], as passed. *)
Record ClientMemoryRecord : Type := {
  text : string;
  memory_type : MemoryTypeEnum;
  topics : list string;
  entities : list json;
  namespace : string;
  user_id : string
}.

(** The validation [ClientMemoryRecord(...)] applies to its arguments.
    The programs pass strings for [text], [topics], [namespace] and
    [user_id]; among the [entities] they pass values read from the scraped
    data, and the class refuses an entity that is not a string with a
    [ValidationError]. *)
Definition validated (r : ClientMemoryRecord) : result ClientMemoryRecord :=
  if forallb Py.is_str (entities r) then Val r
  else Exn (ExternalError "ValidationError").

(** The keyword arguments of [client.search_memory_tool(...)]. *)
Record search_args : Type := {
  query : string;
  search_topics : list string;
  search_user_id : string;
  max_results : Z;
  min_relevance : QArith_base.Q
}.

(** One element of [search_results['memories']]; the programs read its
    ['text']. *)
Record memory : Type := { memory_text : string }.

(** An HTTP response: [response.status_code] and [response.text]. *)
Record response : Type := {
  status_code : Z;
  response_text : string
}.

(** Everything the programs do to the outside, in program order.  A
    [Print] carries the source text of the message without its pictograph
    and with its placeholders unexpanded; a [HttpGet] is addressed by the
    snapshot id its URL is built from. *)
Inductive event : Type :=
| Print (msg : string)
| Sleep (seconds : Z)
| HttpPost (data : json)
| HttpGet (snapshot_id : json)
| CreateClient
| SearchMemory (args : search_args)
| CreateLongTermMemory (records : list ClientMemoryRecord)
| CloseClient.

(** The replies of the outside world: the [n]-th call of each kind is
    answered from its number and its argument, by a value or by raising. *)
Record world : Type := {
  reply_create_client : result unit;
  reply_search : nat -> search_args -> result (list memory);
  reply_write : nat -> list ClientMemoryRecord -> result unit;
  reply_post : nat -> json -> result response;
  reply_get : nat -> json -> result response
}.

Record state : Type := {
  n_search : nat;
  n_write : nat;
  n_post : nat;
  n_get : nat;
  trace : list event
}.

Definition initial : state :=
  {| n_search := 0; n_write := 0; n_post := 0; n_get := 0; trace := [] |}.

Definition log (e : event) (st : state) : state :=
  {| n_search := n_search st; n_write := n_write st;
     n_post := n_post st; n_get := n_get st;
     trace := (trace st ++ [e])%list |}.

(* ================================================================== *)
(** ** A state and exception monad *)

Definition M (A : Type) : Type := state -> result A * state.

Definition ret {A} (a : A) : M A := fun st => (Val a, st).

Definition raise {A} (e : exn) : M A := fun st => (Exn e, st).

Definition bind {A B} (m : M A) (k : A -> M B) : M B :=
  fun st =>
    match m st with
    | (Val a, st') => k a st'
    | (Exn e, st') => (Exn e, st')
    end.

Declare Scope py_scope.
Delimit Scope py_scope with py.
Notation "x <- m ;; k" := (bind m (fun x => k))
  (at level 61, m at next level, right associativity) : py_scope.
Notation "m ;; k" := (bind m (fun _ => k))
  (at level 61, right associativity) : py_scope.
Open Scope py_scope.

Definition lift {A} (r : result A) : M A := fun st => (r, st).

(** [try: body except E: handler], [catches] deciding [E]. *)
Definition try_except {A} (body : M A) (catches : exn -> bool)
    (handler : exn -> M A) : M A :=
  fun st =>
    match body st with
    | (Val a, st') => (Val a, st')
    | (Exn e, st') => if catches e then handler e st' else (Exn e, st')
    end.

(** [try: body finally: cleanup] *)
Definition try_finally {A} (body : M A) (cleanup : M unit) : M A :=
  fun st =>
    match body st with
    | (r, st') =>
        match cleanup st' with
        | (Val _, st'') => (r, st'')
        | (Exn e, st'') => (Exn e, st'')
        end
    end.

(** What one pass through a loop body asks for: the next iteration, or
    leaving the loop ([break], [return]) with a value. *)
Inductive signal (A : Type) : Type :=
| Next
| Stop (a : A).
Arguments Next {A}.
Arguments Stop {A} a.

Definition print (msg : string) : M unit :=
  fun st => (Val tt, log (Print msg) st).

Definition time_sleep (seconds : Z) : M unit :=
  fun st => (Val tt, log (Sleep seconds) st).

Section Calls.
Variable c : codec.
Variable w : world.

Definition json_loads (s : string) : M json :=
  match loads c s with
  | Some v => ret v
  | None => raise JSONDecodeError
  end.

(** [response.json()] *)
Definition response_json (r : response) : M json :=
  json_loads (response_text r).

Definition requests_post (data : json) : M response :=
  fun st =>
    (reply_post w (n_post st) data,
     {| n_search := n_search st; n_write := n_write st;
        n_post := S (n_post st); n_get := n_get st;
        trace := (trace st ++ [HttpPost data])%list |}).

Definition requests_get (snapshot_id : json) : M response :=
  fun st =>
    (reply_get w (n_get st) snapshot_id,
     {| n_search := n_search st; n_write := n_write st;
        n_post := n_post st; n_get := S (n_get st);
        trace := (trace st ++ [HttpGet snapshot_id])%list |}).

Definition create_memory_client : M unit :=
  fun st =>
    match reply_create_client w with
    | Val _ => (Val tt, log CreateClient st)
    | Exn e => (Exn e, st)
    end.

Definition search_memory_tool (args : search_args) : M (list memory) :=
  fun st =>
    (reply_search w (n_search st) args,
     {| n_search := S (n_search st); n_write := n_write st;
        n_post := n_post st; n_get := n_get st;
        trace := (trace st ++ [SearchMemory args])%list |}).

Definition create_long_term_memory (records : list ClientMemoryRecord) : M unit :=
  fun st =>
    (reply_write w (n_write st) records,
     {| n_search := n_search st; n_write := S (n_write st);
        n_post := n_post st; n_get := n_get st;
        trace := (trace st ++ [CreateLongTermMemory records])%list |}).

Definition client_close : M unit :=
  fun st => (Val tt, log CloseClient st).

End Calls.

Definition enumerate {A} (l : list A) : list (nat * A) :=
  combine (seq 0 (length l)) l.

(* ================================================================== *)
(** ** linkedin_scraper_server.py *)

Module Server.
Section Program.
Variable c : codec.
Variable w : world.

Definition payloads_to_try (profile_url : string) : list json :=
  [ JArr [JObj [("url", JStr profile_url)]];
    JArr [JObj [("url", JStr profile_url); ("endpoint", JStr "linkedin_profile")]];
    JArr [JObj [("url", JStr profile_url); ("endpoint", JStr "linkedin")]];
    JArr [JObj [("url", JStr profile_url); ("include_skills", JBool true)]] ].

(** One pass of the first [for] loop: [Stop snapshot_id] is the
    assignment followed by [break]. *)
Definition trigger_attempt (len i : nat) (data : json) : M (signal json) :=
  try_except
    (print "Starting scraping job (attempt {i+1})..." ;;
     response <- requests_post w data ;;
     if (status_code response =? 200)%Z then
       result <- response_json c response ;;
       snapshot_id <- lift (Py.get result "snapshot_id" JNull) ;;
       print "Job started! Snapshot ID: {snapshot_id}" ;;
       ret (Stop snapshot_id)
     else
       print "Attempt {i+1} failed with status: {response.status_code}" ;;
       if (i <? len - 1)%nat then ret Next else ret Next)
    is_Exception
    (fun e =>
       print "Error in attempt {i+1}: {e}" ;;
       if (i <? len - 1)%nat then ret Next else ret Next).

Fixpoint trigger_loop (len : nat) (todo : list (nat * json))
    (snapshot_id : json) : M json :=
  match todo with
  | [] => ret snapshot_id
  | (i, data) :: rest =>
      s <- trigger_attempt len i data ;;
      match s with
      | Stop snapshot_id' => ret snapshot_id'
      | Next => trigger_loop len rest snapshot_id
      end
  end.

Definition max_attempts : nat := 15.

(** One pass of the polling loop: [Stop v] is [return v]. *)
Definition poll_attempt (snapshot_id : json) (attempt : nat) : M (signal json) :=
  try_except
    (response <- requests_get w snapshot_id ;;
     if (status_code response =? 200)%Z then
       try_except
         (result <- response_json c response ;;
          match result with
          | JObj fields =>
              if Py.eq_str (match Py.assoc "status" fields with
                            | Some v => v | None => JNull end) "running"
              then
                print "Still processing... ({attempt + 1}/{max_attempts})" ;;
                time_sleep 10 ;;
                ret Next
              else if Py.has_key "status" fields then
                print "Job status: {result.get('status')}" ;;
                time_sleep 10 ;;
                ret Next
              else
                print "Scraping completed!" ;;
                ret (Stop result)
          | _ =>
              print "Scraping completed!" ;;
              ret (Stop result)
          end)
         is_JSONDecodeError
         (fun _ =>
            let lines := PyStr.split PyStr.newline
                           (PyStr.strip (response_text response)) in
            match lines with
            | line0 :: _ =>
                if PyStr.nonempty line0 then
                  try_except
                    (profile_data <- json_loads c line0 ;;
                     print "Scraping completed!" ;;
                     ret (Stop profile_data))
                    is_JSONDecodeError
                    (fun _ => ret (Stop JNull))
                else ret Next
            | [] => ret Next
            end)
     else if (status_code response =? 202)%Z then
       try_except
         (result <- response_json c response ;;
          status <- lift (Py.get result "status" JNull) ;;
          if Py.eq_str status "running" then
            _ <- lift (Py.get result "message" (JStr EmptyString)) ;;
            print "Still processing... ({attempt + 1}/{max_attempts}) - {result.get('message', '')}"
          else
            print "Still processing... ({attempt + 1}/{max_attempts})")
         is_JSONDecodeError
         (fun _ => print "Still processing... ({attempt + 1}/{max_attempts})") ;;
       time_sleep 10 ;;
       ret Next
     else ret (Stop JNull))
    is_Exception
    (fun _ => ret (Stop JNull)).

Fixpoint poll_loop (snapshot_id : json) (attempts : list nat) : M json :=
  match attempts with
  | [] =>
      print "Scraping takes longer than expected" ;;
      ret JNull
  | attempt :: rest =>
      s <- poll_attempt snapshot_id attempt ;;
      match s with
      | Stop v => ret v
      | Next => poll_loop snapshot_id rest
      end
  end.

(** [_scrape_new_profile]: [JNull] is the [None] of a failed scrape. *)
Definition _scrape_new_profile (profile_url : string) : M json :=
  let payloads := payloads_to_try profile_url in
  snapshot_id <- trigger_loop (length payloads) (enumerate payloads) JNull ;;
  if negb (Py.truthy snapshot_id) then
    print "All BrightData attempts failed" ;;
    ret JNull
  else
    print "Waiting for completion..." ;;
    poll_loop snapshot_id (seq 0 max_attempts).

Definition username_of (profile_url : string) : string :=
  last (PyStr.split PyStr.slash (PyStr.rstrip PyStr.slash profile_url)) EmptyString.

(** Step 1 of [smart_linkedin_scraper]: [Stop v] is [return v]. *)
Definition check_rams (username user : string) : M (signal json) :=
  print "Checking RAMS for cached data for username: {username}" ;;
  search_results <- search_memory_tool w
    {| query := "LinkedIn profile " ++ username;
       search_topics := ["linkedin"; "profile"; username];
       search_user_id := user;
       max_results := 1;
       min_relevance := QArith_base.Qmake 5 10 |} ;;
  match search_results with
  | mem :: _ =>
      try_except
        (cached_data <- json_loads c (memory_text mem) ;;
         print "Found cached data in RAMS!" ;;
         ret (Stop cached_data))
        is_JSONDecodeError
        (fun _ =>
           print "Cached data corrupted, falling back to BrightData" ;;
           ret Next)
  | [] => ret Next
  end.

(** The loop of step 3 over [existing_check['memories']]; the result is
    [profile_already_exists]. *)
Fixpoint already_exists (username : string) (memories : list memory) : M bool :=
  match memories with
  | [] => ret false
  | mem :: rest =>
      s <- try_except
             (existing_data <- json_loads c (memory_text mem) ;;
              linkedin_id <- lift (Py.get existing_data "linkedin_id" JNull) ;;
              existing_username <-
                (if Py.truthy linkedin_id then ret linkedin_id
                 else lift (Py.get existing_data "id" JNull)) ;;
              if Py.eq_str existing_username username then
                print "Profile for {username} already exists in RAMS, skipping storage" ;;
                ret (Stop tt)
              else ret Next)
             is_JSONDecodeError
             (fun _ => ret Next) ;;
      match s with
      | Stop _ => ret true
      | Next => already_exists username rest
      end
  end.

Definition profile_record (username user : string) (scraped_data : json)
    : M ClientMemoryRecord :=
  let text_ := dumps c scraped_data in
  name <- lift (Py.get scraped_data "name" (JStr EmptyString)) ;;
  company <- lift (Py.get scraped_data "current_company" (JObj [])) ;;
  company_name <- lift (Py.get company "name" (JStr EmptyString)) ;;
  lift (validated
          {| text := text_;
             memory_type := SEMANTIC;
             topics := ["linkedin"; "profile"; username; "scraped_data"];
             entities := [JStr username; name; company_name];
             namespace := "linkedin_scraper";
             user_id := user |}).

Definition activity_record (username user : string) (scraped_data activity : json)
    : M ClientMemoryRecord :=
  interaction <- lift (Py.get activity "interaction" (JStr "Unknown")) ;;
  title <- lift (Py.get activity "title" (JStr "No title")) ;;
  title100 <- lift (Py.slice_to 100 title) ;;
  let activity_text :=
    username ++ " activity: " ++ Py.str interaction ++ " - " ++ Py.str title100 in
  name <- lift (Py.get scraped_data "name" (JStr EmptyString)) ;;
  lift (validated
          {| text := activity_text;
             memory_type := EPISODIC;
             topics := ["linkedin"; "activity"; username; "engagement"];
             entities := [JStr username; name];
             namespace := "linkedin_scraper";
             user_id := user |}).

(** The loop over [scraped_data['activity'][:10]], appending to
    [memories_to_store]. *)
Fixpoint activity_loop (username user : string) (scraped_data : json)
    (activities : list json) (memories_to_store : list ClientMemoryRecord)
    : M (list ClientMemoryRecord) :=
  match activities with
  | [] => ret memories_to_store
  | activity :: rest =>
      r <- activity_record username user scraped_data activity ;;
      activity_loop username user scraped_data rest (memories_to_store ++ [r])%list
  end.

(** The body of [if not profile_already_exists:]. *)
Definition store_profile (username user : string) (scraped_data : json) : M unit :=
  r <- profile_record username user scraped_data ;;
  let memories_to_store := [r] in
  memories_to_store <-
    match scraped_data with
    | JObj fields =>
        match Py.assoc "activity" fields with
        | Some activity =>
            if Py.truthy activity then
              first10 <- lift (Py.slice_to 10 activity) ;;
              items <- lift (Py.iter first10) ;;
              activity_loop username user scraped_data items memories_to_store
            else ret memories_to_store
        | None => ret memories_to_store
        end
    | _ => raise TypeError (* not reached: [profile_record] has raised *)
    end ;;
  create_long_term_memory w memories_to_store ;;
  print "Stored profile data + {len(memories_to_store)-1} activities for {username} in RAMS".

(** Step 3 of [smart_linkedin_scraper] and its final [return]. *)
Definition store_unless_exists (username user : string) (scraped_data : json)
    : M json :=
  existing_check <- search_memory_tool w
    {| query := "LinkedIn profile " ++ username;
       search_topics := ["linkedin"; "profile"; username];
       search_user_id := user;
       max_results := 5;
       min_relevance := QArith_base.Qmake 3 10 |} ;;
  profile_already_exists <- already_exists username existing_check ;;
  (if negb profile_already_exists
   then store_profile username user scraped_data
   else ret tt) ;;
  ret scraped_data.

(** Steps 2 and 3: what follows a cache miss. *)
Definition scrape_and_store (profile_url username user : string) : M json :=
  print "No cached data in RAMS, scraping from BrightData..." ;;
  scraped_data <- _scrape_new_profile profile_url ;;
  match scraped_data with
  | JNull => raise (Failure ("Failed to scrape LinkedIn profile: " ++ profile_url))
  | _ => store_unless_exists username user scraped_data
  end.

Definition smart_linkedin_scraper (profile_url user : string) : M json :=
  let username := username_of profile_url in
  create_memory_client w ;;
  try_finally
    (cached <- check_rams username user ;;
     match cached with
     | Stop cached_data => ret cached_data
     | Next => scrape_and_store profile_url username user
     end)
    client_close.

End Program.
End Server.

(* ================================================================== *)
(** ** mcp-brightdata-test.py *)

Module TestModule.
Section Program.
Variable c : codec.
Variable w : world.

Definition payloads_to_try (profile_url : string) : list json :=
  [ JArr [JObj [("url", JStr profile_url)]];
    JArr [JObj [("url", JStr profile_url); ("endpoint", JStr "linkedin_profile")]];
    JArr [JObj [("url", JStr profile_url); ("endpoint", JStr "linkedin")]];
    JArr [JObj [("url", JStr profile_url); ("include_skills", JBool true)]] ].

(** One pass of the first [for] loop: [Stop snapshot_id] is the
    assignment followed by [break]. *)
Definition trigger_attempt (len i : nat) (data : json) : M (signal json) :=
  try_except
    (print "Starting scraping job (attempt {i+1})..." ;;
     print "URL: {trigger_url}" ;;
     print "Params: {params}" ;;
     print "Data: {data}" ;;
     response <- requests_post w data ;;
     print "Response status: {response.status_code}" ;;
     print "Response text: {response.text}" ;;
     if (status_code response =? 200)%Z then
       result <- response_json c response ;;
       snapshot_id <- lift (Py.get result "snapshot_id" JNull) ;;
       print "Job started! Snapshot ID: {snapshot_id}" ;;
       ret (Stop snapshot_id)
     else
       print "Attempt {i+1} failed with status: {response.status_code}" ;;
       if (i <? len - 1)%nat then
         print "Trying alternative payload format..." ;;
         ret Next
       else ret Next)
    is_Exception
    (fun e =>
       print "Error in attempt {i+1}: {e}" ;;
       if (i <? len - 1)%nat then
         print "Trying alternative payload format..." ;;
         ret Next
       else ret Next).

Fixpoint trigger_loop (len : nat) (todo : list (nat * json))
    (snapshot_id : json) : M json :=
  match todo with
  | [] => ret snapshot_id
  | (i, data) :: rest =>
      s <- trigger_attempt len i data ;;
      match s with
      | Stop snapshot_id' => ret snapshot_id'
      | Next => trigger_loop len rest snapshot_id
      end
  end.

Definition max_attempts : nat := 15.

(** One pass of the polling loop: [Stop v] is [return v]. *)
Definition poll_attempt (snapshot_id : json) (attempt : nat) : M (signal json) :=
  try_except
    (response <- requests_get w snapshot_id ;;
     print "Attempt {attempt + 1}: Status {response.status_code}" ;;
     if (status_code response =? 200)%Z then
       try_except
         (result <- response_json c response ;;
          match result with
          | JObj fields =>
              if Py.eq_str (match Py.assoc "status" fields with
                            | Some v => v | None => JNull end) "running"
              then
                print "Still processing... ({attempt + 1}/{max_attempts})" ;;
                time_sleep 10 ;;
                ret Next
              else if Py.has_key "status" fields then
                print "Job status: {result.get('status')}" ;;
                time_sleep 10 ;;
                ret Next
              else
                print "Scraping completed!" ;;
                ret (Stop result)
          | _ =>
              print "Scraping completed!" ;;
              ret (Stop result)
          end)
         is_JSONDecodeError
         (fun _ =>
            let lines := PyStr.split PyStr.newline
                           (PyStr.strip (response_text response)) in
            match lines with
            | line0 :: _ =>
                if PyStr.nonempty line0 then
                  try_except
                    (profile_data <- json_loads c line0 ;;
                     print "Scraping completed!" ;;
                     ret (Stop profile_data))
                    is_JSONDecodeError
                    (fun _ =>
                       print "Failed to parse response as JSON" ;;
                       ret (Stop JNull))
                else ret Next
            | [] => ret Next
            end)
     else if (status_code response =? 202)%Z then
       try_except
         (result <- response_json c response ;;
          status <- lift (Py.get result "status" JNull) ;;
          if Py.eq_str status "running" then
            _ <- lift (Py.get result "message" (JStr EmptyString)) ;;
            print "Still processing... ({attempt + 1}/{max_attempts}) - {result.get('message', '')}"
          else
            print "Still processing... ({attempt + 1}/{max_attempts})")
         is_JSONDecodeError
         (fun _ => print "Still processing... ({attempt + 1}/{max_attempts})") ;;
       time_sleep 10 ;;
       ret Next
     else
       print "Unexpected status code: {response.status_code}" ;;
       print "Response: {response.text}" ;;
       ret (Stop JNull))
    is_Exception
    (fun _ =>
       print "Error checking results: {e}" ;;
       ret (Stop JNull)).

Fixpoint poll_loop (snapshot_id : json) (attempts : list nat) : M json :=
  match attempts with
  | [] =>
      print "Scraping takes longer than expected" ;;
      ret JNull
  | attempt :: rest =>
      s <- poll_attempt snapshot_id attempt ;;
      match s with
      | Stop v => ret v
      | Next => poll_loop snapshot_id rest
      end
  end.

(** [_scrape_new_profile]: [JNull] is the [None] of a failed scrape. *)
Definition _scrape_new_profile (profile_url : string) : M json :=
  let payloads := payloads_to_try profile_url in
  snapshot_id <- trigger_loop (length payloads) (enumerate payloads) JNull ;;
  if negb (Py.truthy snapshot_id) then
    print "All BrightData attempts failed" ;;
    ret JNull
  else
    print "Waiting for completion..." ;;
    poll_loop snapshot_id (seq 0 max_attempts).

Definition username_of (profile_url : string) : string :=
  last (PyStr.split PyStr.slash (PyStr.rstrip PyStr.slash profile_url)) EmptyString.

(** Step 1 of [smart_linkedin_scraper]: [Stop v] is [return v]. *)
Definition check_rams (username user : string) : M (signal json) :=
  print "Checking RAMS for cached data for username: {username}" ;;
  search_results <- search_memory_tool w
    {| query := "LinkedIn profile " ++ username;
       search_topics := ["linkedin"; "profile"; username];
       search_user_id := user;
       max_results := 1;
       min_relevance := QArith_base.Qmake 5 10 |} ;;
  match search_results with
  | mem :: _ =>
      try_except
        (cached_data <- json_loads c (memory_text mem) ;;
         print "Found cached data in RAMS!" ;;
         ret (Stop cached_data))
        is_JSONDecodeError
        (fun _ =>
           print "Cached data corrupted, falling back to BrightData" ;;
           ret Next)
  | [] => ret Next
  end.

(** The loop of step 3 over [existing_check['memories']]; the result is
    [profile_already_exists]. *)
Fixpoint already_exists (username : string) (memories : list memory) : M bool :=
  match memories with
  | [] => ret false
  | mem :: rest =>
      s <- try_except
             (existing_data <- json_loads c (memory_text mem) ;;
              linkedin_id <- lift (Py.get existing_data "linkedin_id" JNull) ;;
              existing_username <-
                (if Py.truthy linkedin_id then ret linkedin_id
                 else lift (Py.get existing_data "id" JNull)) ;;
              if Py.eq_str existing_username username then
                print "Profile for {username} already exists in RAMS, skipping storage" ;;
                ret (Stop tt)
              else ret Next)
             is_JSONDecodeError
             (fun _ => ret Next) ;;
      match s with
      | Stop _ => ret true
      | Next => already_exists username rest
      end
  end.

Definition profile_record (username user : string) (scraped_data : json)
    : M ClientMemoryRecord :=
  let text_ := dumps c scraped_data in
  name <- lift (Py.get scraped_data "name" (JStr EmptyString)) ;;
  company <- lift (Py.get scraped_data "current_company" (JObj [])) ;;
  company_name <- lift (Py.get company "name" (JStr EmptyString)) ;;
  lift (validated
          {| text := text_;
             memory_type := SEMANTIC;
             topics := ["linkedin"; "profile"; username; "scraped_data"];
             entities := [JStr username; name; company_name];
             namespace := "linkedin_scraper";
             user_id := user |}).

Definition activity_record (username user : string) (scraped_data activity : json)
    : M ClientMemoryRecord :=
  interaction <- lift (Py.get activity "interaction" (JStr "Unknown")) ;;
  title <- lift (Py.get activity "title" (JStr "No title")) ;;
  title100 <- lift (Py.slice_to 100 title) ;;
  let activity_text :=
    username ++ " activity: " ++ Py.str interaction ++ " - " ++ Py.str title100 in
  name <- lift (Py.get scraped_data "name" (JStr EmptyString)) ;;
  lift (validated
          {| text := activity_text;
             memory_type := EPISODIC;
             topics := ["linkedin"; "activity"; username; "engagement"];
             entities := [JStr username; name];
             namespace := "linkedin_scraper";
             user_id := user |}).

(** The loop over [scraped_data['activity'][:10]], appending to
    [memories_to_store]. *)
Fixpoint activity_loop (username user : string) (scraped_data : json)
    (activities : list json) (memories_to_store : list ClientMemoryRecord)
    : M (list ClientMemoryRecord) :=
  match activities with
  | [] => ret memories_to_store
  | activity :: rest =>
      r <- activity_record username user scraped_data activity ;;
      activity_loop username user scraped_data rest (memories_to_store ++ [r])%list
  end.

(** The body of [if not profile_already_exists:]. *)
Definition store_profile (username user : string) (scraped_data : json) : M unit :=
  r <- profile_record username user scraped_data ;;
  let memories_to_store := [r] in
  memories_to_store <-
    match scraped_data with
    | JObj fields =>
        match Py.assoc "activity" fields with
        | Some activity =>
            if Py.truthy activity then
              first10 <- lift (Py.slice_to 10 activity) ;;
              items <- lift (Py.iter first10) ;;
              activity_loop username user scraped_data items memories_to_store
            else ret memories_to_store
        | None => ret memories_to_store
        end
    | _ => raise TypeError (* not reached: [profile_record] has raised *)
    end ;;
  create_long_term_memory w memories_to_store ;;
  print "Stored profile data + {len(memories_to_store)-1} activities for {username} in RAMS".

(** Step 3 of [smart_linkedin_scraper] and its final [return]. *)
Definition store_unless_exists (username user : string) (scraped_data : json)
    : M json :=
  existing_check <- search_memory_tool w
    {| query := "LinkedIn profile " ++ username;
       search_topics := ["linkedin"; "profile"; username];
       search_user_id := user;
       max_results := 5;
       min_relevance := QArith_base.Qmake 3 10 |} ;;
  profile_already_exists <- already_exists username existing_check ;;
  (if negb profile_already_exists
   then store_profile username user scraped_data
   else ret tt) ;;
  ret scraped_data.

(** Steps 2 and 3: what follows a cache miss. *)
Definition scrape_and_store (profile_url username user : string) : M json :=
  print "No cached data in RAMS, scraping from BrightData..." ;;
  scraped_data <- _scrape_new_profile profile_url ;;
  match scraped_data with
  | JNull => raise (Failure ("Failed to scrape LinkedIn profile: " ++ profile_url))
  | _ => store_unless_exists username user scraped_data
  end.

Definition smart_linkedin_scraper (profile_url user : string) : M json :=
  let username := username_of profile_url in
  create_memory_client w ;;
  try_finally
    (cached <- check_rams username user ;;
     match cached with
     | Stop cached_data => ret cached_data
     | Next => scrape_and_store profile_url username user
     end)
    client_close.

End Program.
End TestModule.

(* ================================================================== *)
(** ** A reference codec

    [RefJson.loads] decodes the JSON texts whose numbers are integers and
    whose strings have no [\u] escape, the way [json.loads] does (leading
    and trailing white space skipped, nothing else may follow the value, the
    last of two equal keys wins); on any other text it answers [None], also
    on those with a fraction, an exponent, [NaN] or [Infinity], which
    [json.loads] decodes to floats and which no input below contains.
    [RefJson.dumps] writes a value the way
    [json.dumps(_, ensure_ascii=False)] does.  The theorems below hold for
    every codec; these two serve to run the programs on concrete inputs. *)

Module RefJson.

Definition is_ws (a : ascii) : bool :=
  let n := nat_of_ascii a in
  ((n =? 32) || (n =? 9) || (n =? 10) || (n =? 13))%nat.

Fixpoint skip_ws (s : string) : string :=
  match s with
  | String a t => if is_ws a then skip_ws t else s
  | EmptyString => s
  end.

Fixpoint drop_prefix (p s : string) : option string :=
  match p, s with
  | EmptyString, _ => Some s
  | String a p', String b s' => if Ascii.eqb a b then drop_prefix p' s' else None
  | _, _ => None
  end.

Definition is_digit (a : ascii) : bool :=
  let n := nat_of_ascii a in ((48 <=? n) && (n <=? 57))%nat.

Definition digit_val (a : ascii) : Z := Z.of_nat (nat_of_ascii a - 48).

Fixpoint take_digits (s : string) (acc : Z) : Z * string :=
  match s with
  | String a t =>
      if is_digit a then take_digits t (10 * acc + digit_val a)%Z else (acc, s)
  | EmptyString => (acc, s)
  end.

(** [0|[1-9]\d*] *)
Definition parse_natural (s : string) : option (Z * string) :=
  match s with
  | String a t =>
      if Ascii.eqb a "0"%char then Some (0%Z, t)
      else if is_digit a then Some (take_digits s 0%Z)
      else None
  | EmptyString => None
  end.

(** Does [(\.\d+)] or [([eE][-+]?\d+)] match here? *)
Definition fraction_follows (s : string) : bool :=
  match s with
  | String a (String b r) =>
      if Ascii.eqb a "."%char then is_digit b
      else if Ascii.eqb a "e"%char || Ascii.eqb a "E"%char then
        is_digit b
        || ((Ascii.eqb b "+"%char || Ascii.eqb b "-"%char)
            && match r with String d _ => is_digit d | EmptyString => false end)
      else false
  | _ => false
  end.

Definition parse_number (s : string) : option (json * string) :=
  let '(neg, s') :=
    match s with
    | String a t => if Ascii.eqb a "-"%char then (true, t) else (false, s)
    | EmptyString => (false, s)
    end in
  match parse_natural s' with
  | Some (n, r) =>
      if fraction_follows r then None
      else Some (JInt (if neg then - n else n)%Z, r)
  | None => None
  end.

Definition unescape (e : ascii) : option ascii :=
  if Ascii.eqb e Py.dquote then Some Py.dquote
  else if Ascii.eqb e "\"%char then Some "\"%char
  else if Ascii.eqb e "/"%char then Some "/"%char
  else if Ascii.eqb e "b"%char then Some (ascii_of_nat 8)
  else if Ascii.eqb e "f"%char then Some (ascii_of_nat 12)
  else if Ascii.eqb e "n"%char then Some (ascii_of_nat 10)
  else if Ascii.eqb e "r"%char then Some (ascii_of_nat 13)
  else if Ascii.eqb e "t"%char then Some (ascii_of_nat 9)
  else None.

(** The characters of a string literal after its opening quote, and what
    follows its closing quote. *)
Fixpoint parse_chars (s : string) : option (string * string) :=
  match s with
  | EmptyString => None
  | String a t =>
      if Ascii.eqb a Py.dquote then Some (EmptyString, t)
      else if Ascii.eqb a "\"%char then
        match t with
        | String e t' =>
            match unescape e, parse_chars t' with
            | Some ch, Some (str, r) => Some (String ch str, r)
            | _, _ => None
            end
        | EmptyString => None
        end
      else if (nat_of_ascii a <? 32)%nat then None
      else match parse_chars t with
           | Some (str, r) => Some (String a str, r)
           | None => None
           end
  end.

(** [d[k] = v] on an insertion-ordered dict. *)
Fixpoint dict_set (k : string) (v : json) (l : list (string * json))
    : list (string * json) :=
  match l with
  | [] => [(k, v)]
  | (k', v') :: r =>
      if String.eqb k k' then (k', v) :: r else (k', v') :: dict_set k v r
  end.

Section Containers.
Variable parse_value : string -> option (json * string).

(** After [[] and white space, not at []]: values separated by commas. *)
Fixpoint parse_elements (n : nat) (s : string) (acc : list json)
    : option (json * string) :=
  match n with
  | O => None
  | S n' =>
      match parse_value s with
      | Some (v, r) =>
          match skip_ws r with
          | String a r' =>
              if Ascii.eqb a ","%char then
                parse_elements n' (skip_ws r') (acc ++ [v])%list
              else if Ascii.eqb a "]"%char then Some (JArr (acc ++ [v])%list, r')
              else None
          | EmptyString => None
          end
      | None => None
      end
  end.

(** After [{] and white space, not at [}]: members separated by commas. *)
Fixpoint parse_members (n : nat) (s : string) (acc : list (string * json))
    : option (json * string) :=
  match n with
  | O => None
  | S n' =>
      match s with
      | String q s1 =>
          if Ascii.eqb q Py.dquote then
            match parse_chars s1 with
            | Some (k, s2) =>
                match skip_ws s2 with
                | String colon s3 =>
                    if Ascii.eqb colon ":"%char then
                      match parse_value (skip_ws s3) with
                      | Some (v, r) =>
                          match skip_ws r with
                          | String a r' =>
                              if Ascii.eqb a ","%char then
                                parse_members n' (skip_ws r') (dict_set k v acc)
                              else if Ascii.eqb a "}"%char then
                                Some (JObj (dict_set k v acc), r')
                              else None
                          | EmptyString => None
                          end
                      | None => None
                      end
                    else None
                | EmptyString => None
                end
            | None => None
            end
          else None
      | EmptyString => None
      end
  end.
End Containers.

Fixpoint parse_value (fuel : nat) (s : string) : option (json * string) :=
  match fuel with
  | O => None
  | S fuel' =>
      match s with
      | EmptyString => None
      | String a t =>
          if Ascii.eqb a Py.dquote then
            match parse_chars t with
            | Some (str, r) => Some (JStr str, r)
            | None => None
            end
          else if Ascii.eqb a "["%char then
            match skip_ws t with
            | String b r =>
                if Ascii.eqb b "]"%char then Some (JArr [], r)
                else parse_elements (parse_value fuel') (String.length t)
                       (skip_ws t) []
            | EmptyString => None
            end
          else if Ascii.eqb a "{"%char then
            match skip_ws t with
            | String b r =>
                if Ascii.eqb b "}"%char then Some (JObj [], r)
                else parse_members (parse_value fuel') (String.length t)
                       (skip_ws t) []
            | EmptyString => None
            end
          else
            match drop_prefix "null" s, drop_prefix "true" s, drop_prefix "false" s with
            | Some r, _, _ => Some (JNull, r)
            | _, Some r, _ => Some (JBool true, r)
            | _, _, Some r => Some (JBool false, r)
            | _, _, _ => parse_number s
            end
      end
  end.

Definition loads (s : string) : option json :=
  let s' := skip_ws s in
  match parse_value (S (String.length s')) s' with
  | Some (v, r) =>
      match skip_ws r with
      | EmptyString => Some v
      | _ => None
      end
  | None => None
  end.

Definition escape_char (a : ascii) : string :=
  let n := nat_of_ascii a in
  if Ascii.eqb a "\"%char then "\\"
  else if Ascii.eqb a Py.dquote then String "\"%char (String Py.dquote EmptyString)
  else if (n =? 10)%nat then "\n"
  else if (n =? 13)%nat then "\r"
  else if (n =? 9)%nat then "\t"
  else if (n =? 8)%nat then "\b"
  else if (n =? 12)%nat then "\f"
  else if (n <? 32)%nat then
    "\u00" ++ String (Py.hex_digit (n / 16)) (String (Py.hex_digit (n mod 16)) EmptyString)
  else String a EmptyString.

Definition dumps_str (s : string) : string :=
  String Py.dquote
    (String.concat EmptyString (map escape_char (list_ascii_of_string s)))
  ++ String Py.dquote EmptyString.

Fixpoint dumps (v : json) : string :=
  match v with
  | JNull => "null"
  | JBool true => "true"
  | JBool false => "false"
  | JInt n => Py.string_of_Z n
  | JStr s => dumps_str s
  | JArr l => "[" ++ String.concat ", " (map dumps l) ++ "]"
  | JObj l =>
      "{" ++ String.concat ", "
               (map (fun kv => dumps_str (fst kv) ++ ": " ++ dumps (snd kv)) l)
      ++ "}"
  end.

Definition ref_codec : codec := Build_codec loads dumps.

End RefJson.

(* ================================================================== *)
(** ** format_profile_output

    The function has the same text in both files, but for its
    docstring. *)

Module PyText.

(** [sep in s] for two strings. *)
Fixpoint contains (sep s : string) : bool :=
  match s with
  | EmptyString => String.prefix sep EmptyString
  | String _ t => String.prefix sep s || contains sep t
  end.

(** [s.split(sep)[0]] for a separator that is not empty: what comes before
    the first occurrence of [sep], all of [s] when there is none. *)
Fixpoint split_head (sep s : string) : string :=
  match s with
  | EmptyString => EmptyString
  | String a t =>
      if String.prefix sep s then EmptyString else String a (split_head sep t)
  end.

(** [str.lower] on the characters below 256. *)
Definition lower_char (a : ascii) : ascii :=
  let n := nat_of_ascii a in
  if (((65 <=? n) && (n <=? 90))
      || ((192 <=? n) && (n <=? 222) && negb (n =? 215)))%nat
  then ascii_of_nat (n + 32)
  else a.

Fixpoint lower (s : string) : string :=
  match s with
  | EmptyString => EmptyString
  | String a t => String (lower_char a) (lower t)
  end.

End PyText.

(** [del d[k]] for a key the dict has. *)
Fixpoint dict_del (k : string) (l : list (string * json)) : list (string * json) :=
  match l with
  | [] => []
  | (k', v) :: r =>
      if String.eqb k k' then dict_del k r else (k', v) :: dict_del k r
  end.

(** [counts[k] = counts.get(k, 0) + 1] on an insertion-ordered dict. *)
Fixpoint count_up (k : string) (counts : list (string * nat)) : list (string * nat) :=
  match counts with
  | [] => [(k, 1%nat)]
  | (k', n) :: r =>
      if String.eqb k k' then (k', S n) :: r else (k', n) :: count_up k r
  end.

(** [' by ' in interaction]: a substring test on a string, a membership
    test on a list or a dict; other values cannot be searched. *)
Definition by_in (interaction : json) : result bool :=
  match interaction with
  | JStr s => Val (PyText.contains " by " s)
  | JArr l => Val (existsb (fun v => Py.eq_str v " by ") l)
  | JObj l => Val (Py.has_key " by " l)
  | _ => Exn TypeError
  end.

(** [interaction.split(' by ')[0] if ' by ' in interaction else interaction],
    as the key of [interaction_counts]: only a string can be split, and a
    list or a dict cannot be a key. *)
Definition interaction_type_of (interaction : json) : result string :=
  match by_in interaction with
  | Val true =>
      match interaction with
      | JStr s => Val (PyText.split_head " by " s)
      | _ => Exn AttributeError
      end
  | Val false =>
      match interaction with
      | JStr s => Val s
      | _ => Exn TypeError
      end
  | Exn e => Exn e
  end.

(** The loop over [activities], updating [interaction_counts]. *)
Fixpoint count_interactions (activities : list json)
    (interaction_counts : list (string * nat)) : result (list (string * nat)) :=
  match activities with
  | [] => Val interaction_counts
  | activity :: rest =>
      match Py.get activity "interaction" (JStr "Unknown interaction") with
      | Val interaction =>
          match interaction_type_of interaction with
          | Val interaction_type =>
              count_interactions rest (count_up interaction_type interaction_counts)
          | Exn e => Exn e
          end
      | Exn e => Exn e
      end
  end.

(** [', '.join([f"{count} {interaction_type.lower()}" for ...])] *)
Definition interaction_stats (interaction_counts : list (string * nat)) : string :=
  String.concat ", "
    (map (fun kv => Py.string_of_Z (Z.of_nat (snd kv)) ++ " " ++ PyText.lower (fst kv))
         interaction_counts).

Definition activity_summary (total_activities : nat)
    (interaction_counts : list (string * nat)) : string :=
  "User has " ++ Py.string_of_Z (Z.of_nat total_activities)
  ++ " recent activities: " ++ interaction_stats interaction_counts ++ ".".

(** [dumps_indent] is [json.dumps(_, indent=2, ensure_ascii=False)].  A
    list has [copy] and [in] as a dict has, but no string index; the other
    values have no [copy].  The events of a truthy ['activity'] are the
    elements the [for] loop visits, [len(activities)] of them when it is a
    list. *)
Definition format_profile_output (dumps_indent : json -> string)
    (profile_data : json) : result string :=
  match profile_data with
  | JObj formatted_data =>
      match Py.assoc "activity" formatted_data with
      | Some activities =>
          if Py.truthy activities then
            match Py.iter activities with
            | Val items =>
                match count_interactions items [] with
                | Val interaction_counts =>
                    let total_activities := length items in
                    let summary := activity_summary total_activities interaction_counts in
                    Val (dumps_indent
                           (JObj (dict_del "activity"
                                    (RefJson.dict_set "activity_summary" (JStr summary)
                                       formatted_data))))
                | Exn e => Exn e
                end
            | Exn e => Exn e
            end
          else Val (dumps_indent profile_data)
      | None => Val (dumps_indent profile_data)
      end
  | JArr items =>
      if existsb (fun v => Py.eq_str v "activity") items then Exn TypeError
      else Val (dumps_indent profile_data)
  | _ => Exn AttributeError
  end.

(** A reference for [json.dumps(_, indent=2, ensure_ascii=False)], to run
    the programs on concrete inputs. *)
Module RefIndent.

Definition newline_indent (level : nat) : string :=
  String PyStr.newline (String.concat EmptyString (repeat " " (2 * level))).

Fixpoint dumps_at (level : nat) (v : json) : string :=
  match v with
  | JArr [] => "[]"
  | JObj [] => "{}"
  | JArr l =>
      "[" ++ newline_indent (S level)
      ++ String.concat ("," ++ newline_indent (S level)) (map (dumps_at (S level)) l)
      ++ newline_indent level ++ "]"
  | JObj l =>
      "{" ++ newline_indent (S level)
      ++ String.concat ("," ++ newline_indent (S level))
           (map (fun kv => RefJson.dumps_str (fst kv) ++ ": "
                           ++ dumps_at (S level) (snd kv)) l)
      ++ newline_indent level ++ "}"
  | _ => RefJson.dumps v
  end.

Definition dumps_indent (v : json) : string := dumps_at 0 v.

End RefIndent.

(* ================================================================== *)
(** ** The endpoints of linkedin_scraper_server.py *)

Module ServerApi.

(** [LinkedInRequest]: [url] is [str(request.url)]. *)
Record LinkedInRequest : Type := {
  url : string;
  user_id : string
}.

(** [LinkedInResponse]; [error] holds the exception whose [str] the
    source stores. *)
Record LinkedInResponse : Type := {
  success : bool;
  profile_data : option json;
  formatted_output : option string;
  error : option exn;
  cached : bool
}.

Section Program.
Variable c : codec.
Variable w : world.
Variable dumps_indent : json -> string.

(** [http_url] is the validation of a string as [HttpUrl] followed by
    [str]: the text of the accepted URL, or the validation error. *)
Variable http_url : string -> result string.

Definition scrape_linkedin_profile (request : LinkedInRequest) : M LinkedInResponse :=
  try_except
    (let profile_url := url request in
     let username := Server.username_of profile_url in
     print "API Request: Scraping profile for {username}" ;;
     profile_data <- Server.smart_linkedin_scraper c w profile_url (user_id request) ;;
     formatted_output <- lift (format_profile_output dumps_indent profile_data) ;;
     timestamp <- lift (Py.get profile_data "timestamp" JNull) ;;
     let cached := negb (Py.truthy timestamp) in
     print "API Response: Successfully returned profile for {username}" ;;
     ret {| success := true;
            profile_data := Some profile_data;
            formatted_output := Some formatted_output;
            error := None;
            cached := cached |})
    is_Exception
    (fun e =>
       print "API Error: {error_msg}" ;;
       ret {| success := false;
              profile_data := None;
              formatted_output := None;
              error := Some e;
              cached := false |}).

Definition linkedin_url (username : string) : string :=
  "https://www.linkedin.com/in/" ++ username ++ "/".

Definition scrape_by_username (username user_id : string) : M LinkedInResponse :=
  url' <- lift (http_url (linkedin_url username)) ;;
  let request := {| url := url'; user_id := user_id |} in
  scrape_linkedin_profile request.

End Program.
End ServerApi.

(* ================================================================== *)
(** ** The entry points of mcp-brightdata-test.py *)

Module TestApi.
Section Program.
Variable c : codec.
Variable w : world.
Variable dumps_indent : json -> string.

Definition get_linkedin_profile_data (profile_url : string) : M json :=
  scraped_data <- TestModule._scrape_new_profile c w profile_url ;;
  match scraped_data with
  | JNull => raise (Failure ("Failed to scrape LinkedIn profile: " ++ profile_url))
  | _ => ret scraped_data
  end.

(** [default_min_relevance] is the value [client.search_memory_tool]
    gives its [min_relevance] when the caller passes none; it is defined in
    the client library. *)
Variable default_min_relevance : QArith_base.Q.

(** The search of [get_linkedin_profile_data_with_memory] and what it
    makes of the result: [Stop v] is [return v]. *)
Definition check_memory (profile_url user_id : string) : M (signal json) :=
  let username := TestModule.username_of profile_url in
  search_results <- search_memory_tool w
    {| query := "LinkedIn profile data for " ++ username ++ " " ++ profile_url;
       search_topics := ["linkedin"; "profile"; username];
       search_user_id := user_id;
       max_results := 1;
       min_relevance := default_min_relevance |} ;;
  match search_results with
  | memory :: _ =>
      try_except
        (cached_data <- json_loads c (memory_text memory) ;;
         print "Using cached profile data from memory system" ;;
         ret (Stop cached_data))
        is_JSONDecodeError
        (fun _ =>
           print "Cached data corrupted, scraping fresh data" ;;
           ret Next)
  | [] => ret Next
  end.

(** What follows when nothing usable is cached; [memory_record] is built
    by the constructor call that [smart_linkedin_scraper] uses for its
    first record. *)
Definition scrape_and_remember (profile_url user_id : string) : M json :=
  let username := TestModule.username_of profile_url in
  print "No cached data in memory, scraping fresh data for: {profile_url}" ;;
  scraped_data <- TestModule._scrape_new_profile c w profile_url ;;
  match scraped_data with
  | JNull => raise (Failure ("Failed to scrape LinkedIn profile: " ++ profile_url))
  | _ =>
      memory_record <- TestModule.profile_record c username user_id scraped_data ;;
      create_long_term_memory w [memory_record] ;;
      print "Stored profile data in memory system" ;;
      ret scraped_data
  end.

Definition get_linkedin_profile_data_with_memory (profile_url user_id : string)
    : M json :=
  create_memory_client w ;;
  try_finally
    (cached <- check_memory profile_url user_id ;;
     match cached with
     | Stop cached_data => ret cached_data
     | Next => scrape_and_remember profile_url user_id
     end)
    client_close.

Definition get_linkedin_profile_data_with_rams (profile_url : string) : M json :=
  get_linkedin_profile_data_with_memory profile_url "scraper_user".

Definition test_url : string :=
  "https://www.linkedin.com/in/niels-schmidt-890b96303/".

Definition rule : string := String.concat EmptyString (repeat "=" 60).

(** [main]; the arrow of the second message is written [->], and the
    last [print] of the [try] block shows the formatted
    text itself. *)
Definition main : M unit :=
  print "Smart LinkedIn Profile Scraper" ;;
  print "Strategy: RAMS first -> BrightData fallback" ;;
  print rule ;;
  try_except
    (profile_data <- TestModule.smart_linkedin_scraper c w test_url "scraper_user" ;;
     print "Smart scraping successful!" ;;
     _ <- lift (Py.get profile_data "name" (JStr "Unknown")) ;;
     print "Profile: {profile_data.get('name', 'Unknown')}" ;;
     company <- lift (Py.get profile_data "current_company" (JObj [])) ;;
     _ <- lift (Py.get company "name" (JStr "Unknown")) ;;
     print "Company: {profile_data.get('current_company', {}).get('name', 'Unknown')}" ;;
     formatted_output <- lift (format_profile_output dumps_indent profile_data) ;;
     print (String PyStr.newline "Structured JSON Output:") ;;
     print formatted_output)
    is_Exception
    (fun e => print "Smart scraping failed: {e}") ;;
  print (String PyStr.newline rule) ;;
  print "Smart scraping completed!".

End Program.
End TestApi.

(* ================================================================== *)
(** * The vocabulary of the properties *)

(* ================================================================== *)
(** ** Observing a run *)

Definition is_print (e : event) : bool :=
  match e with Print _ => true | _ => false end.

Definition is_provider_call (e : event) : bool :=
  match e with HttpPost _ | HttpGet _ => true | _ => false end.

Definition is_post (e : event) : bool :=
  match e with HttpPost _ => true | _ => false end.

Definition is_get (e : event) : bool :=
  match e with HttpGet _ => true | _ => false end.

Definition is_sleep (e : event) : bool :=
  match e with Sleep _ => true | _ => false end.

Definition is_write (e : event) : bool :=
  match e with CreateLongTermMemory _ => true | _ => false end.

Definition is_session (e : event) : bool :=
  match e with CreateClient | CloseClient => true | _ => false end.

(** A trace with its logging erased. *)
Definition effects (tr : list event) : list event :=
  filter (fun e => negb (is_print e)) tr.

(** The batches written to the memory store, in order. *)
Definition written (tr : list event) : list (list ClientMemoryRecord) :=
  flat_map (fun e => match e with CreateLongTermMemory r => [r] | _ => [] end) tr.

(** A run of a computation from the initial state: its outcome and the
    trace it leaves. *)
Definition run {A} (m : M A) : result A * list event :=
  let '(r, st) := m initial in (r, trace st).

(* ================================================================== *)
(** ** Identity key and queries *)

(** The last non-empty field of a text cut at its slashes, [""] when there
    is none. *)
Definition last_nonempty_segment (profile_url : string) : string :=
  last (filter PyStr.nonempty (PyStr.split PyStr.slash profile_url)) EmptyString.

(** The identity key in the words of the specification: the last
    non-empty path segment of the URL.  A URL is read as
    [scheme://authority/path?query#fragment]; its path is what is left
    without the fragment, the query, the scheme and the authority, and a
    text without [://] is a path.  The segments of a path are cut
    independently of [PyStr.split]. *)
Module Url.

(** [s] up to its first [c], all of [s] when it has none. *)
Fixpoint before (c : ascii) (s : string) : string :=
  match s with
  | EmptyString => EmptyString
  | String a t => if Ascii.eqb a c then EmptyString else String a (before c t)
  end.

(** What follows the first occurrence of [sep] in [s]. *)
Fixpoint after (sep s : string) : option string :=
  match s with
  | EmptyString => None
  | String _ t =>
      match RefJson.drop_prefix sep s with
      | Some r => Some r
      | None => after sep t
      end
  end.

(** [s] from its first [c] on, [""] when it has none. *)
Fixpoint from (c : ascii) (s : string) : string :=
  match s with
  | EmptyString => EmptyString
  | String a t => if Ascii.eqb a c then s else from c t
  end.

Definition path (url : string) : string :=
  let s := before "?" (before "#" url) in
  match after "://" s with
  | Some r => from "/" r
  | None => s
  end.

(** The segments of a path, [current] being the part of the segment
    read so far. *)
Fixpoint segments (current s : string) : list string :=
  match s with
  | EmptyString => [current]
  | String a t =>
      if Ascii.eqb a "/" then current :: segments EmptyString t
      else segments (current ++ String a EmptyString) t
  end.

Fixpoint last_nonempty (l : list string) (found : string) : string :=
  match l with
  | [] => found
  | x :: r => last_nonempty r (if PyStr.nonempty x then x else found)
  end.

Definition last_nonempty_path_segment (url : string) : string :=
  last_nonempty (segments EmptyString (path url)) EmptyString.

End Url.

(** A list of fields without its trailing empty fields. *)
Fixpoint drop_trailing_empty (l : list string) : list string :=
  match l with
  | [] => []
  | h :: r =>
      match drop_trailing_empty r with
      | [] => if PyStr.nonempty h then [h] else []
      | r' => h :: r'
      end
  end.

(** The narrow query of step 1 and the wider one of step 3. *)
Definition cache_lookup (username user : string) : search_args :=
  {| query := "LinkedIn profile " ++ username;
     search_topics := ["linkedin"; "profile"; username];
     search_user_id := user;
     max_results := 1;
     min_relevance := QArith_base.Qmake 5 10 |}.

Definition wider_lookup (username user : string) : search_args :=
  {| query := "LinkedIn profile " ++ username;
     search_topics := ["linkedin"; "profile"; username];
     search_user_id := user;
     max_results := 5;
     min_relevance := QArith_base.Qmake 3 10 |}.

(* ================================================================== *)
(** ** Relating runs *)

(** Two states that differ in logging only, both past the [k]-th search. *)
Definition sim (k : nat) (s1 s2 : state) : Prop :=
  n_search s1 = n_search s2 /\ (k <= n_search s1)%nat
  /\ n_write s1 = n_write s2 /\ n_post s1 = n_post s2
  /\ n_get s1 = n_get s2
  /\ effects (trace s1) = effects (trace s2).

(** Started in similar states, the two computations end alike and in
    similar states. *)
Definition equiv (k : nat) {A} (m1 m2 : M A) : Prop :=
  forall s1 s2, sim k s1 s2 ->
    fst (m1 s1) = fst (m2 s2) /\ sim k (snd (m1 s1)) (snd (m2 s2)).

(** The computation only adds events, all of them in the class [P]. *)
Definition emits (P : event -> bool) {A} (m : M A) : Prop :=
  forall st, exists evs,
    trace (snd (m st)) = (trace st ++ evs)%list /\ forallb P evs = true.

(** [st'] is [st] after the events [evs], [posts] submissions and [gets]
    polls later. *)
Definition advanced (st st' : state) (posts gets : nat) (evs : list event) : Prop :=
  n_search st' = n_search st /\ n_write st' = n_write st
  /\ n_post st' = (n_post st + posts)%nat /\ n_get st' = (n_get st + gets)%nat
  /\ effects (trace st') = (effects (trace st) ++ evs)%list.

(* ================================================================== *)
(** ** Replies of the provider *)

(** What the first loop makes of a reply to a submission: the decoded
    object of a reply with status 200 whose body decodes to an object;
    every other reply (another status, a body that does not decode or
    decodes to something else, an exception of the call) only leads to the
    next variant. *)
Definition accepted (c : codec) (r : result response) : option (list (string * json)) :=
  match r with
  | Val resp =>
      if (status_code resp =? 200)%Z then
        match loads c (response_text resp) with
        | Some (JObj fields) => Some fields
        | _ => None
        end
      else None
  | Exn _ => None
  end.

(** [result.get('snapshot_id')] on the fields of an object. *)
Definition snapshot_id_of (fields : list (string * json)) : json :=
  match Py.assoc "snapshot_id" fields with Some v => v | None => JNull end.

(** The in-progress marker of a decoded body: an object with a ['status']
    key. *)
Definition status_marker (v : json) : bool :=
  match v with
  | JObj fields => Py.has_key "status" fields
  | _ => false
  end.

(** The line the fallback decoder is given: [text.strip().split('\n')[0]]. *)
Definition first_line (body : string) : string :=
  hd EmptyString (PyStr.split PyStr.newline (PyStr.strip body)).

(** A reply the poller reads as still in progress: status 200 with a body
    that decodes to an object carrying ['status'], or status 202 with a body
    that does not decode or decodes to an object. *)
Definition still_running (c : codec) (r : result response) : Prop :=
  exists resp, r = Val resp /\
    ((status_code resp = 200%Z
      /\ exists fields, loads c (response_text resp) = Some (JObj fields)
                        /\ Py.has_key "status" fields = true)
     \/ (status_code resp = 202%Z
         /\ (loads c (response_text resp) = None
             \/ exists fields, loads c (response_text resp) = Some (JObj fields)))).

(** [n] polls of a job, a sleep of 10 after each. *)
Fixpoint polls (sid : json) (n : nat) : list event :=
  match n with
  | O => []
  | S n' => HttpGet sid :: Sleep 10 :: polls sid n'
  end.

(* ================================================================== *)
(** ** Stored and scraped records *)

(** [fields.get(key, default)] on the fields of an object. *)
Definition field (key : string) (default : json) (fields : list (string * json))
    : json :=
  match Py.assoc key fields with Some v => v | None => default end.

(** The stored identity indicator of a decoded record:
    [data.get('linkedin_id') or data.get('id')]. *)
Definition identity_indicator (fields : list (string * json)) : json :=
  Py.or_ (field "linkedin_id" JNull fields) (field "id" JNull fields).

(** A candidate the loop passes over: its text does not decode, or it
    decodes to an object with another identity indicator. *)
Definition passed_over (c : codec) (username : string) (m : memory) : Prop :=
  loads c (memory_text m) = None
  \/ exists fields, loads c (memory_text m) = Some (JObj fields)
                    /\ Py.eq_str (identity_indicator fields) username = false.

(** A candidate whose stored identity indicator is the identity key. *)
Definition same_profile (c : codec) (username : string) (m : memory) : Prop :=
  exists fields, loads c (memory_text m) = Some (JObj fields)
                 /\ Py.eq_str (identity_indicator fields) username = true.

(** The title an episodic record embeds: the event's ['title'] when it is
    a string, ['No title'] when the event has none. *)
Definition event_title (event : list (string * json)) : string :=
  match Py.assoc "title" event with
  | Some (JStr s) => s
  | _ => "No title"
  end.

(** An activity event whose title, if any, is a string. *)
Definition titled (event : list (string * json)) : Prop :=
  match Py.assoc "title" event with
  | Some (JStr _) | None => True
  | Some _ => False
  end.

(** A profile whose name and whose company's name, where given, are
    strings: the entities of its records pass the validation. *)
Definition entities_are_strings (profile : list (string * json)) : Prop :=
  Py.is_str (field "name" (JStr EmptyString) profile) = true
  /\ match field "current_company" (JObj []) profile with
     | JObj company => Py.is_str (field "name" (JStr EmptyString) company) = true
     | _ => True
     end.

(** The semantic record of a profile whose company, if any, is an
    object. *)
Definition semantic_record (c : codec) (username user : string)
    (profile : list (string * json)) : ClientMemoryRecord :=
  {| text := dumps c (JObj profile);
     memory_type := SEMANTIC;
     topics := ["linkedin"; "profile"; username; "scraped_data"];
     entities := [JStr username;
                  field "name" (JStr EmptyString) profile;
                  match field "current_company" (JObj []) profile with
                  | JObj company => field "name" (JStr EmptyString) company
                  | _ => JNull
                  end];
     namespace := "linkedin_scraper";
     user_id := user |}.

(** The episodic record of an event whose title, if any, is a string. *)
Definition episodic_record (username user : string)
    (profile event : list (string * json)) : ClientMemoryRecord :=
  {| text := username ++ " activity: "
             ++ Py.str (field "interaction" (JStr "Unknown") event)
             ++ " - " ++ PyStr.slice_to 100 (event_title event);
     memory_type := EPISODIC;
     topics := ["linkedin"; "activity"; username; "engagement"];
     entities := [JStr username; field "name" (JStr EmptyString) profile];
     namespace := "linkedin_scraper";
     user_id := user |}.

(** The records of one scrape: the semantic record, then the episodic
    records of the given events. *)
Definition batch (c : codec) (username user : string)
    (profile : list (string * json)) (events : list (list (string * json)))
    : list ClientMemoryRecord :=
  semantic_record c username user profile
  :: map (episodic_record username user profile) events.

(** The number of activity events of a profile. *)
Definition activity_count (profile : json) : nat :=
  match profile with
  | JObj fields =>
      match Py.assoc "activity" fields with
      | Some (JArr l) => length l
      | _ => 0%nat
      end
  | _ => 0%nat
  end.

(* ================================================================== *)
(** ** Concrete worlds and data *)

(** A string literal of JSON: the text between double quotes. *)
Definition quoted (s : string) : string :=
  String Py.dquote s ++ String Py.dquote EmptyString.

Definition jane_url : string := "https://example.com/in/jane-doe/".

Definition jane : json := JObj [("name", JStr "Jane Doe")].

Definition jane_profile : string :=
  "{" ++ quoted "name" ++ ": " ++ quoted "Jane Doe" ++ "}".

Definition jane_stored : string :=
  "{" ++ quoted "linkedin_id" ++ ": " ++ quoted "jane-doe" ++ "}".

(** A store that holds Jane's profile and a provider that is down. *)
Definition cached_jane : world :=
  {| reply_create_client := Val tt;
     reply_search := fun _ _ => Val [ {| memory_text := jane_profile |} ];
     reply_write := fun _ _ => Val tt;
     reply_post := fun _ _ => Exn (ExternalError "provider unreachable");
     reply_get := fun _ _ => Exn (ExternalError "provider unreachable") |}.

(** A provider that answers every submission with status 200 and the
    body of an empty object. *)
Definition accepts_without_id : world :=
  {| reply_create_client := Val tt;
     reply_search := fun _ _ => Val [];
     reply_write := fun _ _ => Val tt;
     reply_post := fun _ _ => Val {| status_code := 200; response_text := "{}" |};
     reply_get := fun _ _ => Exn (ExternalError "no such snapshot") |}.

Definition ok_with (body : string) : response :=
  {| status_code := 200; response_text := body |}.

(** A provider whose polls are answered with status 202 and a body that
    is JSON but not an object. *)
Definition accepted_with_list : response :=
  {| status_code := 202; response_text := "[]" |}.

Definition running_body : string :=
  "{" ++ quoted "status" ++ ": " ++ quoted "building" ++ "}".

Definition two_lines : string :=
  jane_profile ++ String PyStr.newline jane_stored.

(** A provider whose every poll is answered by the same response. *)
Definition polls_with (resp : response) : world :=
  {| reply_create_client := Val tt;
     reply_search := fun _ _ => Val [];
     reply_write := fun _ _ => Val tt;
     reply_post := fun _ _ =>
       Val {| status_code := 200;
              response_text := "{" ++ quoted "snapshot_id" ++ ": " ++ quoted "s_1" ++ "}" |};
     reply_get := fun _ _ => Val resp |}.

(** A world in which nothing is cached, the scrape succeeds at once with
    [profile], and the wider search returns [candidates]. *)
Definition scraped_then_checked (profile : string) (candidates : list memory)
    : world :=
  {| reply_create_client := Val tt;
     reply_search := fun n _ =>
       match n with O => Val [] | _ => Val candidates end;
     reply_write := fun _ _ => Val tt;
     reply_post := fun _ _ =>
       Val {| status_code := 200;
              response_text := "{" ++ quoted "snapshot_id" ++ ": " ++ quoted "s_1" ++ "}" |};
     reply_get := fun _ _ => Val {| status_code := 200; response_text := profile |} |}.

(** A store whose only record for Jane is not JSON, and the same world
    with no record at all. *)
Definition corrupt_jane : world :=
  {| reply_create_client := Val tt;
     reply_search := fun n _ =>
       match n with
       | O => Val [ {| memory_text := "jane-doe activity: Liked - a post" |} ]
       | _ => Val []
       end;
     reply_write := fun _ _ => Val tt;
     reply_post := reply_post (scraped_then_checked jane_profile []);
     reply_get := reply_get (scraped_then_checked jane_profile []) |}.

Definition activity_event (n : Z) : json :=
  JObj [("interaction", JStr "Liked by Jane Doe");
        ("title", JStr ("Post number " ++ Py.string_of_Z n))].

Definition eleven_events : list json :=
  map activity_event [1; 2; 3; 4; 5; 6; 7; 8; 9; 10; 11]%Z.

(** A scraped profile with eleven activity events, the third of which
    has [null] for its title. *)
Definition untitled_event : json :=
  JObj [("interaction", JStr "Liked by Jane Doe"); ("title", JNull)].

Definition jane_with_untitled_event : json :=
  JObj [("name", JStr "Jane Doe");
        ("current_company", JObj [("name", JStr "Acme")]);
        ("activity",
         JArr (firstn 2 eleven_events ++ untitled_event :: skipn 3 eleven_events)%list)].

(** A scraped profile with eleven activity events and [null] for its
    company. *)
Definition jane_without_company : json :=
  JObj [("name", JStr "Jane Doe");
        ("current_company", JNull);
        ("activity", JArr eleven_events)].

Definition jane_at_acme : json :=
  JObj [("name", JStr "Jane Doe");
        ("current_company", JObj [("name", JStr "Acme")]);
        ("activity", JArr eleven_events)].

(* ================================================================== *)
(** ** Safety and cost of a computation *)

(** The computation ends with a value, never with an exception. *)
Definition never_raises {A} (m : M A) : Prop :=
  forall st, exists a, fst (m st) = Val a.

(** The total weight of a list of events. *)
Definition weight (f : event -> nat) (evs : list event) : nat :=
  list_sum (map f evs).

(** The computation only adds events, of total weight [n] at most. *)
Definition costs (f : event -> nat) (n : nat) {A} (m : M A) : Prop :=
  forall st, exists evs,
    trace (snd (m st)) = (trace st ++ evs)%list /\ (weight f evs <= n)%nat.

Definition one_if (b : bool) : nat := if b then 1%nat else 0%nat.

Definition post_weight (e : event) : nat := one_if (is_post e).
Definition get_weight (e : event) : nat := one_if (is_get e).
Definition write_weight (e : event) : nat := one_if (is_write e).
Definition search_weight (e : event) : nat :=
  match e with SearchMemory _ => 1%nat | _ => 0%nat end.

(** The seconds an event sleeps. *)
Definition sleep_weight (e : event) : nat :=
  match e with Sleep z => Z.to_nat z | _ => 0%nat end.

(** The state in which [smart_linkedin_scraper] starts its second step
    after a first search that found nothing. *)
Definition after_miss (username user : string) : state :=
  {| n_search := 1; n_write := 0; n_post := 0; n_get := 0;
     trace := [CreateClient;
               Print "Checking RAMS for cached data for username: {username}";
               SearchMemory (cache_lookup username user)] |}.

(* ================================================================== *)
(** ** Further worlds and data *)

Definition jane_tracked : string :=
  "https://www.linkedin.com/in/jane-doe/?trk=public_profile".

Definition john_tracked : string :=
  "https://www.linkedin.com/in/john-roe/?trk=public_profile".

(** A store that holds Jane's profile under the key her tracked URL was
    given, and a provider that is down. *)
Definition store_after_jane_tracked : world :=
  {| reply_create_client := Val tt;
     reply_search := fun _ a =>
       if list_eq_dec string_dec (search_topics a)
            ["linkedin"; "profile"; "?trk=public_profile"]
       then Val [ {| memory_text := jane_profile |} ]
       else Val [];
     reply_write := fun _ _ => Val tt;
     reply_post := fun _ _ => Exn (ExternalError "provider unreachable");
     reply_get := fun _ _ => Exn (ExternalError "provider unreachable") |}.

(** A provider that turns every submission down with status 500, and a
    store that holds nothing. *)
Definition refuses_all : world :=
  {| reply_create_client := Val tt;
     reply_search := fun _ _ => Val [];
     reply_write := fun _ _ => Val tt;
     reply_post := fun _ _ =>
       Val {| status_code := 500; response_text := "Internal Server Error" |};
     reply_get := fun _ _ => Exn (ExternalError "no such snapshot") |}.

(** The object every submission to [polls_with] and [scraped_then_checked]
    is answered with. *)
Definition job_started : list (string * json) := [("snapshot_id", JStr "s_1")].

(** A stored record of somebody else that carries Jane's key as its
    ['id']. *)
Definition john_with_janes_id : string :=
  "{" ++ quoted "linkedin_id" ++ ": " ++ quoted "john-roe" ++ ", "
      ++ quoted "id" ++ ": " ++ quoted "jane-doe" ++ "}".

Definition activity_fields (n : Z) : list (string * json) :=
  [("interaction", JStr "Liked by Jane Doe");
   ("title", JStr ("Post number " ++ Py.string_of_Z n))].

Definition jane_at_acme_fields : list (string * json) :=
  [("name", JStr "Jane Doe");
   ("current_company", JObj [("name", JStr "Acme")]);
   ("activity", JArr eleven_events)].

(** A record of the store that is no JSON. *)
Definition activity_note : memory :=
  {| memory_text := "jane-doe activity: Liked - a post" |}.

(* ================================================================== *)
(** ** The activity summary and the endpoints *)

(** The interaction type an event is counted under: the text of its
    ['interaction'] before the first [' by '], ['Unknown interaction'] when
    it has none. *)
Definition kind_of (event : list (string * json)) : string :=
  match Py.assoc "interaction" event with
  | Some (JStr s) => PyText.split_head " by " s
  | _ => "Unknown interaction"
  end.

(** An event whose interaction, if any, is a string. *)
Definition worded (event : list (string * json)) : Prop :=
  match Py.assoc "interaction" event with
  | Some (JStr _) | None => True
  | Some _ => False
  end.

(** An event the summary cannot count: a value that is not an object, or
    an object whose ['interaction'] is [null], a boolean or a number. *)
Definition unworded (activity : json) : Prop :=
  match activity with
  | JObj event =>
      match Py.assoc "interaction" event with
      | Some JNull | Some (JBool _) | Some (JInt _) => True
      | _ => False
      end
  | _ => True
  end.

(** [counts.get(t, 0)] *)
Definition count_of (t : string) (counts : list (string * nat)) : nat :=
  match find (fun kv => String.eqb t (fst kv)) counts with
  | Some kv => snd kv
  | None => 0%nat
  end.

(** The response of a successful call for a profile object. *)
Definition served (dumps_out : string) (fields : list (string * json))
    : ServerApi.LinkedInResponse :=
  {| ServerApi.success := true;
     ServerApi.profile_data := Some (JObj fields);
     ServerApi.formatted_output := Some dumps_out;
     ServerApi.error := None;
     ServerApi.cached := negb (Py.truthy (field "timestamp" JNull fields)) |}.

(** The response of a call that met the exception [e]. *)
Definition failed (e : exn) : ServerApi.LinkedInResponse :=
  {| ServerApi.success := false;
     ServerApi.profile_data := None;
     ServerApi.formatted_output := None;
     ServerApi.error := Some e;
     ServerApi.cached := false |}.

(** What every response looks like: a success carries a profile object,
    its formatted text and the flag computed from its ['timestamp']; a
    failure carries the exception and nothing else. *)
Definition well_formed (dumps_indent : json -> string)
    (resp : ServerApi.LinkedInResponse) : Prop :=
  (exists fields out,
     format_profile_output dumps_indent (JObj fields) = Val out
     /\ resp = served out fields)
  \/ (exists e, resp = failed e).

(** A validation of URLs that accepts every text as it is. *)
Definition any_url (s : string) : result string := Val s.

(** Jane's stored profile with the time of its scrape. *)
Definition jane_timed_fields : list (string * json) :=
  [("name", JStr "Jane Doe"); ("timestamp", JStr "2025-09-19T22:48:00Z")].

Definition jane_timed : string :=
  "{" ++ quoted "name" ++ ": " ++ quoted "Jane Doe" ++ ", "
      ++ quoted "timestamp" ++ ": " ++ quoted "2025-09-19T22:48:00Z" ++ "}".

(** A store that holds that record. *)
Definition cached_jane_timed : world :=
  {| reply_create_client := Val tt;
     reply_search := fun _ _ => Val [ {| memory_text := jane_timed |} ];
     reply_write := fun _ _ => Val tt;
     reply_post := fun _ _ => Exn (ExternalError "provider unreachable");
     reply_get := fun _ _ => Exn (ExternalError "provider unreachable") |}.

Definition mixed_events : list (list (string * json)) :=
  [ [("interaction", JStr "Liked by Jane Doe")];
    [("interaction", JStr "Shared by Jane Doe")];
    [("title", JStr "A post")];
    [("interaction", JStr "Liked by Jane Doe")];
    [("interaction", JStr "Commented")] ].

Definition jane_with_mixed_events : list (string * json) :=
  [("name", JStr "Jane Doe");
   ("activity", JArr (map JObj mixed_events));
   ("city", JStr "Utrecht")].

(** An event with [null] for its interaction, and a profile that holds
    one. *)
Definition null_interaction : json :=
  JObj [("title", JStr "A post"); ("interaction", JNull)].

Definition jane_with_null_interaction : list (string * json) :=
  [("name", JStr "Jane Doe");
   ("activity",
    JArr [JObj [("interaction", JStr "Liked by Jane Doe")]; null_interaction])].

(** The query of [get_linkedin_profile_data_with_memory]. *)
Definition memory_lookup (default_min_relevance : QArith_base.Q)
    (profile_url user : string) : search_args :=
  {| query := "LinkedIn profile data for " ++ TestModule.username_of profile_url
              ++ " " ++ profile_url;
     search_topics := ["linkedin"; "profile"; TestModule.username_of profile_url];
     search_user_id := user;
     max_results := 1;
     min_relevance := default_min_relevance |}.

(** A semantic record of the profile [v] for the identity key
    [username]. *)
Definition is_profile_record (c : codec) (username user : string) (v : json)
    (r : ClientMemoryRecord) : Prop :=
  text r = dumps c v
  /\ memory_type r = SEMANTIC
  /\ topics r = ["linkedin"; "profile"; username; "scraped_data"]
  /\ namespace r = "linkedin_scraper"
  /\ user_id r = user.

(* ================================================================== *)
(** * Properties *)

(** ** The identity key *)

Section IdentityKey.
Import PyStr.

Lemma rstrip_snoc (c : ascii) (s : string) :
  rstrip c (s ++ String c EmptyString) = rstrip c s.
Proof.
  induction s as [|a t IH]; simpl.
  - now rewrite Ascii.eqb_refl.
  - now rewrite IH.
Qed.

Lemma split_not_nil (c : ascii) (s : string) : split c s <> [].
Proof.
  destruct s as [|a t]; simpl; [discriminate|].
  destruct (Ascii.eqb a c); [discriminate|].
  destruct (split c t); discriminate.
Qed.

Lemma rstrip_empty_split (c : ascii) (s : string) :
  rstrip c s = EmptyString -> drop_trailing_empty (split c s) = [].
Proof.
  induction s as [|a t IH]; simpl; intros H; [reflexivity|].
  destruct (rstrip c t) eqn:E; [|discriminate].
  destruct (Ascii.eqb a c); [|discriminate].
  simpl. now rewrite IH.
Qed.

Lemma split_rstrip (c : ascii) (s : string) :
  rstrip c s <> EmptyString ->
  split c (rstrip c s) = drop_trailing_empty (split c s).
Proof.
  induction s as [|a t IH]; simpl; intros H; [congruence|].
  destruct (rstrip c t) as [|b u] eqn:E.
  - pose proof (rstrip_empty_split c t E) as D.
    destruct (Ascii.eqb a c) eqn:Eac; [congruence|].
    simpl. rewrite Eac.
    destruct (split c t) as [|h r] eqn:Es; [now apply split_not_nil in Es|].
    simpl in *.
    destruct (drop_trailing_empty r); [|discriminate].
    destruct (nonempty h) eqn:Eh; [discriminate|].
    destruct h; [reflexivity|discriminate].
  - assert (Hne : String b u <> EmptyString) by discriminate.
    specialize (IH Hne).
    pose proof (split_not_nil c (String b u)) as N. rewrite IH in N.
    change (split c (String a (String b u)))
      with (if Ascii.eqb a c then EmptyString :: split c (String b u)
            else match split c (String b u) with
                 | [] => [String a EmptyString]
                 | h :: r => String a h :: r
                 end).
    rewrite IH.
    destruct (Ascii.eqb a c) eqn:Eac.
    + simpl. destruct (drop_trailing_empty (split c t)); [congruence|reflexivity].
    + destruct (split c t) as [|h r] eqn:Es; [now apply split_not_nil in Es|].
      simpl in N |- *.
      destruct (drop_trailing_empty r) eqn:Ed.
      * destruct (nonempty h); [reflexivity|congruence].
      * reflexivity.
Qed.

Lemma drop_trailing_empty_nil (l : list string) :
  drop_trailing_empty l = [] <-> filter nonempty l = [].
Proof.
  induction l as [|h r IH]; simpl; [tauto|].
  destruct (drop_trailing_empty r) eqn:Ed, (nonempty h) eqn:Eh; split; intros H;
    try discriminate; try reflexivity.
  - now apply IH.
  - apply IH in H. discriminate.
Qed.

Lemma last_drop_trailing_empty (l : list string) :
  last (drop_trailing_empty l) EmptyString = last (filter nonempty l) EmptyString.
Proof.
  induction l as [|h r IH]; simpl; [reflexivity|].
  destruct (drop_trailing_empty r) as [|x r'] eqn:Ed.
  - assert (F : filter nonempty r = []) by now apply drop_trailing_empty_nil.
    rewrite F. destruct (nonempty h); reflexivity.
  - change (last (h :: x :: r') EmptyString) with (last (x :: r') EmptyString).
    rewrite IH.
    destruct (nonempty h); [|reflexivity].
    destruct (filter nonempty r) eqn:F; [|reflexivity].
    apply drop_trailing_empty_nil in F. congruence.
Qed.

Lemma last_segment_after_rstrip (s : string) :
  last (split slash (rstrip slash s)) EmptyString = last_nonempty_segment s.
Proof.
  unfold last_nonempty_segment.
  rewrite <- last_drop_trailing_empty.
  destruct (rstrip slash s) eqn:E.
  - now rewrite (rstrip_empty_split _ _ E).
  - rewrite <- E, split_rstrip by congruence. reflexivity.
Qed.

End IdentityKey.

(** The identity key of a text does not change when a slash is appended
    to it, and it is the last non-empty field of the text cut at its
    slashes (the empty string when there is no such field); both programs
    derive it by the same expression. *)
Lemma identity_key_trailing_slash (profile_url : string) :
  Server.username_of (profile_url ++ "/") = Server.username_of profile_url
  /\ Server.username_of profile_url = last_nonempty_segment profile_url
  /\ TestModule.username_of profile_url = Server.username_of profile_url.
Proof.
  unfold Server.username_of, TestModule.username_of. repeat split.
  - now rewrite (rstrip_snoc PyStr.slash).
  - apply last_segment_after_rstrip.
Qed.

Example username_jane :
  Server.username_of "https://example.com/in/jane-doe/" = "jane-doe"
  /\ Server.username_of "https://example.com/in/jane-doe" = "jane-doe"
  /\ Server.username_of "https://example.com/in/jane-doe//" = "jane-doe".
Proof. repeat split; reflexivity. Qed.

(** C8, at a failing input.  The profile URL of Jane carries a query.
    Its last non-empty path segment is her user name, but the identity key
    the programs derive is the query: the text is cut at every slash, the
    query included.  The profile URL of John with the same query gets the
    same key and so the same cache lookup, and a store that holds Jane's
    profile under that key answers John's request with it, the provider
    never being called.  A URL without a path gets its host as key. *)
Theorem identity_key_of_a_url_with_a_query :
  Url.last_nonempty_path_segment jane_tracked = "jane-doe"
  /\ Server.username_of jane_tracked = "?trk=public_profile"
  /\ TestModule.username_of jane_tracked = "?trk=public_profile"
  /\ Url.last_nonempty_path_segment john_tracked = "john-roe"
  /\ Server.username_of john_tracked = Server.username_of jane_tracked
  /\ (forall user,
        cache_lookup (Server.username_of john_tracked) user
        = cache_lookup (Server.username_of jane_tracked) user)
  /\ run (Server.smart_linkedin_scraper RefJson.ref_codec store_after_jane_tracked
            john_tracked "api_user")
     = (Val jane,
        [CreateClient;
         Print "Checking RAMS for cached data for username: {username}";
         SearchMemory (cache_lookup "?trk=public_profile" "api_user");
         Print "Found cached data in RAMS!";
         CloseClient])
  /\ Url.last_nonempty_path_segment "https://www.linkedin.com" = EmptyString
  /\ Server.username_of "https://www.linkedin.com" = "www.linkedin.com".
Proof. vm_compute. repeat split. Qed.

(* ================================================================== *)
(** ** Cache hit *)

(** C1. When the client opens, the first search (one result at most,
    relevance 0.5 at least) answers with at least one record and the text of
    the first record decodes, [smart_linkedin_scraper] returns the decoded
    value as it is, calls the scrape provider zero times and writes nothing
    to the memory store; so do both copies of the function. *)
Theorem cache_hit_returns_cached
    (c : codec) (w : world) (profile_url user : string)
    (m : memory) (rest : list memory) (cached_data : json) :
  reply_create_client w = Val tt ->
  reply_search w 0 (cache_lookup (Server.username_of profile_url) user)
    = Val (m :: rest) ->
  loads c (memory_text m) = Some cached_data ->
  forall r tr,
    run (Server.smart_linkedin_scraper c w profile_url user) = (r, tr)
    \/ run (TestModule.smart_linkedin_scraper c w profile_url user) = (r, tr) ->
    r = Val cached_data
    /\ filter is_provider_call tr = []
    /\ filter is_write tr = []
    /\ effects tr = [CreateClient;
                     SearchMemory (cache_lookup (Server.username_of profile_url) user);
                     CloseClient].
Proof.
  intros Hc Hs Hl r tr H.
  set (username := Server.username_of profile_url) in *.
  unfold cache_lookup in *.
  destruct H as [H|H]; revert H;
    unfold run, Server.smart_linkedin_scraper, TestModule.smart_linkedin_scraper,
      Server.check_rams, TestModule.check_rams,
      try_finally, bind, create_memory_client, search_memory_tool, print,
      try_except, json_loads, client_close, ret, log;
    fold username;
    change (TestModule.username_of profile_url) with username;
    cbn [initial n_search n_write n_post n_get trace];
    rewrite Hc; cbn [initial n_search n_write n_post n_get trace];
    rewrite Hs, Hl; cbn;
    intros H; inversion H; subst; repeat split; reflexivity.
Qed.

(* ================================================================== *)
(** ** Runs that differ only in logging *)

Lemma effects_app (a b : list event) :
  effects (a ++ b)%list = (effects a ++ effects b)%list.
Proof. apply filter_app. Qed.

Section Simulation.
(** The two sides may have been answered differently by the searches
    numbered below [k]. *)
Variable k : nat.

Lemma sim_sym s1 s2 : sim k s1 s2 -> sim k s2 s1.
Proof. unfold sim. intuition congruence. Qed.



Lemma equiv_sym {A} (m1 m2 : M A) : equiv k m1 m2 -> equiv k m2 m1.
Proof.
  intros H s1 s2 S. destruct (H s2 s1 (sim_sym _ _ S)) as [E S'].
  split; [congruence|now apply sim_sym].
Qed.


Lemma equiv_ret {A} (a : A) : equiv k (ret a) (ret a).
Proof. intros s1 s2 S. now split. Qed.

Lemma equiv_raise {A} (e : exn) : equiv k (@raise A e) (raise e).
Proof. intros s1 s2 S. now split. Qed.

Lemma equiv_lift {A} (r : result A) : equiv k (lift r) (lift r).
Proof. intros s1 s2 S. now split. Qed.

Lemma equiv_bind {A B} (m1 m2 : M A) (k1 k2 : A -> M B) :
  equiv k m1 m2 -> (forall a, equiv k (k1 a) (k2 a)) ->
  equiv k (bind m1 k1) (bind m2 k2).
Proof.
  intros H K s1 s2 S. unfold bind.
  destruct (H s1 s2 S) as [E S'].
  destruct (m1 s1) as [[a|e] t1], (m2 s2) as [[b|e'] t2]; simpl in *;
    try discriminate; inversion E; subst; [now apply K|now split].
Qed.

Lemma equiv_try_except {A} (b1 b2 : M A) (catches : exn -> bool)
    (h1 h2 : exn -> M A) :
  equiv k b1 b2 -> (forall e, equiv k (h1 e) (h2 e)) ->
  equiv k (try_except b1 catches h1) (try_except b2 catches h2).
Proof.
  intros H K s1 s2 S. unfold try_except.
  destruct (H s1 s2 S) as [E S'].
  destruct (b1 s1) as [[a|e] t1], (b2 s2) as [[b|e'] t2]; simpl in *;
    try discriminate; inversion E; subst; [now split|].
  destruct (catches e'); [now apply K|now split].
Qed.

Lemma equiv_try_finally {A} (b1 b2 : M A) (f1 f2 : M unit) :
  equiv k b1 b2 -> equiv k f1 f2 ->
  equiv k (try_finally b1 f1) (try_finally b2 f2).
Proof.
  intros H F s1 s2 S. unfold try_finally.
  destruct (H s1 s2 S) as [E S'].
  destruct (b1 s1) as [r1 t1], (b2 s2) as [r2 t2]; simpl in *; subst.
  destruct (F t1 t2 S') as [E' S''].
  destruct (f1 t1) as [[[]|e] u1], (f2 t2) as [[[]|e'] u2]; simpl in *;
    try discriminate; inversion E'; subst; now split.
Qed.

Lemma sim_print_l msg s1 s2 : sim k s1 s2 -> sim k (log (Print msg) s1) s2.
Proof.
  unfold sim, log; simpl. rewrite effects_app; simpl.
  rewrite app_nil_r. tauto.
Qed.

Lemma equiv_print (a b : string) : equiv k (print a) (print b).
Proof.
  intros s1 s2 S. split; [reflexivity|]. simpl.
  apply sim_print_l, sim_sym, sim_print_l, sim_sym, S.
Qed.

Lemma equiv_print_l {A} (a : string) (m1 m2 : M A) :
  equiv k m1 m2 -> equiv k (bind (print a) (fun _ => m1)) m2.
Proof.
  intros H s1 s2 S. unfold bind, print.
  apply H, sim_print_l, S.
Qed.

Lemma equiv_print_r {A} (a : string) (m1 m2 : M A) :
  equiv k m1 m2 -> equiv k m1 (bind (print a) (fun _ => m2)).
Proof. intros H. apply equiv_sym, equiv_print_l, equiv_sym, H. Qed.

Lemma equiv_sleep (z : Z) : equiv k (time_sleep z) (time_sleep z).
Proof.
  intros s1 s2 S. split; [reflexivity|].
  unfold sim, time_sleep, log in *; simpl. rewrite !effects_app.
  intuition congruence.
Qed.

Lemma equiv_close : equiv k client_close client_close.
Proof.
  intros s1 s2 S. split; [reflexivity|].
  unfold sim, client_close, log in *; simpl. rewrite !effects_app.
  intuition congruence.
Qed.

Lemma equiv_json_loads (c : codec) (s : string) :
  equiv k (json_loads c s) (json_loads c s).
Proof.
  unfold json_loads. destruct (loads c s); [apply equiv_ret|apply equiv_raise].
Qed.

Section Worlds.
Variables w1 w2 : world.
Hypothesis agree_create : reply_create_client w1 = reply_create_client w2.
Hypothesis agree_search :
  forall n a, (k <= n)%nat -> reply_search w1 n a = reply_search w2 n a.
Hypothesis agree_write : forall n a, reply_write w1 n a = reply_write w2 n a.
Hypothesis agree_post : forall n a, reply_post w1 n a = reply_post w2 n a.
Hypothesis agree_get : forall n a, reply_get w1 n a = reply_get w2 n a.

Lemma equiv_post (data : json) :
  equiv k (requests_post w1 data) (requests_post w2 data).
Proof.
  intros s1 s2 S. unfold sim, requests_post in *; simpl.
  rewrite !effects_app.
  destruct S as (S1 & S2 & S3 & S4 & S5 & S6).
  rewrite S4, agree_post. intuition congruence.
Qed.

Lemma equiv_get (snapshot_id : json) :
  equiv k (requests_get w1 snapshot_id) (requests_get w2 snapshot_id).
Proof.
  intros s1 s2 S. unfold sim, requests_get in *; simpl.
  rewrite !effects_app.
  destruct S as (S1 & S2 & S3 & S4 & S5 & S6).
  rewrite S5, agree_get. intuition congruence.
Qed.

Lemma equiv_search (args : search_args) :
  equiv k (search_memory_tool w1 args) (search_memory_tool w2 args).
Proof.
  intros s1 s2 S. unfold sim, search_memory_tool in *; simpl.
  rewrite !effects_app.
  destruct S as (S1 & S2 & S3 & S4 & S5 & S6).
  rewrite <- S1, agree_search by assumption.
  repeat split; try congruence. lia.
Qed.

Lemma equiv_write (records : list ClientMemoryRecord) :
  equiv k (create_long_term_memory w1 records) (create_long_term_memory w2 records).
Proof.
  intros s1 s2 S. unfold sim, create_long_term_memory in *; simpl.
  rewrite !effects_app.
  destruct S as (S1 & S2 & S3 & S4 & S5 & S6).
  rewrite S3, agree_write. intuition congruence.
Qed.

Lemma equiv_create :
  equiv k (create_memory_client w1) (create_memory_client w2).
Proof.
  intros s1 s2 S. unfold create_memory_client. rewrite agree_create.
  destruct (reply_create_client w2); [|now split].
  split; [reflexivity|].
  unfold sim, log in *; simpl. rewrite !effects_app.
  intuition congruence.
Qed.
End Worlds.
End Simulation.

Ltac equiv_step :=
  lazymatch goal with
  | |- equiv _ (bind (print _) _) _ => apply equiv_print_l
  | |- equiv _ _ (bind (print _) _) => apply equiv_print_r
  | |- equiv _ (bind _ _) (bind _ _) => apply equiv_bind; [|intros ?]
  | |- equiv _ (try_except _ _ _) (try_except _ _ _) =>
      apply equiv_try_except; [|intros ?]
  | |- equiv _ (try_finally _ _) (try_finally _ _) => apply equiv_try_finally
  | |- equiv _ (ret _) (ret _) => apply equiv_ret
  | |- equiv _ (raise _) (raise _) => apply equiv_raise
  | |- equiv _ (lift _) (lift _) => apply equiv_lift
  | |- equiv _ (print _) (print _) => apply equiv_print
  | |- equiv _ (time_sleep _) (time_sleep _) => apply equiv_sleep
  | |- equiv _ client_close client_close => apply equiv_close
  | |- equiv _ (json_loads _ _) (json_loads _ _) => apply equiv_json_loads
  | |- equiv _ (response_json _ _) (response_json _ _) => apply equiv_json_loads
  | |- equiv _ (requests_post _ _) (requests_post _ _) => apply equiv_post; assumption
  | |- equiv _ (requests_get _ _) (requests_get _ _) => apply equiv_get; assumption
  | |- equiv _ (search_memory_tool _ _) (search_memory_tool _ _) =>
      apply equiv_search; assumption
  | |- equiv _ (create_long_term_memory _ _) (create_long_term_memory _ _) =>
      apply equiv_write; assumption
  | |- equiv _ (create_memory_client _) (create_memory_client _) =>
      apply equiv_create; assumption
  | |- equiv _ (if ?b then _ else _) _ => destruct b
  | |- equiv _ (match ?x with _ => _ end) _ => destruct x
  end.

Ltac equiv_auto := repeat (cbv beta; equiv_step).

(** The server copy run in one world against the test copy run in
    another, the two worlds answering alike from the [k]-th search on. *)
Section Copies.
Variable c : codec.
Variables w1 w2 : world.
Variable k : nat.
Hypothesis agree_create : reply_create_client w1 = reply_create_client w2.
Hypothesis agree_search :
  forall n a, (k <= n)%nat -> reply_search w1 n a = reply_search w2 n a.
Hypothesis agree_write : forall n a, reply_write w1 n a = reply_write w2 n a.
Hypothesis agree_post : forall n a, reply_post w1 n a = reply_post w2 n a.
Hypothesis agree_get : forall n a, reply_get w1 n a = reply_get w2 n a.

Lemma trigger_attempt_equiv (len i : nat) (data : json) :
  equiv k (Server.trigger_attempt c w1 len i data)
          (TestModule.trigger_attempt c w2 len i data).
Proof.
  unfold Server.trigger_attempt, TestModule.trigger_attempt. equiv_auto.
Qed.

Lemma trigger_loop_equiv (len : nat) (todo : list (nat * json)) (sid : json) :
  equiv k (Server.trigger_loop c w1 len todo sid)
          (TestModule.trigger_loop c w2 len todo sid).
Proof.
  induction todo as [|[i data] rest IH]; simpl; [apply equiv_ret|].
  apply equiv_bind; [apply trigger_attempt_equiv|].
  intros [|s]; [exact IH|apply equiv_ret].
Qed.

Lemma poll_attempt_equiv (sid : json) (attempt : nat) :
  equiv k (Server.poll_attempt c w1 sid attempt)
          (TestModule.poll_attempt c w2 sid attempt).
Proof.
  unfold Server.poll_attempt, TestModule.poll_attempt. equiv_auto.
Qed.

Lemma poll_loop_equiv (sid : json) (attempts : list nat) :
  equiv k (Server.poll_loop c w1 sid attempts)
          (TestModule.poll_loop c w2 sid attempts).
Proof.
  induction attempts as [|attempt rest IH]; simpl; [equiv_auto|].
  apply equiv_bind; [apply poll_attempt_equiv|].
  intros [|s]; [exact IH|apply equiv_ret].
Qed.

Lemma scrape_new_profile_equiv (profile_url : string) :
  equiv k (Server._scrape_new_profile c w1 profile_url)
          (TestModule._scrape_new_profile c w2 profile_url).
Proof.
  unfold Server._scrape_new_profile, TestModule._scrape_new_profile.
  apply equiv_bind; [apply trigger_loop_equiv|].
  intros sid. destruct (negb (Py.truthy sid)); equiv_auto.
  apply poll_loop_equiv.
Qed.

Lemma check_rams_equiv (username user : string) :
  equiv k (Server.check_rams c w1 username user)
          (TestModule.check_rams c w2 username user).
Proof.
  unfold Server.check_rams, TestModule.check_rams. equiv_auto.
Qed.

Lemma already_exists_equiv (username : string) (memories : list memory) :
  equiv k (Server.already_exists c username memories)
          (TestModule.already_exists c username memories).
Proof.
  induction memories as [|mem rest IH]; simpl; [apply equiv_ret|].
  apply equiv_bind; [equiv_auto|].
  intros [|s]; [exact IH|apply equiv_ret].
Qed.

Lemma activity_loop_equiv (username user : string) (scraped_data : json)
    (activities : list json) (acc : list ClientMemoryRecord) :
  equiv k (Server.activity_loop username user scraped_data activities acc)
          (TestModule.activity_loop username user scraped_data activities acc).
Proof.
  revert acc. induction activities as [|a rest IH]; intros acc; simpl;
    [apply equiv_ret|].
  apply equiv_bind.
  - unfold Server.activity_record, TestModule.activity_record. equiv_auto.
  - intros r. apply IH.
Qed.

Lemma store_profile_equiv (username user : string) (scraped_data : json) :
  equiv k (Server.store_profile c w1 username user scraped_data)
          (TestModule.store_profile c w2 username user scraped_data).
Proof.
  unfold Server.store_profile, TestModule.store_profile,
    Server.profile_record, TestModule.profile_record.
  equiv_auto; apply activity_loop_equiv.
Qed.

Lemma store_unless_exists_equiv (username user : string) (scraped_data : json) :
  equiv k (Server.store_unless_exists c w1 username user scraped_data)
          (TestModule.store_unless_exists c w2 username user scraped_data).
Proof.
  unfold Server.store_unless_exists, TestModule.store_unless_exists.
  apply equiv_bind; [equiv_auto|]. intros memories.
  apply equiv_bind; [apply already_exists_equiv|]. intros b.
  apply equiv_bind; [|intros; apply equiv_ret].
  destruct (negb b); [apply store_profile_equiv|apply equiv_ret].
Qed.

Lemma scrape_and_store_equiv (profile_url username user : string) :
  equiv k (Server.scrape_and_store c w1 profile_url username user)
          (TestModule.scrape_and_store c w2 profile_url username user).
Proof.
  unfold Server.scrape_and_store, TestModule.scrape_and_store.
  apply equiv_print_l, equiv_print_r.
  apply equiv_bind; [apply scrape_new_profile_equiv|].
  intros scraped; destruct scraped;
    solve [apply equiv_raise | apply store_unless_exists_equiv].
Qed.

Lemma smart_linkedin_scraper_equiv (profile_url user : string) :
  equiv k (Server.smart_linkedin_scraper c w1 profile_url user)
          (TestModule.smart_linkedin_scraper c w2 profile_url user).
Proof.
  unfold Server.smart_linkedin_scraper, TestModule.smart_linkedin_scraper.
  apply equiv_bind; [equiv_auto|]. intros _.
  apply equiv_try_finally; [|apply equiv_close].
  apply equiv_bind; [apply check_rams_equiv|].
  intros [|v]; [apply scrape_and_store_equiv|apply equiv_ret].
Qed.
End Copies.

Lemma filter_write_effects (tr : list event) :
  filter is_write tr = filter is_write (effects tr).
Proof.
  unfold effects. induction tr as [|e tr IH]; simpl; [reflexivity|].
  destruct e; simpl; rewrite ?IH; reflexivity.
Qed.

Lemma sim_initial : sim 0 initial initial.
Proof. unfold sim; simpl. repeat split; lia. Qed.

(** C10. Given the same URL, the same user id and the same replies of the
    provider and of the memory store, the server copy and the test copy of
    [smart_linkedin_scraper], and of [_scrape_new_profile], end with the
    same outcome (value or exception) after the same calls, sleeps and
    store writes in the same order: their traces differ in [Print] events
    only. *)
Theorem copies_behave_alike (c : codec) (w : world) (profile_url user : string) :
  (let '(r1, tr1) := run (Server.smart_linkedin_scraper c w profile_url user) in
   let '(r2, tr2) := run (TestModule.smart_linkedin_scraper c w profile_url user) in
   r1 = r2 /\ effects tr1 = effects tr2
   /\ filter is_write tr1 = filter is_write tr2)
  /\
  (let '(r1, tr1) := run (Server._scrape_new_profile c w profile_url) in
   let '(r2, tr2) := run (TestModule._scrape_new_profile c w profile_url) in
   r1 = r2 /\ effects tr1 = effects tr2).
Proof.
  split.
  - pose proof (smart_linkedin_scraper_equiv c w w 0 eq_refl
                  (fun _ _ _ => eq_refl) (fun _ _ => eq_refl)
                  (fun _ _ => eq_refl) (fun _ _ => eq_refl)
                  profile_url user initial initial sim_initial) as [E S].
    unfold run.
    destruct (Server.smart_linkedin_scraper c w profile_url user initial) as [r1 s1].
    destruct (TestModule.smart_linkedin_scraper c w profile_url user initial) as [r2 s2].
    simpl in *. destruct S as (_ & _ & _ & _ & _ & T).
    repeat split; try assumption.
    rewrite (filter_write_effects (trace s1)), (filter_write_effects (trace s2)).
    now rewrite T.
  - pose proof (scrape_new_profile_equiv c w w 0
                  (fun _ _ => eq_refl) (fun _ _ => eq_refl)
                  profile_url initial initial sim_initial) as [E S].
    unfold run.
    destruct (Server._scrape_new_profile c w profile_url initial) as [r1 s1].
    destruct (TestModule._scrape_new_profile c w profile_url initial) as [r2 s2].
    simpl in *. destruct S as (_ & _ & _ & _ & _ & T). now split.
Qed.

(* ================================================================== *)
(** ** The memory-store session *)

Section Emits.
(** A class of events that contains everything but, possibly, the
    opening and the closing of the session. *)
Variable P : event -> bool.
Hypothesis P_print : forall s, P (Print s) = true.
Hypothesis P_sleep : forall z, P (Sleep z) = true.
Hypothesis P_post : forall d, P (HttpPost d) = true.
Hypothesis P_get : forall d, P (HttpGet d) = true.
Hypothesis P_search : forall a, P (SearchMemory a) = true.
Hypothesis P_write : forall r, P (CreateLongTermMemory r) = true.

Lemma emits_ret {A} (a : A) : emits P (ret a).
Proof. intros st. exists []. simpl. now rewrite app_nil_r. Qed.

Lemma emits_raise {A} (e : exn) : emits P (@raise A e).
Proof. intros st. exists []. simpl. now rewrite app_nil_r. Qed.

Lemma emits_lift {A} (r : result A) : emits P (lift r).
Proof. intros st. exists []. simpl. now rewrite app_nil_r. Qed.

Lemma emits_bind {A B} (m : M A) (k : A -> M B) :
  emits P m -> (forall a, emits P (k a)) -> emits P (bind m k).
Proof.
  intros H K st. unfold bind. destruct (H st) as (e1 & T1 & F1).
  destruct (m st) as [[a|e] st1]; simpl in *; [|now exists e1].
  destruct (K a st1) as (e2 & T2 & F2).
  exists (e1 ++ e2)%list. rewrite T2, T1, app_assoc, forallb_app, F1, F2.
  now split.
Qed.

Lemma emits_try_except {A} (b : M A) (catches : exn -> bool) (h : exn -> M A) :
  emits P b -> (forall e, emits P (h e)) -> emits P (try_except b catches h).
Proof.
  intros H K st. unfold try_except. destruct (H st) as (e1 & T1 & F1).
  destruct (b st) as [[a|e] st1]; simpl in *; [now exists e1|].
  destruct (catches e); [|now exists e1].
  destruct (K e st1) as (e2 & T2 & F2).
  exists (e1 ++ e2)%list. rewrite T2, T1, app_assoc, forallb_app, F1, F2.
  now split.
Qed.

Lemma emits_one {A} (f : state -> result A) (e : event) (upd : state -> state) :
  P e = true -> (forall st, trace (upd st) = (trace st ++ [e])%list) ->
  emits P (fun st => (f st, upd st)).
Proof.
  intros Pe U st. exists [e]. simpl. rewrite U, Pe. now split.
Qed.

Lemma emits_print (s : string) : emits P (print s).
Proof.
  apply (emits_one (fun _ => Val tt) (Print s)); [apply P_print|reflexivity].
Qed.

Lemma emits_sleep (z : Z) : emits P (time_sleep z).
Proof.
  apply (emits_one (fun _ => Val tt) (Sleep z)); [apply P_sleep|reflexivity].
Qed.

Lemma emits_json_loads (c : codec) (s : string) : emits P (json_loads c s).
Proof.
  unfold json_loads. destruct (loads c s); [apply emits_ret|apply emits_raise].
Qed.

Lemma emits_post (w : world) (d : json) : emits P (requests_post w d).
Proof.
  apply (emits_one (fun st => reply_post w (n_post st) d) (HttpPost d));
    [apply P_post|reflexivity].
Qed.

Lemma emits_get (w : world) (d : json) : emits P (requests_get w d).
Proof.
  apply (emits_one (fun st => reply_get w (n_get st) d) (HttpGet d));
    [apply P_get|reflexivity].
Qed.

Lemma emits_search (w : world) (a : search_args) : emits P (search_memory_tool w a).
Proof.
  apply (emits_one (fun st => reply_search w (n_search st) a) (SearchMemory a));
    [apply P_search|reflexivity].
Qed.

Lemma emits_write (w : world) (r : list ClientMemoryRecord) :
  emits P (create_long_term_memory w r).
Proof.
  apply (emits_one (fun st => reply_write w (n_write st) r)
           (CreateLongTermMemory r));
    [apply P_write|reflexivity].
Qed.
End Emits.

Ltac emits_step :=
  lazymatch goal with
  | |- emits _ (bind _ _) => apply emits_bind; [|intros ?]
  | |- emits _ (try_except _ _ _) => apply emits_try_except; [|intros ?]
  | |- emits _ (ret _) => apply emits_ret
  | |- emits _ (raise _) => apply emits_raise
  | |- emits _ (lift _) => apply emits_lift
  | |- emits _ (print _) => apply emits_print; assumption
  | |- emits _ (time_sleep _) => apply emits_sleep; assumption
  | |- emits _ (json_loads _ _) => apply emits_json_loads
  | |- emits _ (response_json _ _) => apply emits_json_loads
  | |- emits _ (requests_post _ _) => apply emits_post; assumption
  | |- emits _ (requests_get _ _) => apply emits_get; assumption
  | |- emits _ (search_memory_tool _ _) => apply emits_search; assumption
  | |- emits _ (create_long_term_memory _ _) => apply emits_write; assumption
  | |- emits _ (if ?b then _ else _) => destruct b
  | |- emits _ (match ?x with _ => _ end) => destruct x
  end.

Ltac emits_auto := repeat (cbv beta; emits_step).

Section ServerEmits.
Variable c : codec.
Variable w : world.
Variable P : event -> bool.
Hypothesis P_print : forall s, P (Print s) = true.
Hypothesis P_sleep : forall z, P (Sleep z) = true.
Hypothesis P_post : forall d, P (HttpPost d) = true.
Hypothesis P_get : forall d, P (HttpGet d) = true.
Hypothesis P_search : forall a, P (SearchMemory a) = true.
Hypothesis P_write : forall r, P (CreateLongTermMemory r) = true.

Lemma trigger_loop_emits (len : nat) (todo : list (nat * json)) (sid : json) :
  emits P (Server.trigger_loop c w len todo sid).
Proof.
  induction todo as [|[i data] rest IH]; simpl; [apply emits_ret|].
  apply emits_bind.
  - unfold Server.trigger_attempt. emits_auto.
  - intros [|s]; [exact IH|apply emits_ret].
Qed.

Lemma poll_loop_emits (sid : json) (attempts : list nat) :
  emits P (Server.poll_loop c w sid attempts).
Proof.
  induction attempts as [|attempt rest IH]; simpl; [emits_auto|].
  apply emits_bind.
  - unfold Server.poll_attempt. emits_auto.
  - intros [|s]; [exact IH|apply emits_ret].
Qed.

Lemma scrape_new_profile_emits (profile_url : string) :
  emits P (Server._scrape_new_profile c w profile_url).
Proof.
  unfold Server._scrape_new_profile.
  apply emits_bind; [apply trigger_loop_emits|].
  intros sid. destruct (negb (Py.truthy sid)); emits_auto.
  apply poll_loop_emits.
Qed.

Lemma already_exists_emits (username : string) (memories : list memory) :
  emits P (Server.already_exists c username memories).
Proof.
  induction memories as [|mem rest IH]; simpl; [apply emits_ret|].
  apply emits_bind; [emits_auto|].
  intros [|s]; [exact IH|apply emits_ret].
Qed.

Lemma activity_loop_emits (username user : string) (scraped_data : json)
    (activities : list json) (acc : list ClientMemoryRecord) :
  emits P (Server.activity_loop username user scraped_data activities acc).
Proof.
  revert acc. induction activities as [|a rest IH]; intros acc; simpl;
    [apply emits_ret|].
  apply emits_bind; [unfold Server.activity_record; emits_auto|].
  intros r. apply IH.
Qed.

Lemma store_unless_exists_emits (username user : string) (scraped_data : json) :
  emits P (Server.store_unless_exists c w username user scraped_data).
Proof.
  unfold Server.store_unless_exists.
  apply emits_bind; [emits_auto|]. intros memories.
  apply emits_bind; [apply already_exists_emits|]. intros b.
  apply emits_bind; [|intros; apply emits_ret].
  destruct (negb b); [|apply emits_ret].
  unfold Server.store_profile, Server.profile_record.
  emits_auto; apply activity_loop_emits.
Qed.

Lemma scrape_and_store_emits (profile_url username user : string) :
  emits P (Server.scrape_and_store c w profile_url username user).
Proof.
  unfold Server.scrape_and_store.
  apply emits_bind; [emits_auto|]. intros _.
  apply emits_bind; [apply scrape_new_profile_emits|].
  intros scraped; destruct scraped;
    solve [apply emits_raise | apply store_unless_exists_emits].
Qed.

Lemma lookup_or_scrape_emits (profile_url username user : string) :
  emits P (cached <- Server.check_rams c w username user ;;
           match cached with
           | Stop cached_data => ret cached_data
           | Next => Server.scrape_and_store c w profile_url username user
           end).
Proof.
  apply emits_bind; [unfold Server.check_rams; emits_auto|].
  intros [|v]; [apply scrape_and_store_emits|apply emits_ret].
Qed.
End ServerEmits.

(** C9. Whenever [create_memory_client] returns a client,
    [smart_linkedin_scraper] closes it exactly once and as the last thing it
    does, whether it returns (cache hit, stored scrape, duplicate skipped) or
    raises (failed scrape, error of the store, error of a malformed value);
    when the client cannot be created the exception is raised with nothing
    opened. *)
Theorem session_closed_on_every_path
    (c : codec) (w : world) (profile_url user : string) :
  let '(r, tr) := run (Server.smart_linkedin_scraper c w profile_url user) in
  match reply_create_client w with
  | Val _ =>
      exists mid, tr = (CreateClient :: mid ++ [CloseClient])%list
                  /\ forallb (fun e => negb (is_session e)) mid = true
  | Exn e => r = Exn e /\ tr = []
  end.
Proof.
  unfold run, Server.smart_linkedin_scraper.
  unfold bind at 1, create_memory_client.
  destruct (reply_create_client w) as [[]|e]; [|now split].
  unfold try_finally, client_close. cbv zeta.
  destruct (lookup_or_scrape_emits c w (fun e => negb (is_session e))
              (fun _ => eq_refl) (fun _ => eq_refl) (fun _ => eq_refl)
              (fun _ => eq_refl) (fun _ => eq_refl) (fun _ => eq_refl)
              profile_url (Server.username_of profile_url) user
              (log CreateClient initial)) as (mid & T & F).
  revert T.
  match goal with
  | |- context [snd ?m] => destruct m as [r st]
  end.
  simpl. intros T. exists mid. rewrite T. now split.
Qed.

(* ================================================================== *)
(** ** What a call starts with *)

(** A trace that begins with [l] still begins with [l] after anything
    that only adds events. *)
Section Grows.

Lemma grows_bind {A B} (m : M A) (k : A -> M B) (l : list event) (st : state) :
  (exists e, trace (snd (m st)) = (l ++ e)%list) ->
  (forall a, emits (fun _ => true) (k a)) ->
  exists e, trace (snd (bind m k st)) = (l ++ e)%list.
Proof.
  intros (e1 & E1) K. unfold bind.
  destruct (m st) as [[a|x] st1]; cbn [snd] in *.
  - destruct (K a st1) as (e2 & E2 & _). exists (e1 ++ e2)%list.
    now rewrite E2, E1, app_assoc.
  - now exists e1.
Qed.

Lemma grows_try_except {A} (body : M A) (catches : exn -> bool)
    (h : exn -> M A) (l : list event) (st : state) :
  (exists e, trace (snd (body st)) = (l ++ e)%list) ->
  (forall x, emits (fun _ => true) (h x)) ->
  exists e, trace (snd (try_except body catches h st)) = (l ++ e)%list.
Proof.
  intros (e1 & E1) K. unfold try_except.
  destruct (body st) as [[a|x] st1]; cbn [snd] in *.
  - now exists e1.
  - destruct (catches x); [|now exists e1].
    destruct (K x st1) as (e2 & E2 & _). exists (e1 ++ e2)%list.
    now rewrite E2, E1, app_assoc.
Qed.

Lemma grows_try_finally {A} (body : M A) (cleanup : M unit)
    (l : list event) (st : state) :
  (exists e, trace (snd (body st)) = (l ++ e)%list) ->
  emits (fun _ => true) cleanup ->
  exists e, trace (snd (try_finally body cleanup st)) = (l ++ e)%list.
Proof.
  intros (e1 & E1) K. unfold try_finally.
  destruct (body st) as [r st1]; cbn [snd] in *.
  destruct (K st1) as (e2 & E2 & _).
  destruct (cleanup st1) as [[[]|x] st2]; cbn [snd] in *;
    exists (e1 ++ e2)%list; now rewrite E2, E1, app_assoc.
Qed.
End Grows.

Section Begins.
Variable c : codec.
Variable w : world.

Ltac any_event := intros; reflexivity.

Ltac emits_any :=
  let P1 := fresh in let P2 := fresh in let P3 := fresh in
  let P4 := fresh in let P5 := fresh in
  assert (P1 : forall s : string, true = true) by reflexivity;
  assert (P2 : forall z : Z, true = true) by reflexivity;
  assert (P3 : forall d : json, true = true) by reflexivity;
  assert (P4 : forall a : search_args, true = true) by reflexivity;
  assert (P5 : forall r : list ClientMemoryRecord, true = true) by reflexivity;
  emits_auto.



Lemma smart_begins_with_the_lookup (profile_url user : string) (st : state) :
  reply_create_client w = Val tt ->
  exists e,
    trace (snd (Server.smart_linkedin_scraper c w profile_url user st))
    = ((trace st
        ++ [CreateClient;
            Print "Checking RAMS for cached data for username: {username}";
            SearchMemory (cache_lookup (Server.username_of profile_url) user)])
       ++ e)%list.
Proof.
  intros Hc. unfold Server.smart_linkedin_scraper. cbv zeta.
  unfold bind at 1, create_memory_client. rewrite Hc.
  apply grows_try_finally; [|intros s; exists [CloseClient]; now split].
  apply grows_bind.
  - unfold Server.check_rams. unfold bind at 1. unfold print at 1.
    unfold bind at 1, search_memory_tool.
    cbn [log n_search n_write n_post n_get trace].
    destruct (reply_search w (n_search st) _) as [memories|x]; cbv beta iota.
    + match goal with
      | |- context [snd (?k ?s)] => assert (E : emits (fun _ => true) k)
      end.
      { emits_any. }
      match goal with
      | |- context [snd (?k ?s)] => destruct (E s) as (e & Ee & _)
      end.
      exists e. rewrite Ee. cbn [trace]. unfold cache_lookup.
      now rewrite <- !app_assoc.
    + exists []. cbn [snd trace]. unfold cache_lookup.
      now rewrite <- !app_assoc, app_nil_r.
  - intros [|v]; [apply scrape_and_store_emits; any_event|apply emits_ret].
Qed.
End Begins.

(* ================================================================== *)
(** ** A corrupt cache record *)




(* ================================================================== *)
(** ** The scrape initiator *)

Section Initiator.
Variable c : codec.
Variable w : world.

Lemma trigger_attempt_rejected (len i : nat) (data : json) (st : state) :
  accepted c (reply_post w (n_post st) data) = None ->
  exists st',
    Server.trigger_attempt c w len i data st = (Val Next, st')
    /\ advanced st st' 1 0 [HttpPost data].
Proof.
  unfold accepted, Server.trigger_attempt, try_except, bind, print,
    requests_post, response_json, json_loads, lift, raise, ret, advanced.
  destruct (i <? len - 1)%nat;
    cbn [log n_search n_write n_post n_get trace];
    (destruct (reply_post w (n_post st) data) as [resp|e]; cbn;
     [destruct (status_code resp =? 200)%Z; cbn;
      [destruct (loads c (response_text resp)) as [v|]; cbn;
       [destruct v; try discriminate|]|]|]);
    intros _; eexists; (split; [reflexivity|]);
    cbn; rewrite !effects_app; cbn; rewrite ?app_nil_r;
    repeat split; lia.
Qed.

Lemma trigger_attempt_accepted (len i : nat) (data : json) (st : state)
    (fields : list (string * json)) :
  accepted c (reply_post w (n_post st) data) = Some fields ->
  exists st',
    Server.trigger_attempt c w len i data st
      = (Val (Stop (snapshot_id_of fields)), st')
    /\ advanced st st' 1 0 [HttpPost data].
Proof.
  unfold accepted, Server.trigger_attempt, try_except, bind, print,
    requests_post, response_json, json_loads, lift, raise, ret, advanced.
  cbn [log n_search n_write n_post n_get trace].
  destruct (reply_post w (n_post st) data) as [resp|e]; cbn; [|discriminate].
  destruct (status_code resp =? 200)%Z; cbn; [|discriminate].
  destruct (loads c (response_text resp)) as [v|]; cbn; [|discriminate].
  destruct v; try discriminate. intros H; inversion H; subst; cbn.
  eexists; split; [reflexivity|].
  cbn; rewrite !effects_app; cbn; rewrite ?app_nil_r. repeat split; lia.
Qed.

Lemma advanced_trans st1 st2 st3 p1 g1 e1 p2 g2 e2 :
  advanced st1 st2 p1 g1 e1 -> advanced st2 st3 p2 g2 e2 ->
  advanced st1 st3 (p1 + p2) (g1 + g2) (e1 ++ e2)%list.
Proof.
  unfold advanced. intros (A1 & A2 & A3 & A4 & A5) (B1 & B2 & B3 & B4 & B5).
  rewrite B5, A5, app_assoc. repeat split; lia.
Qed.

(** Variants that are all turned down are all submitted, once each and
    in their order, and leave the snapshot id as it was. *)
Lemma trigger_loop_all_rejected (len : nat) (todo : list (nat * json))
    (sid : json) (st : state) :
  (forall j, (j < length todo)%nat ->
     accepted c (reply_post w (n_post st + j)
                   (snd (nth j todo (0%nat, JNull)))) = None) ->
  exists st',
    Server.trigger_loop c w len todo sid st = (Val sid, st')
    /\ advanced st st' (length todo) 0 (map (fun p => HttpPost (snd p)) todo).
Proof.
  revert st. induction todo as [|[i data] rest IH]; intros st H; simpl.
  - exists st. split; [reflexivity|].
    unfold advanced. rewrite app_nil_r. repeat split; lia.
  - destruct (trigger_attempt_rejected len i data st) as (st1 & E1 & A1).
    { specialize (H 0%nat). simpl in H. rewrite Nat.add_0_r in H.
      apply H. lia. }
    unfold bind at 1. rewrite E1.
    destruct (IH st1) as (st2 & E2 & A2).
    { intros j Hj. specialize (H (S j)). simpl in H.
      destruct A1 as (_ & _ & A3 & _). rewrite A3.
      replace (n_post st + 1 + j)%nat with (n_post st + S j)%nat by lia.
      apply H. lia. }
    exists st2. split; [exact E2|].
    exact (advanced_trans _ _ _ _ _ _ _ _ _ A1 A2).
Qed.

(** The first variant that is taken up ends the loop: the variants
    before it were submitted once each, those after it are not submitted,
    and the snapshot id is the ['snapshot_id'] of the reply, or [None]. *)
Lemma trigger_loop_first_accepted (len : nat)
    (before after : list (nat * json)) (i : nat) (data sid : json)
    (fields : list (string * json)) (st : state) :
  (forall j, (j < length before)%nat ->
     accepted c (reply_post w (n_post st + j)
                   (snd (nth j before (0%nat, JNull)))) = None) ->
  accepted c (reply_post w (n_post st + length before) data) = Some fields ->
  exists st',
    Server.trigger_loop c w len (before ++ (i, data) :: after)%list sid st
      = (Val (snapshot_id_of fields), st')
    /\ advanced st st' (S (length before)) 0
         (map (fun p => HttpPost (snd p)) before ++ [HttpPost data])%list.
Proof.
  revert st. induction before as [|[i0 d0] rest IH]; intros st H Ha; simpl.
  - simpl in Ha. rewrite Nat.add_0_r in Ha.
    destruct (trigger_attempt_accepted len i data st fields Ha) as (st1 & E1 & A1).
    unfold bind at 1. rewrite E1. exists st1. now split.
  - destruct (trigger_attempt_rejected len i0 d0 st) as (st1 & E1 & A1).
    { specialize (H 0%nat). simpl in H. rewrite Nat.add_0_r in H.
      apply H. lia. }
    unfold bind at 1. rewrite E1.
    pose proof A1 as (_ & _ & A3 & _).
    destruct (IH st1) as (st2 & E2 & A2).
    { intros j Hj. specialize (H (S j)). simpl in H. rewrite A3.
      replace (n_post st + 1 + j)%nat with (n_post st + S j)%nat by lia.
      apply H. lia. }
    { rewrite A3. simpl in Ha.
      replace (n_post st + 1 + length rest)%nat
        with (n_post st + S (length rest))%nat by lia.
      exact Ha. }
    exists st2. split; [exact E2|].
    exact (advanced_trans _ _ _ _ _ _ _ _ _ A1 A2).
Qed.

(** X2. When every one of the four variants is turned down (another
    status than 200, a body that is not a JSON object, or an exception of
    the call), [_scrape_new_profile] returns [None], having submitted the
    four variants in their order and nothing else: no poll, no sleep. *)
Lemma all_variants_rejected (profile_url : string) :
  (forall j, (j < 4)%nat ->
     accepted c (reply_post w j
                   (nth j (Server.payloads_to_try profile_url) JNull)) = None) ->
  exists tr,
    run (Server._scrape_new_profile c w profile_url) = (Val JNull, tr)
    /\ effects tr = map HttpPost (Server.payloads_to_try profile_url).
Proof.
  intros H. unfold run, Server._scrape_new_profile.
  destruct (trigger_loop_all_rejected
              (length (Server.payloads_to_try profile_url))
              (enumerate (Server.payloads_to_try profile_url)) JNull initial)
    as (st1 & E1 & A1).
  { intros j Hj. cbn in Hj. cbn [initial n_post Nat.add].
    specialize (H j Hj).
    do 4 (destruct j as [|j]; [exact H|]). lia. }
  unfold bind at 1. rewrite E1. cbn.
  eexists; split; [reflexivity|].
  destruct A1 as (_ & _ & _ & _ & A5). cbn.
  rewrite effects_app, A5. reflexivity.
Qed.
End Initiator.

(** A reply with status 200 whose body is an object without a usable
    ['snapshot_id'] ends the loop all the same: the scrape fails although
    the remaining variants were never submitted. *)
Lemma accepted_without_usable_id (c : codec) (w : world) (profile_url : string)
    (fields : list (string * json)) :
  accepted c (reply_post w 0 (JArr [JObj [("url", JStr profile_url)]]))
    = Some fields ->
  Py.truthy (snapshot_id_of fields) = false ->
  exists tr,
    run (Server._scrape_new_profile c w profile_url) = (Val JNull, tr)
    /\ effects tr = [HttpPost (JArr [JObj [("url", JStr profile_url)]])].
Proof.
  intros Ha Ht. unfold run, Server._scrape_new_profile.
  destruct (trigger_loop_first_accepted c w
              (length (Server.payloads_to_try profile_url)) []
              (tl (enumerate (Server.payloads_to_try profile_url)))
              0 (JArr [JObj [("url", JStr profile_url)]]) JNull fields initial)
    as (st1 & E1 & A1).
  { intros j Hj. inversion Hj. }
  { exact Ha. }
  cbn [app] in E1. unfold bind at 1.
  change (enumerate (Server.payloads_to_try profile_url))
    with ((0%nat, JArr [JObj [("url", JStr profile_url)]])
            :: tl (enumerate (Server.payloads_to_try profile_url))).
  rewrite E1, Ht. cbn.
  eexists; split; [reflexivity|].
  destruct A1 as (_ & _ & _ & _ & A5). cbn.
  rewrite effects_app, A5. reflexivity.
Qed.

(** C3, at a failing input.  The provider answers the first submission
    with status 200 and the body [{}].  The initiator stops submitting, so
    the three other variants are never sent, and it reports failure with no
    job started, although no variant was refused and none raised. *)
Theorem accepted_reply_without_snapshot_id :
  let profile_url := "https://example.com/in/jane-doe/" in
  let first := JArr [JObj [("url", JStr profile_url)]] in
  accepted RefJson.ref_codec (reply_post accepts_without_id 0 first) = Some []
  /\ fst (run (Server._scrape_new_profile RefJson.ref_codec accepts_without_id
                 profile_url)) = Val JNull
  /\ effects (snd (run (Server._scrape_new_profile RefJson.ref_codec
                          accepts_without_id profile_url)))
     = [HttpPost first]
  /\ filter is_print (snd (run (Server._scrape_new_profile RefJson.ref_codec
                                  accepts_without_id profile_url)))
     = [Print "Starting scraping job (attempt {i+1})...";
        Print "Job started! Snapshot ID: {snapshot_id}";
        Print "All BrightData attempts failed"].
Proof. vm_compute. repeat split. Qed.

(* ================================================================== *)
(** ** The job poller *)

Lemma eq_str_running_has_key (fields : list (string * json)) :
  Py.eq_str (match Py.assoc "status" fields with Some v => v | None => JNull end)
    "running" = true ->
  Py.has_key "status" fields = true.
Proof.
  unfold Py.has_key. destruct (Py.assoc "status" fields); [reflexivity|discriminate].
Qed.

Ltac poll_unfold :=
  unfold Server.poll_attempt, try_except, bind, print, time_sleep,
    requests_get, response_json, json_loads, lift, raise, ret;
  cbn [log n_search n_write n_post n_get trace].

(** What one poll makes of a reply.  On a reply with status 200: a body
    that decodes to a value without the in-progress marker is returned; a
    body that decodes to a value with the marker keeps the poller polling;
    when the body does not decode and the first line of the stripped body is
    not empty, that line is decoded instead and its value returned, and the
    poll fails if the line does not decode either; when the body does not
    decode and that first line is empty, the poller goes on polling.  On a
    reply with a status other than 200 and 202 the poll fails. *)
Lemma poll_attempt_on_reply
    (c : codec) (w : world) (sid : json) (attempt : nat) (st : state)
    (resp : response) :
  reply_get w (n_get st) sid = Val resp ->
  let body := response_text resp in
  let outcome := fst (Server.poll_attempt c w sid attempt st) in
  (status_code resp = 200%Z ->
     forall v, loads c body = Some v -> status_marker v = false ->
     outcome = Val (Stop v))
  /\ (status_code resp = 200%Z ->
        forall v, loads c body = Some v -> status_marker v = true ->
        outcome = Val Next)
  /\ (status_code resp = 200%Z -> loads c body = None ->
        first_line body <> EmptyString ->
        forall v, loads c (first_line body) = Some v -> outcome = Val (Stop v))
  /\ (status_code resp = 200%Z -> loads c body = None ->
        first_line body <> EmptyString ->
        loads c (first_line body) = None -> outcome = Val (Stop JNull))
  /\ (status_code resp = 200%Z -> loads c body = None ->
        first_line body = EmptyString -> outcome = Val Next)
  /\ (status_code resp <> 200%Z -> status_code resp <> 202%Z ->
        outcome = Val (Stop JNull)).
Proof.
  intros H body outcome. subst body outcome. poll_unfold. rewrite H.
  unfold first_line, status_marker.
  repeat split.
  - intros S v L Mk. rewrite S, L. cbn.
    destruct v; try reflexivity. cbn.
    destruct (Py.eq_str _ "running") eqn:E.
    + apply eq_str_running_has_key in E. congruence.
    + rewrite Mk. reflexivity.
  - intros S v L Mk. rewrite S, L. cbn.
    destruct v; try discriminate. cbn.
    destruct (Py.eq_str _ "running"); [reflexivity|].
    rewrite Mk. reflexivity.
  - intros S L N v L'. rewrite S, L.
    destruct (PyStr.split PyStr.newline (PyStr.strip (response_text resp)))
      as [|line0 rest]; cbn in *; [congruence|].
    destruct line0; cbn; [congruence|]. rewrite L'. reflexivity.
  - intros S L N L'. rewrite S, L.
    destruct (PyStr.split PyStr.newline (PyStr.strip (response_text resp)))
      as [|line0 rest]; cbn in *; [congruence|].
    destruct line0; cbn; [congruence|]. rewrite L'. reflexivity.
  - intros S L N. rewrite S, L.
    destruct (PyStr.split PyStr.newline (PyStr.strip (response_text resp)))
      as [|line0 rest]; cbn in *; [reflexivity|].
    subst line0. reflexivity.
  - intros S S'.
    destruct (Z.eqb_spec (status_code resp) 200); [congruence|].
    destruct (Z.eqb_spec (status_code resp) 202); [congruence|].
    reflexivity.
Qed.

(** C4, at a failing input.  Every poll is answered with status 200 and
    an empty body.  Neither the body nor its first line decodes, so the
    poll ought to fail; but the fallback is only tried on a first line that
    is not empty, and nothing is done otherwise: the attempt neither
    returns nor sleeps, and the loop polls again at once.  The fifteen polls
    follow one another without a pause and the scrape ends as timed out. *)
Theorem empty_body_is_polled_again_at_once :
  let w := polls_with (ok_with EmptyString) in
  let attempt := Server.poll_attempt RefJson.ref_codec w (JStr "s_1") 0 initial in
  let r := run (Server._scrape_new_profile RefJson.ref_codec w jane_url) in
  RefJson.loads (response_text (ok_with EmptyString)) = None
  /\ RefJson.loads (first_line (response_text (ok_with EmptyString))) = None
  /\ fst attempt = Val Next
  /\ fst attempt <> Val (Stop JNull)
  /\ trace (snd attempt) = [HttpGet (JStr "s_1")]
  /\ fst r = Val JNull
  /\ length (filter is_get (snd r)) = 15%nat
  /\ filter is_sleep (snd r) = []
  /\ last (snd r) CreateClient = Print "Scraping takes longer than expected".
Proof. vm_compute. repeat split. discriminate. Qed.

Section Poller.
Variable c : codec.
Variable w : world.

Lemma poll_attempt_running (sid : json) (attempt : nat) (st : state) :
  still_running c (reply_get w (n_get st) sid) ->
  exists st',
    Server.poll_attempt c w sid attempt st = (Val Next, st')
    /\ advanced st st' 0 1 [HttpGet sid; Sleep 10].
Proof.
  intros (resp & H & D). poll_unfold. rewrite H. unfold advanced.
  destruct D as [(S & fields & L & K)|(S & [L|(fields & L)])];
    rewrite S, L; cbn.
  - destruct (Py.eq_str _ "running"); [|rewrite K];
      eexists; (split; [reflexivity|]); cbn;
      rewrite !effects_app; cbn; rewrite ?app_nil_r, <- ?app_assoc;
      repeat split; lia.
  - eexists; (split; [reflexivity|]); cbn;
      rewrite !effects_app; cbn; rewrite ?app_nil_r, <- ?app_assoc;
      repeat split; lia.
  - destruct (Py.eq_str _ "running");
      eexists; (split; [reflexivity|]); cbn;
      rewrite !effects_app; cbn; rewrite ?app_nil_r, <- ?app_assoc;
      repeat split; lia.
Qed.

(** While the provider reports the job in progress the loop uses up its
    attempts, a poll and a sleep of 10 each, and ends without data. *)
Lemma poll_loop_running (sid : json) (attempts : list nat) (st : state) :
  (forall n, still_running c (reply_get w n sid)) ->
  exists st',
    Server.poll_loop c w sid attempts st = (Val JNull, st')
    /\ advanced st st' 0 (length attempts) (polls sid (length attempts)).
Proof.
  intros H. revert st. induction attempts as [|a rest IH]; intros st; simpl.
  - unfold bind, print, ret. eexists; split; [reflexivity|].
    unfold advanced; cbn. rewrite effects_app; cbn.
    rewrite !app_nil_r. repeat split; lia.
  - destruct (poll_attempt_running sid a st (H _)) as (st1 & E1 & A1).
    unfold bind at 1. rewrite E1.
    destruct (IH st1) as (st2 & E2 & A2).
    exists st2. split; [exact E2|].
    exact (advanced_trans _ _ _ _ _ _ _ _ _ A1 A2).
Qed.

(** The poller gives up after exactly 15 polls, 10 seconds after each,
    when every reply is a status report or a 202 of the kinds above. *)
Lemma poll_budget (sid : json) :
  (forall n, still_running c (reply_get w n sid)) ->
  exists tr,
    run (Server.poll_loop c w sid (seq 0 Server.max_attempts)) = (Val JNull, tr)
    /\ effects tr = polls sid 15
    /\ length (filter is_get tr) = 15%nat
    /\ filter is_sleep tr = repeat (Sleep 10) 15.
Proof.
  intros H. unfold run.
  destruct (poll_loop_running sid (seq 0 Server.max_attempts) initial H)
    as (st' & E & A).
  rewrite E. eexists; split; [reflexivity|].
  destruct A as (_ & _ & _ & _ & A5). cbn in A5.
  assert (G : forall tr, filter is_get tr = filter is_get (effects tr)).
  { intros tr. unfold effects. induction tr as [|e tr IH]; simpl; [reflexivity|].
    destruct e; simpl; rewrite ?IH; reflexivity. }
  assert (Z : forall tr, filter is_sleep tr = filter is_sleep (effects tr)).
  { intros tr. unfold effects. induction tr as [|e tr IH]; simpl; [reflexivity|].
    destruct e; simpl; rewrite ?IH; reflexivity. }
  rewrite G, Z, A5. repeat split.
Qed.
End Poller.

(** C2, at a failing input.  Every poll is answered with status 202; the
    body is the JSON text of an empty list.  Reading ['status'] from the
    decoded list raises, the exception is caught by the outer handler, and
    the poller returns no data after one poll and no sleep instead of
    polling 15 times; both copies do. *)
Theorem accepted_202_with_list_body_ends_polling :
  let profile_url := "https://example.com/in/jane-doe/" in
  let w := polls_with accepted_with_list in
  let r1 := run (Server._scrape_new_profile RefJson.ref_codec w profile_url) in
  let r2 := run (TestModule._scrape_new_profile RefJson.ref_codec w profile_url) in
  status_code accepted_with_list = 202%Z
  /\ fst r1 = Val JNull
  /\ effects (snd r1)
     = [HttpPost (JArr [JObj [("url", JStr profile_url)]]); HttpGet (JStr "s_1")]
  /\ fst r2 = Val JNull
  /\ effects (snd r2) = effects (snd r1).
Proof. vm_compute. repeat split. Qed.

(* ================================================================== *)
(** ** The duplicate-write guard *)

Section Guard.
Variable c : codec.
Variable w : world.

Ltac guard_unfold :=
  unfold try_except, bind, print, json_loads, lift, raise, ret,
    identity_indicator, field, Py.or_, Py.get in *;
  cbn [log n_search n_write n_post n_get trace].

Lemma already_exists_found (username : string)
    (before after : list memory) (m : memory) (st : state) :
  Forall (passed_over c username) before ->
  same_profile c username m ->
  exists st',
    Server.already_exists c username (before ++ m :: after)%list st
      = (Val true, st')
    /\ advanced st st' 0 0 [].
Proof.
  intros Hb (fields & L & E). revert st.
  induction Hb as [|m0 rest [L0|(f0 & L0 & E0)] _ IH]; intros st; simpl.
  - guard_unfold. rewrite L. cbn.
    destruct (Py.truthy _); cbn; rewrite E; cbn;
      eexists; (split; [reflexivity|]);
      unfold advanced; cbn; rewrite ?effects_app; cbn; rewrite ?app_nil_r;
      repeat split; lia.
  - destruct (IH st) as (st' & E' & A'). exists st'. split; [|exact A'].
    rewrite <- E'. guard_unfold. rewrite L0. reflexivity.
  - destruct (IH st) as (st' & E' & A'). exists st'. split; [|exact A'].
    rewrite <- E'. guard_unfold. rewrite L0. cbn.
    destruct (Py.truthy _); cbn; rewrite E0; reflexivity.
Qed.

(** X4. When the wider search returns a record of the same profile, and
    the records before it do not decode or decode to objects, nothing is
    written and the scraped record is returned. *)
Lemma duplicate_is_not_written (username user : string) (scraped_data : json)
    (before after : list memory) (m : memory) (st : state) :
  reply_search w (n_search st) (wider_lookup username user)
    = Val (before ++ m :: after)%list ->
  Forall (passed_over c username) before ->
  same_profile c username m ->
  exists st',
    Server.store_unless_exists c w username user scraped_data st
      = (Val scraped_data, st')
    /\ n_write st' = n_write st
    /\ effects (trace st')
       = (effects (trace st) ++ [SearchMemory (wider_lookup username user)])%list.
Proof.
  intros Hs Hb Hm. unfold Server.store_unless_exists, wider_lookup in *.
  unfold bind at 1, search_memory_tool. rewrite Hs. cbv beta iota.
  unfold bind at 1.
  match goal with
  | |- context [Server.already_exists c username _ ?s] =>
      destruct (already_exists_found username before after m s Hb Hm)
        as (st' & E & A)
  end.
  rewrite E. cbn.
  eexists; split; [reflexivity|].
  destruct A as (_ & A2 & _ & _ & A5). cbn in *.
  rewrite A5, effects_app, app_nil_r. now split.
Qed.
End Guard.

(** C5, at a failing input.  The wider search returns two records: the
    text of the first is the JSON of an empty list, the second is a stored
    profile whose [linkedin_id] is the identity key.  Reading
    ['linkedin_id'] from the decoded list raises, only a decoding error is
    handled there, and the call ends with that exception: nothing is
    written, but the freshly scraped record is not returned either. *)
Theorem duplicate_behind_a_list_record :
  let w := scraped_then_checked jane_profile
             [ {| memory_text := "[]" |}; {| memory_text := jane_stored |} ] in
  let r := run (Server.smart_linkedin_scraper RefJson.ref_codec w
                  "https://example.com/in/jane-doe/" "api_user") in
  same_profile RefJson.ref_codec "jane-doe" {| memory_text := jane_stored |}
  /\ fst r = Exn AttributeError
  /\ filter is_write (snd r) = []
  /\ effects (snd r)
     = [CreateClient;
        SearchMemory (cache_lookup "jane-doe" "api_user");
        HttpPost (JArr [JObj [("url", JStr "https://example.com/in/jane-doe/")]]);
        HttpGet (JStr "s_1");
        SearchMemory (wider_lookup "jane-doe" "api_user");
        CloseClient].
Proof.
  split; [|vm_compute; repeat split].
  exists [("linkedin_id", JStr "jane-doe")]. vm_compute. now split.
Qed.

(** The same duplicate found at once, for comparison. *)
Example duplicate_found_at_once :
  let w := scraped_then_checked jane_profile [ {| memory_text := jane_stored |} ] in
  let r := run (Server.smart_linkedin_scraper RefJson.ref_codec w
                  "https://example.com/in/jane-doe/" "api_user") in
  fst r = Val (JObj [("name", JStr "Jane Doe")]) /\ filter is_write (snd r) = [].
Proof. vm_compute. now split. Qed.

(* ================================================================== *)
(** ** Persisting a scraped record *)

Lemma substring_length_le (n : nat) (s : string) :
  (String.length (substring 0 n s) <= n)%nat.
Proof.
  revert s. induction n as [|n IH]; intros [|a s]; simpl; try lia.
  specialize (IH s). lia.
Qed.

Section Persist.
Variable c : codec.
Variable w : world.

Lemma activity_record_titled (username user : string)
    (profile event : list (string * json)) (st : state) :
  Py.is_str (field "name" (JStr EmptyString) profile) = true ->
  titled event ->
  Server.activity_record username user (JObj profile) (JObj event) st
    = (Val (episodic_record username user profile event), st).
Proof.
  unfold titled, Server.activity_record, episodic_record, event_title, field,
    bind, lift, ret, Py.get, validated.
  intros N.
  destruct (Py.assoc "title" event) as [[]|]; try contradiction;
    intros _; cbn [Py.slice_to entities forallb Py.is_str andb];
    rewrite N; reflexivity.
Qed.

Lemma activity_loop_titled (username user : string)
    (profile : list (string * json)) (events : list (list (string * json)))
    (acc : list ClientMemoryRecord) (st : state) :
  Py.is_str (field "name" (JStr EmptyString) profile) = true ->
  Forall titled events ->
  Server.activity_loop username user (JObj profile) (map JObj events) acc st
    = (Val (acc ++ map (episodic_record username user profile) events)%list, st).
Proof.
  intros N H. revert acc. induction H as [|e rest He _ IH]; intros acc; simpl.
  - now rewrite app_nil_r.
  - unfold bind at 1. rewrite (activity_record_titled _ _ _ _ _ N He).
    rewrite IH, <- app_assoc. reflexivity.
Qed.

Lemma store_profile_batch (username user : string)
    (profile : list (string * json)) (activities : list json)
    (events : list (list (string * json))) (st : state) :
  Py.is_dict (field "current_company" (JObj []) profile) = true ->
  entities_are_strings profile ->
  Py.assoc "activity" profile = Some (JArr activities) ->
  activities <> [] ->
  firstn 10 activities = map JObj events ->
  Forall titled events ->
  Server.store_profile c w username user (JObj profile) st
  = (create_long_term_memory w (batch c username user profile events) ;;
     print "Stored profile data + {len(memories_to_store)-1} activities for {username} in RAMS")
      st.
Proof.
  intros Hc [Hn Hk] Ha Hl Hf Ht.
  pose proof (activity_loop_titled username user profile events) as L.
  unfold batch, Server.store_profile, Server.profile_record, semantic_record,
    validated.
  destruct (field "current_company" (JObj []) profile) as [| | | | |company] eqn:Ec;
    try discriminate.
  unfold field in *. unfold Py.get. rewrite Ec, Ha.
  destruct activities as [|a0 rest]; [congruence|].
  cbn [Py.truthy]. unfold Py.slice_to, Py.iter. rewrite Hf.
  unfold bind, lift, ret.
  cbn [entities forallb Py.is_str andb]. rewrite Hn, Hk. cbn [andb].
  rewrite (L _ _ Hn Ht). reflexivity.
Qed.

(** X5. A profile object whose company, if any, is an object, whose name
    and company name, where given, are strings, and which has more than ten
    activity events, the first ten of them objects with string titles, is
    stored as one batch of eleven records: the semantic record of the whole
    profile, then one episodic record for each of the first ten events, in
    their order, with the title cut at 100 characters. *)
Lemma store_profile_caps_activities (username user : string)
    (profile : list (string * json)) (activities : list json)
    (events : list (list (string * json))) (st : state) :
  Py.is_dict (field "current_company" (JObj []) profile) = true ->
  entities_are_strings profile ->
  Py.assoc "activity" profile = Some (JArr activities) ->
  (10 < length activities)%nat ->
  firstn 10 activities = map JObj events ->
  Forall titled events ->
  let records := batch c username user profile events in
  let end_ := Server.store_profile c w username user (JObj profile) st in
  length events = 10%nat
  /\ length records = 11%nat
  /\ Forall (fun e => (String.length (PyStr.slice_to 100 (event_title e)) <= 100)%nat)
       events
  /\ effects (trace (snd end_))
     = (effects (trace st) ++ [CreateLongTermMemory records])%list
  /\ n_write (snd end_) = S (n_write st)
  /\ (reply_write w (n_write st) records = Val tt -> fst end_ = Val tt).
Proof.
  intros Hc He Ha Hl Hf Ht records end_.
  assert (L : length events = 10%nat).
  { rewrite <- (length_map JObj), <- Hf, length_firstn. lia. }
  split; [exact L|]. split.
  { unfold records, batch. simpl. rewrite length_map. lia. }
  split.
  { apply Forall_forall. intros e _. apply substring_length_le. }
  subst end_.
  rewrite (store_profile_batch username user profile activities events st)
    by (try assumption; intros ->; simpl in Hl; lia).
  fold records. unfold bind, create_long_term_memory, print.
  destruct (reply_write w (n_write st) records) as [[]|e]; cbn;
    rewrite !effects_app; cbn; rewrite ?app_nil_r;
    repeat split; try reflexivity; discriminate.
Qed.
End Persist.

(** C6, at a failing input.  The provider returns a profile with eleven
    activity events, one of the first ten with [null] for its title, and
    nothing like it is stored yet.  The default ['No title'] only replaces
    a missing title, so cutting the title raises while the episodic records
    are built: no record is written and the caller gets the exception
    instead of the profile.  The same happens, while the semantic record is
    built, to a profile whose ['current_company'] is [null]. *)
Theorem null_title_is_not_persisted :
  let run_on profile :=
    run (Server.smart_linkedin_scraper RefJson.ref_codec
           (scraped_then_checked (RefJson.dumps profile) [])
           "https://example.com/in/jane-doe/" "api_user") in
  RefJson.loads (RefJson.dumps jane_with_untitled_event)
    = Some jane_with_untitled_event
  /\ activity_count jane_with_untitled_event = 11%nat
  /\ fst (run_on jane_with_untitled_event) = Exn TypeError
  /\ written (snd (run_on jane_with_untitled_event)) = []
  /\ activity_count jane_without_company = 11%nat
  /\ fst (run_on jane_without_company) = Exn AttributeError
  /\ written (snd (run_on jane_without_company)) = [].
Proof. vm_compute. repeat split. Qed.

(** The same profile with a company is stored as one batch of eleven
    records. *)
Example company_profile_is_persisted :
  let w := scraped_then_checked (RefJson.dumps jane_at_acme) [] in
  let r := run (Server.smart_linkedin_scraper RefJson.ref_codec w
                  "https://example.com/in/jane-doe/" "api_user") in
  fst r = Val jane_at_acme
  /\ map (map memory_type) (written (snd r))
     = [SEMANTIC :: repeat EPISODIC 10]
  /\ map (fun rs => map text (firstn 2 (tl rs))) (written (snd r))
     = [["jane-doe activity: Liked by Jane Doe - Post number 1";
         "jane-doe activity: Liked by Jane Doe - Post number 2"]].
Proof. vm_compute. repeat split. Qed.

(* ================================================================== *)
(** ** The theorems at concrete inputs *)

Lemma cache_hit_witness :
  let r := run (Server.smart_linkedin_scraper RefJson.ref_codec cached_jane
                  jane_url "api_user") in
  fst r = Val jane
  /\ filter is_provider_call (snd r) = []
  /\ filter is_write (snd r) = []
  /\ effects (snd r)
     = [CreateClient;
        SearchMemory (cache_lookup (Server.username_of jane_url) "api_user");
        CloseClient].
Proof.
  apply (cache_hit_returns_cached RefJson.ref_codec cached_jane jane_url
           "api_user" {| memory_text := jane_profile |} [] jane).
  - reflexivity.
  - reflexivity.
  - vm_compute. reflexivity.
  - left. vm_compute. reflexivity.
Defined.


Example corrupt_cache_run :
  let r := run (Server.smart_linkedin_scraper RefJson.ref_codec corrupt_jane
                  jane_url "api_user") in
  fst r = Val jane
  /\ map (map memory_type) (written (snd r)) = [[SEMANTIC]]
  /\ length (filter is_post (snd r)) = 1%nat.
Proof. vm_compute. repeat split. Qed.

Lemma poll_attempt_witness :
  let poll resp :=
    fst (Server.poll_attempt RefJson.ref_codec (polls_with resp) (JStr "s_1")
           0 initial) in
  poll (ok_with jane_profile) = Val (Stop jane)
  /\ poll (ok_with running_body) = Val Next
  /\ poll (ok_with two_lines) = Val (Stop jane)
  /\ poll (ok_with "<html>busy</html>") = Val (Stop JNull)
  /\ poll {| status_code := 500; response_text := "oops" |} = Val (Stop JNull).
Proof.
  intros poll. refine (conj _ (conj _ (conj _ (conj _ _)))).
  - destruct (poll_attempt_on_reply RefJson.ref_codec
                (polls_with (ok_with jane_profile)) (JStr "s_1") 0 initial
                (ok_with jane_profile) eq_refl) as (H & _).
    apply H; [reflexivity | vm_compute; reflexivity | reflexivity].
  - destruct (poll_attempt_on_reply RefJson.ref_codec
                (polls_with (ok_with running_body)) (JStr "s_1") 0 initial
                (ok_with running_body) eq_refl) as (_ & H & _).
    apply (H eq_refl (JObj [("status", JStr "building")]));
      [vm_compute; reflexivity | reflexivity].
  - destruct (poll_attempt_on_reply RefJson.ref_codec
                (polls_with (ok_with two_lines)) (JStr "s_1") 0 initial
                (ok_with two_lines) eq_refl) as (_ & _ & H & _).
    apply H;
      [reflexivity | vm_compute; reflexivity | vm_compute; discriminate
      | vm_compute; reflexivity].
  - destruct (poll_attempt_on_reply RefJson.ref_codec
                (polls_with (ok_with "<html>busy</html>")) (JStr "s_1") 0 initial
                (ok_with "<html>busy</html>") eq_refl) as (_ & _ & _ & H & _).
    apply H;
      [reflexivity | vm_compute; reflexivity | vm_compute; discriminate
      | vm_compute; reflexivity].
  - destruct (poll_attempt_on_reply RefJson.ref_codec
                (polls_with {| status_code := 500; response_text := "oops" |})
                (JStr "s_1") 0 initial
                {| status_code := 500; response_text := "oops" |} eq_refl)
      as (_ & _ & _ & _ & _ & H).
    apply H; vm_compute; discriminate.
Defined.

(** The scenario of the specification: nothing cached, the first variant
    accepted, the first poll answered with the profile; the profile is
    returned and one semantic record is written. *)
Example end_to_end_scenario :
  let profile := JObj [("name", JStr "Jane Doe");
                       ("current_company", JObj [("name", JStr "Acme")])] in
  let r := run (Server.smart_linkedin_scraper RefJson.ref_codec
                  (scraped_then_checked (RefJson.dumps profile) [])
                  jane_url "api_user") in
  fst r = Val profile
  /\ map (map memory_type) (written (snd r)) = [[SEMANTIC]]
  /\ map (map text) (written (snd r)) = [[RefJson.dumps profile]]
  /\ length (filter is_post (snd r)) = 1%nat
  /\ length (filter is_get (snd r)) = 1%nat.
Proof. vm_compute. repeat split. Qed.

(* ================================================================== *)
(** * Further properties of the two programs *)

(** ** The scrape as a whole *)

Section Scrape.
Variable c : codec.
Variable w : world.

Lemma enumerate_payloads (profile_url : string) :
  enumerate (Server.payloads_to_try profile_url)
  = [(0%nat, nth 0 (Server.payloads_to_try profile_url) JNull);
     (1%nat, nth 1 (Server.payloads_to_try profile_url) JNull);
     (2%nat, nth 2 (Server.payloads_to_try profile_url) JNull);
     (3%nat, nth 3 (Server.payloads_to_try profile_url) JNull)].
Proof. reflexivity. Qed.

(** From any state: the variants before the [n]-th are turned down and
    the [n]-th is taken up. *)
Lemma scrape_after_first_accepted (profile_url : string) (n : nat)
    (fields : list (string * json)) (st : state) :
  (n < 4)%nat ->
  (forall j, (j < n)%nat ->
     accepted c (reply_post w (n_post st + j)
                   (nth j (Server.payloads_to_try profile_url) JNull)) = None) ->
  accepted c (reply_post w (n_post st + n)
                (nth n (Server.payloads_to_try profile_url) JNull)) = Some fields ->
  exists st1,
    advanced st st1 (S n) 0
      (map HttpPost (firstn (S n) (Server.payloads_to_try profile_url)))
    /\ Server._scrape_new_profile c w profile_url st
       = (if negb (Py.truthy (snapshot_id_of fields)) then
            print "All BrightData attempts failed" ;; ret JNull
          else
            print "Waiting for completion..." ;;
            Server.poll_loop c w (snapshot_id_of fields) (seq 0 Server.max_attempts))
           st1.
Proof.
  intros Hn Hb Ha.
  set (ps := Server.payloads_to_try profile_url) in *.
  destruct (trigger_loop_first_accepted c w (length ps)
              (firstn n (enumerate ps)) (skipn (S n) (enumerate ps))
              n (nth n ps JNull) JNull fields st) as (st1 & E1 & A1).
  { intros j Hj. rewrite length_firstn in Hj.
    replace (snd (nth j (firstn n (enumerate ps)) (0%nat, JNull)))
      with (nth j ps JNull).
    - apply Hb. lia.
    - subst ps. rewrite enumerate_payloads.
      do 4 (destruct n as [|n]; [do 4 (destruct j as [|j]; [reflexivity || (simpl in Hj; lia)|]); simpl in Hj; lia|]).
      lia. }
  { replace (length (firstn n (enumerate ps))) with n; [exact Ha|].
    rewrite length_firstn. subst ps. simpl. lia. }
  assert (L : length (firstn n (enumerate ps)) = n).
  { rewrite length_firstn. subst ps. simpl. lia. }
  assert (S1 : (firstn n (enumerate ps) ++ (n, nth n ps JNull) :: skipn (S n) (enumerate ps))%list
               = enumerate ps).
  { subst ps. rewrite enumerate_payloads.
    do 4 (destruct n as [|n]; [reflexivity|]). lia. }
  assert (S2 : (map (fun p => HttpPost (snd p)) (firstn n (enumerate ps))
                ++ [HttpPost (nth n ps JNull)])%list
               = map HttpPost (firstn (S n) ps)).
  { subst ps. do 4 (destruct n as [|n]; [reflexivity|]). lia. }
  rewrite S1 in E1. rewrite L, S2 in A1.
  exists st1. split; [exact A1|].
  unfold Server._scrape_new_profile. fold ps.
  unfold bind at 1. rewrite E1. reflexivity.
Qed.

(** From any state: the four variants are turned down. *)
Lemma scrape_all_rejected_from (profile_url : string) (st : state) :
  (forall j, (j < 4)%nat ->
     accepted c (reply_post w (n_post st + j)
                   (nth j (Server.payloads_to_try profile_url) JNull)) = None) ->
  exists st',
    Server._scrape_new_profile c w profile_url st = (Val JNull, st')
    /\ advanced st st' 4 0 (map HttpPost (Server.payloads_to_try profile_url)).
Proof.
  intros H. unfold Server._scrape_new_profile.
  destruct (trigger_loop_all_rejected c w
              (length (Server.payloads_to_try profile_url))
              (enumerate (Server.payloads_to_try profile_url)) JNull st)
    as (st1 & E1 & A1).
  { intros j Hj. cbn in Hj. specialize (H j Hj).
    do 4 (destruct j as [|j]; [exact H|]). lia. }
  unfold bind at 1. rewrite E1. cbn.
  eexists; split; [reflexivity|].
  destruct A1 as (B1 & B2 & B3 & B4 & B5). unfold advanced. cbn.
  rewrite effects_app, B5. cbn. rewrite app_nil_r. repeat split; assumption.
Qed.

(** One poll answered with a payload. *)
Lemma poll_attempt_payload (sid : json) (attempt : nat) (st : state)
    (resp : response) (v : json) :
  reply_get w (n_get st) sid = Val resp ->
  status_code resp = 200%Z ->
  loads c (response_text resp) = Some v ->
  status_marker v = false ->
  exists st',
    Server.poll_attempt c w sid attempt st = (Val (Stop v), st')
    /\ advanced st st' 0 1 [HttpGet sid].
Proof.
  intros H S L Mk. poll_unfold. rewrite H, S, L. unfold advanced. cbn.
  destruct v; cbn in *;
    try (eexists; (split; [reflexivity|]); cbn; rewrite !effects_app; cbn;
         rewrite ?app_nil_r; repeat split; lia).
  destruct (Py.eq_str _ "running") eqn:E.
  - apply eq_str_running_has_key in E. congruence.
  - rewrite Mk. eexists; (split; [reflexivity|]); cbn; rewrite !effects_app; cbn;
      rewrite ?app_nil_r; repeat split; lia.
Qed.
End Scrape.

Lemma weight_app (f : event -> nat) (a b : list event) :
  weight f (a ++ b)%list = (weight f a + weight f b)%nat.
Proof. unfold weight. now rewrite map_app, list_sum_app. Qed.

Lemma sleep_weight_effects (tr : list event) :
  weight sleep_weight tr = weight sleep_weight (effects tr).
Proof.
  unfold weight, effects. induction tr as [|e tr IH]; simpl; [reflexivity|].
  destruct e; simpl; rewrite ?IH; reflexivity.
Qed.

Lemma sleep_weight_polls (sid : json) (n : nat) :
  weight sleep_weight (polls sid n) = (10 * n)%nat.
Proof.
  induction n as [|n IH]; [reflexivity|].
  change (weight sleep_weight (polls sid (S n)))
    with (0 + (10 + weight sleep_weight (polls sid n)))%nat.
  rewrite IH. lia.
Qed.

(** X1. When the [n]-th payload variant is the first one taken up, its
    reply carries a usable snapshot id, and every poll is answered by a
    status report (200 with a ['status'] object, or 202 with an object or
    with no JSON at all), [_scrape_new_profile] returns [None] after
    submitting the variants up to the [n]-th once each, in order, and
    polling that snapshot exactly 15 times, sleeping 10 seconds after each
    poll, 150 seconds in all. *)
Theorem scrape_times_out_after_fifteen_polls
    (c : codec) (w : world) (profile_url : string) (n : nat)
    (fields : list (string * json)) :
  (n < 4)%nat ->
  (forall j, (j < n)%nat ->
     accepted c (reply_post w j
                   (nth j (Server.payloads_to_try profile_url) JNull)) = None) ->
  accepted c (reply_post w n
                (nth n (Server.payloads_to_try profile_url) JNull)) = Some fields ->
  Py.truthy (snapshot_id_of fields) = true ->
  (forall k, still_running c (reply_get w k (snapshot_id_of fields))) ->
  exists tr,
    run (Server._scrape_new_profile c w profile_url) = (Val JNull, tr)
    /\ effects tr
       = (map HttpPost (firstn (S n) (Server.payloads_to_try profile_url))
          ++ polls (snapshot_id_of fields) 15)%list
    /\ weight sleep_weight tr = 150%nat.
Proof.
  intros Hn Hb Ha Ht Hr. unfold run.
  destruct (scrape_after_first_accepted c w profile_url n fields initial Hn Hb Ha)
    as (st1 & A1 & E1).
  rewrite E1, Ht. cbn [negb]. unfold bind at 1, print.
  destruct (poll_loop_running c w (snapshot_id_of fields)
              (seq 0 Server.max_attempts)
              (log (Print "Waiting for completion...") st1) Hr)
    as (st2 & E2 & A2).
  rewrite E2. eexists; split; [reflexivity|].
  destruct A1 as (_ & _ & _ & _ & A15). destruct A2 as (_ & _ & _ & _ & A25).
  cbn in A15, A25. rewrite effects_app in A25. cbn in A25.
  rewrite app_nil_r, A15 in A25.
  assert (T : effects (trace st2)
              = (map HttpPost (firstn (S n) (Server.payloads_to_try profile_url))
                 ++ polls (snapshot_id_of fields) 15)%list) by exact A25.
  split; [exact T|].
  rewrite sleep_weight_effects, T, weight_app, sleep_weight_polls.
  assert (Z : forall l, weight sleep_weight (map HttpPost l) = 0%nat).
  { induction l as [|x l IH]; [reflexivity|exact IH]. }
  rewrite Z. reflexivity.
Qed.

(** X3. When the [n]-th payload variant is the first one taken up, its
    reply carries a usable snapshot id, and the first poll is answered with
    status 200 and a body that decodes to a value without a ['status'] key,
    [_scrape_new_profile] returns that value after submitting the variants
    up to the [n]-th once each, in order, and polling once, without any
    sleep; the later variants are never submitted. *)
Theorem first_accepted_variant_is_polled
    (c : codec) (w : world) (profile_url : string) (n : nat)
    (fields : list (string * json)) (resp : response) (v : json) :
  (n < 4)%nat ->
  (forall j, (j < n)%nat ->
     accepted c (reply_post w j
                   (nth j (Server.payloads_to_try profile_url) JNull)) = None) ->
  accepted c (reply_post w n
                (nth n (Server.payloads_to_try profile_url) JNull)) = Some fields ->
  Py.truthy (snapshot_id_of fields) = true ->
  reply_get w 0 (snapshot_id_of fields) = Val resp ->
  status_code resp = 200%Z ->
  loads c (response_text resp) = Some v ->
  status_marker v = false ->
  exists tr,
    run (Server._scrape_new_profile c w profile_url) = (Val v, tr)
    /\ effects tr
       = (map HttpPost (firstn (S n) (Server.payloads_to_try profile_url))
          ++ [HttpGet (snapshot_id_of fields)])%list.
Proof.
  intros Hn Hb Ha Ht Hg Hs Hl Hm. unfold run.
  destruct (scrape_after_first_accepted c w profile_url n fields initial Hn Hb Ha)
    as (st1 & A1 & E1).
  rewrite E1, Ht. cbn [negb]. unfold bind at 1, print.
  pose proof A1 as (_ & _ & _ & A14 & A15).
  destruct (poll_attempt_payload c w (snapshot_id_of fields) 0
              (log (Print "Waiting for completion...") st1) resp v)
    as (st2 & E2 & A2); try assumption.
  { cbn. rewrite A14. exact Hg. }
  change (seq 0 Server.max_attempts) with (0%nat :: seq 1 14).
  cbn [Server.poll_loop]. unfold bind at 1. rewrite E2. cbn.
  eexists; split; [reflexivity|].
  destruct A2 as (_ & _ & _ & _ & A25). cbn in A15, A25.
  rewrite effects_app in A25. cbn in A25. rewrite app_nil_r, A15 in A25.
  exact A25.
Qed.

(** ** Exceptions of the scrape *)

Section NeverRaises.
Variable c : codec.
Variable w : world.

Lemma trigger_attempt_never_raises (len i : nat) (data : json) :
  never_raises (Server.trigger_attempt c w len i data).
Proof.
  intros st. unfold Server.trigger_attempt, try_except.
  match goal with |- context [bind ?a ?b st] => destruct (bind a b st) as [[s|e] st'] end.
  - now exists s.
  - destruct (i <? len - 1)%nat; cbn; now exists Next.
Qed.

Lemma trigger_loop_never_raises (len : nat) (todo : list (nat * json)) (sid : json) :
  never_raises (Server.trigger_loop c w len todo sid).
Proof.
  induction todo as [|[i data] rest IH]; intros st; simpl.
  - now exists sid.
  - unfold bind. destruct (trigger_attempt_never_raises len i data st) as (s & E).
    destruct (Server.trigger_attempt c w len i data st) as [r st']. cbn in E. subst r.
    destruct s as [|v]; [apply IH|now exists v].
Qed.

Lemma poll_attempt_never_raises (sid : json) (attempt : nat) :
  never_raises (Server.poll_attempt c w sid attempt).
Proof.
  intros st. unfold Server.poll_attempt. unfold try_except at 1.
  match goal with |- context [bind ?a ?b st] => destruct (bind a b st) as [[s|e] st'] end.
  - now exists s.
  - cbn. now exists (Stop JNull).
Qed.

Lemma poll_loop_never_raises (sid : json) (attempts : list nat) :
  never_raises (Server.poll_loop c w sid attempts).
Proof.
  induction attempts as [|a rest IH]; intros st; simpl.
  - now exists JNull.
  - unfold bind. destruct (poll_attempt_never_raises sid a st) as (s & E).
    destruct (Server.poll_attempt c w sid a st) as [r st']. cbn in E. subst r.
    destruct s as [|v]; [apply IH|now exists v].
Qed.
End NeverRaises.

(** X6. [_scrape_new_profile] never raises: whatever the provider
    answers, and whether its calls return or raise, both copies of the
    function return a value ([None] on failure), from any state. *)
Theorem scrape_never_raises (c : codec) (w : world) (profile_url : string) :
  never_raises (Server._scrape_new_profile c w profile_url)
  /\ never_raises (TestModule._scrape_new_profile c w profile_url).
Proof.
  assert (S : never_raises (Server._scrape_new_profile c w profile_url)).
  { intros st. unfold Server._scrape_new_profile. unfold bind at 1.
    destruct (trigger_loop_never_raises c w
                (length (Server.payloads_to_try profile_url))
                (enumerate (Server.payloads_to_try profile_url)) JNull st)
      as (sid & E).
    destruct (Server.trigger_loop c w _ _ JNull st) as [r st']. cbn in E. subst r.
    destruct (negb (Py.truthy sid)).
    - now exists JNull.
    - unfold bind, print. apply poll_loop_never_raises. }
  split; [exact S|].
  intros st. destruct (S st) as (v & E). exists v.
  destruct (scrape_new_profile_equiv c w w 0 (fun _ _ => eq_refl)
              (fun _ _ => eq_refl) profile_url st st) as [F _].
  { unfold sim. repeat split; lia. }
  congruence.
Qed.

(** ** A failed scrape seen from the orchestrator *)

(** X7. When the client opens, the first search finds nothing and every
    one of the four payload variants is turned down (another status than
    200, a body that is not a JSON object, or an exception of the call),
    [smart_linkedin_scraper] raises [Exception("Failed to scrape LinkedIn
    profile: <url>")]: it has submitted the four variants in order, has not
    polled, has not searched a second time, has written nothing, and has
    closed the client. *)
Theorem rejected_scrape_is_raised
    (c : codec) (w : world) (profile_url user : string) :
  reply_create_client w = Val tt ->
  reply_search w 0 (cache_lookup (Server.username_of profile_url) user) = Val [] ->
  (forall j, (j < 4)%nat ->
     accepted c (reply_post w j
                   (nth j (Server.payloads_to_try profile_url) JNull)) = None) ->
  exists tr,
    run (Server.smart_linkedin_scraper c w profile_url user)
    = (Exn (Failure ("Failed to scrape LinkedIn profile: " ++ profile_url)), tr)
    /\ effects tr
       = (CreateClient
          :: SearchMemory (cache_lookup (Server.username_of profile_url) user)
          :: map HttpPost (Server.payloads_to_try profile_url)
          ++ [CloseClient])%list.
Proof.
  intros Hc Hs Hr.
  set (username := Server.username_of profile_url) in *.
  unfold cache_lookup in *.
  unfold run, Server.smart_linkedin_scraper. fold username.
  unfold bind at 1, create_memory_client. rewrite Hc.
  unfold try_finally, bind at 1, Server.check_rams, bind at 1 2, print,
    search_memory_tool.
  cbn [initial log n_search n_write n_post n_get trace]. rewrite Hs.
  unfold ret at 1. unfold Server.scrape_and_store, bind at 1, print.
  match goal with
  | |- context [bind (Server._scrape_new_profile c w profile_url) _ ?s] =>
      destruct (scrape_all_rejected_from c w profile_url s) as (st' & E & A)
  end.
  { intros j Hj. cbn. apply Hr, Hj. }
  unfold bind at 1. rewrite E. cbn.
  eexists; split; [reflexivity|].
  destruct A as (_ & _ & _ & _ & A5). cbn in A5.
  rewrite effects_app, A5. reflexivity.
Qed.

(* ================================================================== *)
(** ** What one call may cost *)

Section Costs.
Variable f : event -> nat.

Lemma costs_weaken {A} (m : M A) (a b : nat) :
  costs f a m -> (a <= b)%nat -> costs f b m.
Proof.
  intros H L st. destruct (H st) as (evs & T & W). exists evs. split; [exact T|lia].
Qed.

Lemma costs_ret {A} (a : A) (n : nat) : costs f n (ret a).
Proof. intros st. exists []. cbn. rewrite app_nil_r. split; [reflexivity|lia]. Qed.

Lemma costs_raise {A} (e : exn) (n : nat) : costs f n (@raise A e).
Proof. intros st. exists []. cbn. rewrite app_nil_r. split; [reflexivity|lia]. Qed.

Lemma costs_lift {A} (r : result A) (n : nat) : costs f n (lift r).
Proof. intros st. exists []. cbn. rewrite app_nil_r. split; [reflexivity|lia]. Qed.

Lemma costs_json_loads (c : codec) (s : string) (n : nat) :
  costs f n (json_loads c s).
Proof.
  unfold json_loads. destruct (loads c s); [apply costs_ret|apply costs_raise].
Qed.

Lemma costs_bind {A B} (m : M A) (k : A -> M B) (a b n : nat) :
  costs f a m -> (forall x, costs f b (k x)) -> (a + b <= n)%nat ->
  costs f n (bind m k).
Proof.
  intros H K L st. unfold bind. destruct (H st) as (e1 & T1 & W1).
  destruct (m st) as [[x|e] st1]; cbn in *.
  - destruct (K x st1) as (e2 & T2 & W2). exists (e1 ++ e2)%list.
    rewrite T2, T1, app_assoc, weight_app. split; [reflexivity|lia].
  - exists e1. split; [exact T1|lia].
Qed.

Lemma costs_try_except {A} (body : M A) (catches : exn -> bool)
    (h : exn -> M A) (a b n : nat) :
  costs f a body -> (forall e, costs f b (h e)) -> (a + b <= n)%nat ->
  costs f n (try_except body catches h).
Proof.
  intros H K L st. unfold try_except. destruct (H st) as (e1 & T1 & W1).
  destruct (body st) as [[x|e] st1]; cbn in *.
  - exists e1. split; [exact T1|lia].
  - destruct (catches e).
    + destruct (K e st1) as (e2 & T2 & W2). exists (e1 ++ e2)%list.
      rewrite T2, T1, app_assoc, weight_app. split; [reflexivity|lia].
    + exists e1. split; [exact T1|lia].
Qed.

Lemma costs_try_finally {A} (body : M A) (cleanup : M unit) (a b n : nat) :
  costs f a body -> costs f b cleanup -> (a + b <= n)%nat ->
  costs f n (try_finally body cleanup).
Proof.
  intros H K L st. unfold try_finally. destruct (H st) as (e1 & T1 & W1).
  destruct (body st) as [r st1]; cbn in *.
  destruct (K st1) as (e2 & T2 & W2).
  destruct (cleanup st1) as [[[]|e] st2]; cbn in *;
    exists (e1 ++ e2)%list; rewrite T2, T1, app_assoc, weight_app;
    (split; [reflexivity|lia]).
Qed.

Lemma costs_one {A} (g : state -> result A) (e : event) (upd : state -> state)
    (n : nat) :
  (f e <= n)%nat -> (forall st, trace (upd st) = (trace st ++ [e])%list) ->
  costs f n (fun st => (g st, upd st)).
Proof.
  intros L U st. exists [e]. cbn. rewrite U. split; [reflexivity|].
  unfold weight. cbn. lia.
Qed.

(** The weights of the events, bounded kind by kind. *)
Variables kp kg ks kw kz : nat.
Hypothesis f_print : forall s, f (Print s) = 0%nat.
Hypothesis f_create : f CreateClient = 0%nat.
Hypothesis f_close : f CloseClient = 0%nat.
Hypothesis f_post : forall d, (f (HttpPost d) <= kp)%nat.
Hypothesis f_get : forall d, (f (HttpGet d) <= kg)%nat.
Hypothesis f_search : forall a, (f (SearchMemory a) <= ks)%nat.
Hypothesis f_write : forall r, (f (CreateLongTermMemory r) <= kw)%nat.
Hypothesis f_sleep : (f (Sleep 10) <= kz)%nat.

Lemma costs_print (s : string) (n : nat) : costs f n (print s).
Proof.
  apply (costs_one (fun _ => Val tt) (Print s)); [rewrite f_print; lia|reflexivity].
Qed.

Lemma costs_sleep : costs f kz (time_sleep 10).
Proof. apply (costs_one (fun _ => Val tt) (Sleep 10)); [exact f_sleep|reflexivity]. Qed.

Lemma costs_close (n : nat) : costs f n client_close.
Proof.
  apply (costs_one (fun _ => Val tt) CloseClient); [rewrite f_close; lia|reflexivity].
Qed.

Lemma costs_create (w : world) (n : nat) : costs f n (create_memory_client w).
Proof.
  intros st. unfold create_memory_client. destruct (reply_create_client w).
  - exists [CreateClient]. cbn. split; [reflexivity|].
    unfold weight. cbn. rewrite f_create. lia.
  - exists []. cbn. rewrite app_nil_r. split; [reflexivity|lia].
Qed.

Lemma costs_post (w : world) (d : json) : costs f kp (requests_post w d).
Proof.
  apply (costs_one (fun st => reply_post w (n_post st) d) (HttpPost d));
    [apply f_post|reflexivity].
Qed.

Lemma costs_get (w : world) (d : json) : costs f kg (requests_get w d).
Proof.
  apply (costs_one (fun st => reply_get w (n_get st) d) (HttpGet d));
    [apply f_get|reflexivity].
Qed.

Lemma costs_search (w : world) (a : search_args) : costs f ks (search_memory_tool w a).
Proof.
  apply (costs_one (fun st => reply_search w (n_search st) a) (SearchMemory a));
    [apply f_search|reflexivity].
Qed.

Lemma costs_write (w : world) (r : list ClientMemoryRecord) :
  costs f kw (create_long_term_memory w r).
Proof.
  apply (costs_one (fun st => reply_write w (n_write st) r) (CreateLongTermMemory r));
    [apply f_write|reflexivity].
Qed.

(** Computations that only log. *)
Ltac free :=
  repeat (cbv beta;
    lazymatch goal with
    | |- costs _ _ (bind _ _) =>
        eapply (costs_bind _ _ 0 0); [|intros ?|lia]
    | |- costs _ _ (try_except _ _ _) =>
        eapply (costs_try_except _ _ _ 0 0); [|intros ?|lia]
    | |- costs _ _ (ret _) => apply costs_ret
    | |- costs _ _ (raise _) => apply costs_raise
    | |- costs _ _ (lift _) => apply costs_lift
    | |- costs _ _ (print _) => apply costs_print
    | |- costs _ _ (json_loads _ _) => apply costs_json_loads
    | |- costs _ _ (response_json _ _) => apply costs_json_loads
    | |- costs _ _ (if ?b then _ else _) => destruct b
    | |- costs _ _ (match ?x with _ => _ end) => destruct x
    end).

Variable c : codec.
Variable w : world.

Lemma costs_trigger_attempt (len i : nat) (data : json) :
  costs f kp (Server.trigger_attempt c w len i data).
Proof.
  unfold Server.trigger_attempt.
  eapply (costs_try_except _ _ _ kp 0); [|intros e; free|lia].
  eapply (costs_bind _ _ 0 kp); [free|intros _|lia].
  eapply (costs_bind _ _ kp 0); [apply costs_post|intros response; free|lia].
Qed.

Lemma costs_trigger_loop (len : nat) (todo : list (nat * json)) (sid : json) :
  costs f (length todo * kp) (Server.trigger_loop c w len todo sid).
Proof.
  induction todo as [|[i data] rest IH]; simpl; [apply costs_ret|].
  eapply costs_bind; [apply costs_trigger_attempt| |reflexivity].
  intros [|s]; [exact IH|apply costs_ret].
Qed.

Lemma costs_poll_attempt (sid : json) (attempt : nat) :
  costs f (kg + kz) (Server.poll_attempt c w sid attempt).
Proof.
  unfold Server.poll_attempt.
  eapply (costs_try_except _ _ _ (kg + kz) 0); [|intros e; free|lia].
  eapply (costs_bind _ _ kg kz); [apply costs_get|intros response|lia].
  destruct (status_code response =? 200)%Z; [|destruct (status_code response =? 202)%Z].
  - eapply (costs_try_except _ _ _ kz 0); [|intros e; free|lia].
    eapply (costs_bind _ _ 0 kz); [free|intros result|lia].
    destruct result;
      try (eapply (costs_bind _ _ 0 0); [free|intros; free|lia]).
    destruct (Py.eq_str _ "running"); [|destruct (Py.has_key "status" fields)].
    + eapply (costs_bind _ _ 0 kz); [free|intros _|lia].
      eapply (costs_bind _ _ kz 0); [apply costs_sleep|intros; free|lia].
    + eapply (costs_bind _ _ 0 kz); [free|intros _|lia].
      eapply (costs_bind _ _ kz 0); [apply costs_sleep|intros; free|lia].
    + free.
  - eapply (costs_bind _ _ 0 kz); [free|intros _|lia].
    eapply (costs_bind _ _ kz 0); [apply costs_sleep|intros; free|lia].
  - free.
Qed.

Lemma costs_poll_loop (sid : json) (attempts : list nat) :
  costs f (length attempts * (kg + kz)) (Server.poll_loop c w sid attempts).
Proof.
  induction attempts as [|a rest IH]; simpl; [free|].
  eapply costs_bind; [apply costs_poll_attempt| |reflexivity].
  intros [|s]; [exact IH|apply costs_ret].
Qed.

Lemma costs_scrape (profile_url : string) :
  costs f (4 * kp + 15 * (kg + kz)) (Server._scrape_new_profile c w profile_url).
Proof.
  unfold Server._scrape_new_profile.
  eapply (costs_bind _ _ (4 * kp) (15 * (kg + kz)));
    [apply (costs_trigger_loop 4 (enumerate (Server.payloads_to_try profile_url)))
    |intros sid|lia].
  destruct (negb (Py.truthy sid)); [free|].
  eapply (costs_bind _ _ 0 (15 * (kg + kz))); [free|intros _|lia].
  apply (costs_poll_loop sid (seq 0 Server.max_attempts)).
Qed.

Lemma costs_check_rams (username user : string) :
  costs f ks (Server.check_rams c w username user).
Proof.
  unfold Server.check_rams.
  eapply (costs_bind _ _ 0 ks); [free|intros _|lia].
  eapply (costs_bind _ _ ks 0); [apply costs_search|intros memories; free|lia].
Qed.

Lemma costs_already_exists (username : string) (memories : list memory) (n : nat) :
  costs f n (Server.already_exists c username memories).
Proof.
  eapply costs_weaken; [|apply Nat.le_0_l].
  induction memories as [|mem rest IH]; simpl; [apply costs_ret|].
  eapply (costs_bind _ _ 0 0); [free| |lia].
  intros [|s]; [exact IH|apply costs_ret].
Qed.

Lemma costs_activity_loop (username user : string) (scraped_data : json)
    (activities : list json) (acc : list ClientMemoryRecord) (n : nat) :
  costs f n (Server.activity_loop username user scraped_data activities acc).
Proof.
  eapply costs_weaken; [|apply Nat.le_0_l].
  revert acc. induction activities as [|a rest IH]; intros acc; simpl;
    [apply costs_ret|].
  eapply (costs_bind _ _ 0 0); [unfold Server.activity_record; free| |lia].
  intros r. apply IH.
Qed.

Lemma costs_store_profile (username user : string) (scraped_data : json) :
  costs f kw (Server.store_profile c w username user scraped_data).
Proof.
  unfold Server.store_profile.
  eapply (costs_bind _ _ 0 kw); [unfold Server.profile_record; free|intros r|lia].
  eapply (costs_bind _ _ 0 kw); [|intros records|lia].
  - destruct scraped_data; try apply costs_raise.
    destruct (Py.assoc "activity" fields) as [activity|]; [|apply costs_ret].
    destruct (Py.truthy activity); [|apply costs_ret].
    eapply (costs_bind _ _ 0 0); [free|intros first10|lia].
    eapply (costs_bind _ _ 0 0); [free|intros items|lia].
    apply costs_activity_loop.
  - eapply (costs_bind _ _ kw 0); [apply costs_write|intros; free|lia].
Qed.

Lemma costs_smart (profile_url user : string) :
  costs f (4 * kp + 15 * (kg + kz) + 2 * ks + kw)
    (Server.smart_linkedin_scraper c w profile_url user).
Proof.
  unfold Server.smart_linkedin_scraper. cbv zeta.
  eapply (costs_bind _ _ 0 (4 * kp + 15 * (kg + kz) + 2 * ks + kw));
    [apply costs_create|intros _|lia].
  eapply (costs_try_finally _ _ (4 * kp + 15 * (kg + kz) + 2 * ks + kw) 0);
    [|apply costs_close|lia].
  eapply (costs_bind _ _ ks (4 * kp + 15 * (kg + kz) + ks + kw));
    [apply costs_check_rams|intros cached|lia].
  destruct cached as [|v]; [|apply costs_ret].
  unfold Server.scrape_and_store.
  eapply (costs_bind _ _ 0 (4 * kp + 15 * (kg + kz) + ks + kw)); [free|intros _|lia].
  eapply (costs_bind _ _ (4 * kp + 15 * (kg + kz)) (ks + kw));
    [apply costs_scrape|intros scraped|lia].
  assert (K : costs f (ks + kw)
                (Server.store_unless_exists c w (Server.username_of profile_url)
                   user scraped)).
  { unfold Server.store_unless_exists.
    eapply (costs_bind _ _ ks kw); [apply costs_search|intros memories|lia].
    eapply (costs_bind _ _ 0 kw); [apply costs_already_exists|intros b|lia].
    eapply (costs_bind _ _ kw 0); [|intros; apply costs_ret|lia].
    destruct (negb b); [apply costs_store_profile|apply costs_ret]. }
  destruct scraped; solve [apply costs_raise | exact K].
Qed.
End Costs.

(** X8. Whatever the provider and the memory store answer, one call of
    [smart_linkedin_scraper] submits at most 4 scrape requests, polls at
    most 15 times, sleeps at most 150 seconds, searches the memory store at
    most twice and writes to it at most once. *)
Theorem orchestration_is_bounded
    (c : codec) (w : world) (profile_url user : string) :
  let tr := snd (run (Server.smart_linkedin_scraper c w profile_url user)) in
  (weight post_weight tr <= 4)%nat
  /\ (weight get_weight tr <= 15)%nat
  /\ (weight sleep_weight tr <= 150)%nat
  /\ (weight search_weight tr <= 2)%nat
  /\ (weight write_weight tr <= 1)%nat.
Proof.
  assert (B : forall f kp kg ks kw kz,
             (forall s, f (Print s) = 0%nat) -> f CreateClient = 0%nat ->
             f CloseClient = 0%nat ->
             (forall d, (f (HttpPost d) <= kp)%nat) ->
             (forall d, (f (HttpGet d) <= kg)%nat) ->
             (forall a, (f (SearchMemory a) <= ks)%nat) ->
             (forall r, (f (CreateLongTermMemory r) <= kw)%nat) ->
             (f (Sleep 10) <= kz)%nat ->
             (weight f (snd (run (Server.smart_linkedin_scraper c w profile_url user)))
              <= 4 * kp + 15 * (kg + kz) + 2 * ks + kw)%nat).
  { intros f kp kg ks kw kz H1 H2 H3 H4 H5 H6 H7 H8.
    destruct (costs_smart f kp kg ks kw kz H1 H2 H3 H4 H5 H6 H7 H8 c w
                profile_url user initial) as (evs & T & L).
    unfold run.
    destruct (Server.smart_linkedin_scraper c w profile_url user initial) as [r st].
    cbn in *. rewrite T. exact L. }
  cbv zeta. repeat split.
  - apply (B post_weight 1 0 0 0 0)%nat; intros; cbn; lia.
  - apply (B get_weight 0 1 0 0 0)%nat; intros; cbn; lia.
  - apply (B sleep_weight 0 0 0 0 10)%nat; intros; cbn; lia.
  - apply (B search_weight 0 0 1 0 0)%nat; intros; cbn; lia.
  - apply (B write_weight 0 0 0 1 0)%nat; intros; cbn; lia.
Qed.

(* ================================================================== *)
(** ** Storing a new profile *)

(** X9. When the wider search finds only records that do not decode or
    that decode to objects with another identity indicator, a scraped
    profile object that has no (or an empty) ['activity'], whose company, if
    any, is an object, and whose name and company name, where given, are
    strings, is written as one batch holding the single semantic record of
    the profile; the profile is returned when the write returns, and the
    exception of the write is raised otherwise. *)
Theorem new_profile_is_written
    (c : codec) (w : world) (username user : string)
    (profile : list (string * json)) (candidates : list memory) (st : state) :
  reply_search w (n_search st) (wider_lookup username user) = Val candidates ->
  Forall (passed_over c username) candidates ->
  Py.is_dict (field "current_company" (JObj []) profile) = true ->
  entities_are_strings profile ->
  Py.truthy (field "activity" JNull profile) = false ->
  let end_ := Server.store_unless_exists c w username user (JObj profile) st in
  fst end_
  = match reply_write w (n_write st) [semantic_record c username user profile] with
    | Val _ => Val (JObj profile)
    | Exn e => Exn e
    end
  /\ effects (trace (snd end_))
     = (effects (trace st)
        ++ [SearchMemory (wider_lookup username user);
            CreateLongTermMemory [semantic_record c username user profile]])%list.
Proof.
  intros Hs Hp Hc [Hn Hk] Ha end_.
  assert (E : forall s, Server.already_exists c username candidates s = (Val false, s)).
  { clear Hs. induction Hp as [|m rest [L|(f0 & L & E0)] _ IH]; intros s; simpl.
    - reflexivity.
    - unfold bind, try_except, json_loads, raise. rewrite L. cbn. apply IH.
    - unfold bind, try_except, json_loads, ret, lift, Py.get.
      rewrite L. cbn.
      unfold identity_indicator, Py.or_, field in E0.
      destruct (Py.truthy _); cbn; rewrite E0; cbn; apply IH. }
  assert (EQ : exists st',
             end_ = (match reply_write w (n_write st)
                             [semantic_record c username user profile] with
                     | Val _ => Val (JObj profile)
                     | Exn e => Exn e
                     end, st')
             /\ effects (trace st')
                = (effects (trace st)
                   ++ [SearchMemory (wider_lookup username user);
                       CreateLongTermMemory [semantic_record c username user profile]])%list).
  { subst end_.
    unfold Server.store_unless_exists, wider_lookup in *.
    unfold bind at 1, search_memory_tool. rewrite Hs. cbv beta iota.
    unfold bind at 1. rewrite E. cbv beta iota. cbn [negb].
    unfold Server.store_profile, Server.profile_record, semantic_record,
      validated, field in *.
    unfold Py.get.
    destruct (Py.assoc "current_company" profile) as [company|] eqn:Ec;
      [destruct company; try discriminate|];
      (destruct (Py.assoc "activity" profile) as [a|] eqn:Ea; [rewrite Ha|]);
      unfold bind, lift, ret, create_long_term_memory, print;
      cbn [entities forallb Py.is_str andb Py.assoc] in *;
      rewrite Hn, ?Hk; cbn [andb];
      cbn [log n_search n_write n_post n_get trace fst snd]; cbv beta iota;
      (destruct (reply_write w (n_write st) _) as [[]|e];
       cbn [log n_search n_write n_post n_get trace fst snd];
       eexists; (split; [reflexivity|]);
       cbn [trace log]; unfold effects; rewrite !filter_app; cbn [filter is_print negb];
       rewrite ?app_nil_r, <- ?app_assoc; reflexivity). }
  destruct EQ as (st' & -> & T). split; [reflexivity|exact T].
Qed.

(** X10. In the duplicate check a stored record's ['linkedin_id'] takes
    precedence over its ['id']: a record whose ['linkedin_id'] is truthy and
    differs from the identity key is not a duplicate, whatever its ['id']
    is, even the identity key itself. *)
Theorem linkedin_id_shadows_id
    (c : codec) (username : string) (m : memory)
    (fields : list (string * json)) (st : state) :
  loads c (memory_text m) = Some (JObj fields) ->
  Py.truthy (field "linkedin_id" JNull fields) = true ->
  Py.eq_str (field "linkedin_id" JNull fields) username = false ->
  Server.already_exists c username [m] st = (Val false, st).
Proof.
  intros L T E. unfold field in *. simpl.
  unfold bind, try_except, json_loads, ret, lift, Py.get. rewrite L. cbn.
  rewrite T. cbn. rewrite E. reflexivity.
Qed.

(* ================================================================== *)
(** ** The activity summary *)

Lemma split_head_absent (sep s : string) :
  PyText.contains sep s = false -> PyText.split_head sep s = s.
Proof.
  induction s as [|a t IH]; simpl; intros H; [reflexivity|].
  apply orb_false_iff in H. destruct H as [H1 H2].
  simpl in H1. rewrite H1, IH by exact H2. reflexivity.
Qed.

Lemma interaction_type_of_string (s : string) :
  interaction_type_of (JStr s) = Val (PyText.split_head " by " s).
Proof.
  unfold interaction_type_of, by_in.
  destruct (PyText.contains " by " s) eqn:E; [reflexivity|].
  now rewrite split_head_absent.
Qed.

Lemma counted_under_its_kind (event : list (string * json)) :
  worded event ->
  match Py.get (JObj event) "interaction" (JStr "Unknown interaction") with
  | Val interaction => interaction_type_of interaction
  | Exn e => Exn e
  end = Val (kind_of event).
Proof.
  unfold worded, kind_of, Py.get.
  destruct (Py.assoc "interaction" event) as [[]|]; try contradiction.
  - intros _. apply interaction_type_of_string.
  - intros _. reflexivity.
Qed.

Lemma count_up_keys (k t : string) (counts : list (string * nat)) :
  In t (map fst (count_up k counts)) <-> t = k \/ In t (map fst counts).
Proof.
  induction counts as [|[k' n] r IH]; simpl.
  - intuition congruence.
  - destruct (String.eqb k k') eqn:E; simpl.
    + apply String.eqb_eq in E. subst. intuition congruence.
    + rewrite IH. intuition congruence.
Qed.

Lemma count_up_NoDup (k : string) (counts : list (string * nat)) :
  NoDup (map fst counts) -> NoDup (map fst (count_up k counts)).
Proof.
  induction counts as [|[k' n] r IH]; simpl; intros H.
  - constructor; [intros []|constructor].
  - inversion H as [|? ? N1 N2]; subst.
    destruct (String.eqb k k') eqn:E; simpl.
    + constructor; assumption.
    + constructor; [|now apply IH].
      rewrite count_up_keys. intros [->|I]; [|contradiction].
      now rewrite String.eqb_refl in E.
Qed.

Lemma count_of_count_up (k t : string) (counts : list (string * nat)) :
  count_of t (count_up k counts)
  = (count_of t counts + if string_dec k t then 1 else 0)%nat.
Proof.
  unfold count_of.
  induction counts as [|[k' n] r IH]; simpl.
  - destruct (string_dec k t) as [->|N].
    + now rewrite String.eqb_refl.
    + destruct (String.eqb t k) eqn:E; [apply String.eqb_eq in E; congruence|reflexivity].
  - destruct (String.eqb k k') eqn:E; simpl.
    + apply String.eqb_eq in E. subst k'.
      destruct (String.eqb t k) eqn:E'; simpl.
      * apply String.eqb_eq in E'. subst t.
        destruct (string_dec k k); [|congruence].
        now rewrite Nat.add_1_r.
      * destruct (string_dec k t) as [->|N]; [now rewrite String.eqb_refl in E'|].
        now rewrite Nat.add_0_r.
    + destruct (String.eqb t k') eqn:E'; simpl.
      * apply String.eqb_eq in E'. subst t.
        destruct (string_dec k k') as [->|N]; [now rewrite String.eqb_refl in E|].
        now rewrite Nat.add_0_r.
      * exact IH.
Qed.

Lemma count_up_total (k : string) (counts : list (string * nat)) :
  list_sum (map snd (count_up k counts)) = S (list_sum (map snd counts)).
Proof.
  induction counts as [|[k' n] r IH]; simpl; [reflexivity|].
  destruct (String.eqb k k'); simpl; [reflexivity|]. rewrite IH. lia.
Qed.

Lemma count_up_positive (k : string) (counts : list (string * nat)) :
  Forall (fun kv => (0 < snd kv)%nat) counts ->
  Forall (fun kv => (0 < snd kv)%nat) (count_up k counts).
Proof.
  induction 1 as [|[k' n] r H H' IH]; simpl.
  - repeat constructor.
  - destruct (String.eqb k k'); constructor;
      first [exact H | exact H' | exact IH | apply Nat.lt_0_succ].
Qed.

Lemma count_interactions_tally (events : list (list (string * json)))
    (acc : list (string * nat)) :
  Forall worded events ->
  exists counts,
    count_interactions (map JObj events) acc = Val counts
    /\ (NoDup (map fst acc) -> NoDup (map fst counts))
    /\ (forall t, count_of t counts
                  = (count_of t acc
                     + count_occ string_dec (map kind_of events) t)%nat)
    /\ (Forall (fun kv => (0 < snd kv)%nat) acc ->
        Forall (fun kv => (0 < snd kv)%nat) counts)
    /\ list_sum (map snd counts)
       = (list_sum (map snd acc) + length events)%nat.
Proof.
  intros H. revert acc.
  induction H as [|e rest He _ IH]; intros acc.
  - exists acc. simpl. repeat split; auto; intros; lia.
  - cbn [map count_interactions].
    pose proof (counted_under_its_kind e He) as K.
    destruct (Py.get (JObj e) "interaction" (JStr "Unknown interaction"))
      as [interaction|x]; [|discriminate].
    rewrite K.
    destruct (IH (count_up (kind_of e) acc)) as (counts & E & N & C & P & S).
    exists counts. split; [exact E|]. split; [|split; [|split]].
    + intros D. apply N, count_up_NoDup, D.
    + intros t. rewrite C, count_of_count_up. cbn [count_occ].
      destruct (string_dec (kind_of e) t); lia.
    + intros D. apply P, count_up_positive, D.
    + rewrite S, count_up_total. cbn [length]. lia.
Qed.

(** X12. Over events whose interaction, if any, is a string, the counting
    loop of [format_profile_output] ends with a tally: every interaction
    type is listed once, with the number of events of that type, a type
    that no event has is not listed, and the counts add up to the number of
    events. *)
Theorem interactions_are_tallied (events : list (list (string * json))) :
  Forall worded events ->
  exists counts,
    count_interactions (map JObj events) [] = Val counts
    /\ NoDup (map fst counts)
    /\ (forall t, count_of t counts
                  = count_occ string_dec (map kind_of events) t)
    /\ Forall (fun kv => (0 < snd kv)%nat) counts
    /\ list_sum (map snd counts) = length events.
Proof.
  intros H.
  destruct (count_interactions_tally events [] H) as (counts & E & N & C & P & S).
  exists counts. split; [exact E|]. split; [|split; [|split]].
  - apply N. constructor.
  - intros t. now rewrite C.
  - apply P. constructor.
  - exact S.
Qed.

Lemma assoc_dict_set (k k' : string) (v : json) (l : list (string * json)) :
  Py.assoc k' (RefJson.dict_set k v l)
  = if String.eqb k' k then Some v else Py.assoc k' l.
Proof.
  induction l as [|[k0 v0] r IH]; simpl.
  - reflexivity.
  - destruct (String.eqb k k0) eqn:E; simpl.
    + apply String.eqb_eq in E. subst k0.
      destruct (String.eqb k' k); reflexivity.
    + destruct (String.eqb k' k0) eqn:E0.
      * apply String.eqb_eq in E0. subst k0.
        rewrite String.eqb_sym, E. reflexivity.
      * exact IH.
Qed.

Lemma assoc_dict_del (k k' : string) (l : list (string * json)) :
  Py.assoc k' (dict_del k l)
  = if String.eqb k' k then None else Py.assoc k' l.
Proof.
  induction l as [|[k0 v0] r IH]; simpl.
  - now destruct (String.eqb k' k).
  - destruct (String.eqb k k0) eqn:E; simpl.
    + apply String.eqb_eq in E. subst k0. rewrite IH.
      destruct (String.eqb k' k); reflexivity.
    + destruct (String.eqb k' k0) eqn:E0; [|exact IH].
      apply String.eqb_eq in E0. subst k0.
      rewrite String.eqb_sym, E. reflexivity.
Qed.

(** X11. A profile object whose ['activity'] is a non-empty list of
    objects with string (or no) interactions is printed without its
    ['activity'] and with an ['activity_summary'] saying how many events
    there are and how many of each interaction type; every other key keeps
    its value. *)
Theorem summary_replaces_activity (dumps_indent : json -> string)
    (fields : list (string * json)) (events : list (list (string * json))) :
  Py.assoc "activity" fields = Some (JArr (map JObj events)) ->
  events <> [] ->
  Forall worded events ->
  exists fields' counts,
    format_profile_output dumps_indent (JObj fields)
    = Val (dumps_indent (JObj fields'))
    /\ count_interactions (map JObj events) [] = Val counts
    /\ Py.assoc "activity" fields' = None
    /\ Py.assoc "activity_summary" fields'
       = Some (JStr ("User has " ++ Py.string_of_Z (Z.of_nat (length events))
                     ++ " recent activities: " ++ interaction_stats counts ++ "."))
    /\ (forall k, k <> "activity" -> k <> "activity_summary" ->
                  Py.assoc k fields' = Py.assoc k fields).
Proof.
  intros Ha Hn Hw.
  destruct (count_interactions_tally events [] Hw) as (counts & E & _).
  exists (dict_del "activity"
            (RefJson.dict_set "activity_summary"
               (JStr (activity_summary (length events) counts)) fields)), counts.
  split; [|split; [exact E|split; [|split]]].
  - unfold format_profile_output. rewrite Ha.
    assert (T : Py.truthy (JArr (map JObj events)) = true)
      by (destruct events; [congruence|reflexivity]).
    rewrite T. cbn [Py.iter]. rewrite E, length_map. reflexivity.
  - rewrite assoc_dict_del. reflexivity.
  - rewrite assoc_dict_del, assoc_dict_set. reflexivity.
  - intros k K1 K2. rewrite assoc_dict_del, assoc_dict_set.
    apply String.eqb_neq in K1, K2. now rewrite K1, K2.
Qed.

Lemma count_interactions_fails (good : list (list (string * json)))
    (bad : json) (rest : list json) (acc : list (string * nat)) :
  Forall worded good ->
  unworded bad ->
  count_interactions (map JObj good ++ bad :: rest) acc
  = Exn (if Py.is_dict bad then TypeError else AttributeError).
Proof.
  intros Hg Hb. revert acc.
  induction Hg as [|e more He _ IH]; intros acc.
  - cbn [map app count_interactions].
    destruct bad as [| | | | |event]; try reflexivity.
    unfold unworded in Hb. unfold Py.get.
    destruct (Py.assoc "interaction" event) as [[]|]; try contradiction;
      reflexivity.
  - cbn [map app count_interactions].
    pose proof (counted_under_its_kind e He) as K.
    destruct (Py.get (JObj e) "interaction" (JStr "Unknown interaction"))
      as [interaction|x]; [|discriminate].
    rewrite K. apply IH.
Qed.

(** X13. When the ['activity'] list of a profile object holds, after
    events that can be counted, a value that is not an object, or an object
    whose ['interaction'] is [null], a boolean or a number,
    [format_profile_output] raises: [AttributeError] for the first,
    [TypeError] for the second; the default ['Unknown interaction'] only
    replaces a missing key. *)
Theorem summary_fails_on_a_malformed_event (dumps_indent : json -> string)
    (fields : list (string * json)) (good : list (list (string * json)))
    (bad : json) (rest : list json) :
  Py.assoc "activity" fields = Some (JArr (map JObj good ++ bad :: rest)) ->
  Forall worded good ->
  unworded bad ->
  format_profile_output dumps_indent (JObj fields)
  = Exn (if Py.is_dict bad then TypeError else AttributeError).
Proof.
  intros Ha Hg Hb. unfold format_profile_output. rewrite Ha.
  assert (T : Py.truthy (JArr (map JObj good ++ bad :: rest)) = true).
  { simpl. destruct (map JObj good ++ bad :: rest)%list eqn:E; [|reflexivity].
    symmetry in E. now apply app_cons_not_nil in E. }
  rewrite T. cbn [Py.iter].
  now rewrite (count_interactions_fails good bad rest [] Hg Hb).
Qed.

(* ================================================================== *)
(** ** The endpoints *)

Lemma smart_cache_hit_from (c : codec) (w : world) (profile_url user : string)
    (m : memory) (rest : list memory) (v : json) (st : state) :
  reply_create_client w = Val tt ->
  reply_search w (n_search st) (cache_lookup (Server.username_of profile_url) user)
    = Val (m :: rest) ->
  loads c (memory_text m) = Some v ->
  exists st',
    Server.smart_linkedin_scraper c w profile_url user st = (Val v, st')
    /\ effects (trace st')
       = (effects (trace st)
          ++ [CreateClient;
              SearchMemory (cache_lookup (Server.username_of profile_url) user);
              CloseClient])%list.
Proof.
  intros Hc Hs Hl. unfold cache_lookup in *.
  unfold Server.smart_linkedin_scraper.
  unfold bind at 1, create_memory_client. rewrite Hc.
  unfold try_finally, bind at 1, Server.check_rams, bind at 1 2, print,
    search_memory_tool.
  cbn [log n_search n_write n_post n_get trace]. rewrite Hs.
  unfold try_except, bind, json_loads. rewrite Hl.
  unfold ret, client_close. cbn [log n_search n_write n_post n_get trace fst snd].
  eexists; split; [reflexivity|].
  cbn [trace log]. unfold effects. rewrite !filter_app. cbn [filter is_print negb].
  rewrite ?app_nil_r, <- ?app_assoc. reflexivity.
Qed.

Lemma smart_rejected_from (c : codec) (w : world) (profile_url user : string)
    (st : state) :
  reply_create_client w = Val tt ->
  reply_search w (n_search st) (cache_lookup (Server.username_of profile_url) user)
    = Val [] ->
  (forall j, (j < 4)%nat ->
     accepted c (reply_post w (n_post st + j)
                   (nth j (Server.payloads_to_try profile_url) JNull)) = None) ->
  exists st',
    Server.smart_linkedin_scraper c w profile_url user st
    = (Exn (Failure ("Failed to scrape LinkedIn profile: " ++ profile_url)), st')
    /\ effects (trace st')
       = (effects (trace st)
          ++ CreateClient
          :: SearchMemory (cache_lookup (Server.username_of profile_url) user)
          :: map HttpPost (Server.payloads_to_try profile_url)
          ++ [CloseClient])%list.
Proof.
  intros Hc Hs Hr.
  set (username := Server.username_of profile_url) in *.
  unfold cache_lookup in *.
  unfold Server.smart_linkedin_scraper. fold username.
  unfold bind at 1, create_memory_client. rewrite Hc.
  unfold try_finally, bind at 1, Server.check_rams, bind at 1 2, print,
    search_memory_tool.
  cbn [log n_search n_write n_post n_get trace]. rewrite Hs.
  unfold ret at 1. unfold Server.scrape_and_store, bind at 1, print.
  match goal with
  | |- context [bind (Server._scrape_new_profile c w profile_url) _ ?s] =>
      destruct (scrape_all_rejected_from c w profile_url s) as (st' & E & A)
  end.
  { intros j Hj. cbn. apply Hr, Hj. }
  unfold bind at 1. rewrite E. unfold client_close. cbv beta iota.
  eexists; split; [reflexivity|].
  destruct A as (_ & _ & _ & _ & A5).
  cbn [trace log] in A5 |- *. rewrite !effects_app in A5. rewrite effects_app, A5.
  cbn [effects filter is_print negb].
  rewrite ?app_nil_r, <- ?app_assoc. reflexivity.
Qed.

(** X14. [scrape_linkedin_profile] never raises and always answers with
    a response of one of two shapes: a success carrying a profile object,
    the text [format_profile_output] makes of it, no error, and a [cached]
    flag that is true exactly when the object has no truthy ['timestamp'];
    or a failure carrying the exception and nothing else. *)
Theorem scrape_endpoint_always_answers
    (c : codec) (w : world) (dumps_indent : json -> string)
    (request : ServerApi.LinkedInRequest) (st : state) :
  exists resp,
    fst (ServerApi.scrape_linkedin_profile c w dumps_indent request st) = Val resp
    /\ well_formed dumps_indent resp.
Proof.
  unfold ServerApi.scrape_linkedin_profile, try_except.
  unfold bind at 1, print.
  unfold bind at 1.
  destruct (Server.smart_linkedin_scraper c w (ServerApi.url request)
              (ServerApi.user_id request) _) as [[v|e] st1].
  - unfold bind at 1, lift.
    destruct (format_profile_output dumps_indent v) as [out|e] eqn:F.
    + unfold bind at 1, lift.
      destruct v as [| | | |items|fields]; cbn;
        try (eexists; split; [reflexivity|right; eexists; reflexivity]).
      eexists; split; [reflexivity|].
      left. exists fields, out. split; [exact F|reflexivity].
    + cbn. eexists; split; [reflexivity|right; eexists; reflexivity].
  - cbn. eexists; split; [reflexivity|right; eexists; reflexivity].
Qed.

(** X15. When the client opens, the first search returns a record that
    decodes to a profile object, and that object can be formatted,
    [scrape_linkedin_profile] answers with a success carrying the object and
    its formatted text; the provider is not called and nothing is written.
    The [cached] flag is read off the object, not off the path taken: it is
    false when the cached object has a truthy ['timestamp']. *)
Theorem cache_hit_is_served
    (c : codec) (w : world) (dumps_indent : json -> string)
    (request : ServerApi.LinkedInRequest)
    (m : memory) (rest : list memory) (fields : list (string * json))
    (out : string) (st : state) :
  reply_create_client w = Val tt ->
  reply_search w (n_search st)
    (cache_lookup (Server.username_of (ServerApi.url request))
                  (ServerApi.user_id request)) = Val (m :: rest) ->
  loads c (memory_text m) = Some (JObj fields) ->
  format_profile_output dumps_indent (JObj fields) = Val out ->
  let end_ := ServerApi.scrape_linkedin_profile c w dumps_indent request st in
  fst end_ = Val (served out fields)
  /\ ServerApi.cached (served out fields)
     = negb (Py.truthy (field "timestamp" JNull fields))
  /\ effects (trace (snd end_))
     = (effects (trace st)
        ++ [CreateClient;
            SearchMemory (cache_lookup (Server.username_of (ServerApi.url request))
                                       (ServerApi.user_id request));
            CloseClient])%list.
Proof.
  intros Hc Hs Hl Hf end_.
  assert (EQ : exists st',
             end_ = (Val (served out fields), st')
             /\ effects (trace st')
                = (effects (trace st)
                   ++ [CreateClient;
                       SearchMemory
                         (cache_lookup (Server.username_of (ServerApi.url request))
                                       (ServerApi.user_id request));
                       CloseClient])%list).
  { subst end_.
    unfold ServerApi.scrape_linkedin_profile, try_except.
    unfold bind at 1, print. unfold bind at 1.
    destruct (smart_cache_hit_from c w (ServerApi.url request)
                (ServerApi.user_id request) m rest (JObj fields)
                (log (Print "API Request: Scraping profile for {username}") st)
                Hc Hs Hl) as (st1 & E & T).
    rewrite E. unfold bind at 1, lift. rewrite Hf.
    cbn [Py.get]. unfold bind, ret. cbv beta iota.
    eexists; split; [reflexivity|].
    cbn [trace log] in T |- *. rewrite !effects_app in T. rewrite effects_app, T.
    cbn [effects filter is_print negb].
    now rewrite ?app_nil_r, <- ?app_assoc. }
  destruct EQ as (st' & -> & T).
  split; [reflexivity|]. split; [reflexivity|exact T].
Qed.

(** X16. When the client opens, the first search finds nothing and all
    four payload variants are turned down, [scrape_linkedin_profile] does
    not raise: it answers with a failure whose error is that of
    [Exception("Failed to scrape LinkedIn profile: <url>")], after the four
    submissions, with the client closed. *)
Theorem rejected_scrape_is_reported
    (c : codec) (w : world) (dumps_indent : json -> string)
    (request : ServerApi.LinkedInRequest) :
  reply_create_client w = Val tt ->
  reply_search w 0
    (cache_lookup (Server.username_of (ServerApi.url request))
                  (ServerApi.user_id request)) = Val [] ->
  (forall j, (j < 4)%nat ->
     accepted c (reply_post w j
                   (nth j (Server.payloads_to_try (ServerApi.url request)) JNull))
     = None) ->
  exists tr,
    run (ServerApi.scrape_linkedin_profile c w dumps_indent request)
    = (Val (failed (Failure ("Failed to scrape LinkedIn profile: "
                             ++ ServerApi.url request))), tr)
    /\ effects tr
       = (CreateClient
          :: SearchMemory (cache_lookup (Server.username_of (ServerApi.url request))
                                        (ServerApi.user_id request))
          :: map HttpPost (Server.payloads_to_try (ServerApi.url request))
          ++ [CloseClient])%list.
Proof.
  intros Hc Hs Hr. unfold run.
  unfold ServerApi.scrape_linkedin_profile, try_except.
  unfold bind at 1, print. unfold bind at 1.
  destruct (smart_rejected_from c w (ServerApi.url request)
              (ServerApi.user_id request)
              (log (Print "API Request: Scraping profile for {username}") initial)
              Hc Hs Hr) as (st1 & E & T).
  rewrite E. cbn [is_Exception]. unfold bind, ret. cbn [fst snd trace log].
  eexists; split; [reflexivity|].
  cbn [trace log] in T |- *. rewrite effects_app, T.
  cbn [initial trace effects filter is_print negb app].
  now rewrite ?app_nil_r, <- ?app_assoc.
Qed.

(* ================================================================== *)
(** ** The entry points of the test module *)

Section TestEmits.
Variable c : codec.
Variable w : world.
Variable P : event -> bool.
Hypothesis P_print : forall s, P (Print s) = true.
Hypothesis P_sleep : forall z, P (Sleep z) = true.
Hypothesis P_post : forall d, P (HttpPost d) = true.
Hypothesis P_get : forall d, P (HttpGet d) = true.

Lemma test_trigger_loop_emits (len : nat) (todo : list (nat * json)) (sid : json) :
  emits P (TestModule.trigger_loop c w len todo sid).
Proof.
  induction todo as [|[i data] rest IH]; simpl; [apply emits_ret|].
  apply emits_bind.
  - unfold TestModule.trigger_attempt. emits_auto.
  - intros [|s]; [exact IH|apply emits_ret].
Qed.

Lemma test_poll_loop_emits (sid : json) (attempts : list nat) :
  emits P (TestModule.poll_loop c w sid attempts).
Proof.
  induction attempts as [|attempt rest IH]; simpl; [emits_auto|].
  apply emits_bind.
  - unfold TestModule.poll_attempt. emits_auto.
  - intros [|s]; [exact IH|apply emits_ret].
Qed.

Lemma test_scrape_new_profile_emits (profile_url : string) :
  emits P (TestModule._scrape_new_profile c w profile_url).
Proof.
  unfold TestModule._scrape_new_profile.
  apply emits_bind; [apply test_trigger_loop_emits|].
  intros sid. destruct (negb (Py.truthy sid)); emits_auto.
  apply test_poll_loop_emits.
Qed.
End TestEmits.

Lemma test_scrape_never_raises (c : codec) (w : world) (profile_url : string) :
  never_raises (TestModule._scrape_new_profile c w profile_url).
Proof.
  intros st.
  assert (S : exists v, fst (Server._scrape_new_profile c w profile_url st) = Val v).
  { unfold Server._scrape_new_profile. unfold bind at 1.
    destruct (trigger_loop_never_raises c w
                (length (Server.payloads_to_try profile_url))
                (enumerate (Server.payloads_to_try profile_url)) JNull st)
      as (sid & E).
    destruct (Server.trigger_loop c w _ _ JNull st) as [r st']. cbn in E. subst r.
    destruct (negb (Py.truthy sid)).
    - now exists JNull.
    - unfold bind, print. apply poll_loop_never_raises. }
  destruct S as (v & E). exists v.
  destruct (scrape_new_profile_equiv c w w 0 (fun _ _ => eq_refl)
              (fun _ _ => eq_refl) profile_url st st) as [F _].
  { unfold sim. repeat split; lia. }
  congruence.
Qed.

(** X17. [get_linkedin_profile_data] either returns a value that is not
    [None] or raises [Exception("Failed to scrape LinkedIn profile:
    <url>")], and no other exception; it only prints, sleeps and calls the
    provider: the memory store is never opened, searched or written. *)
Theorem get_profile_data_returns_or_raises
    (c : codec) (w : world) (profile_url : string) (st : state) :
  let end_ := TestApi.get_linkedin_profile_data c w profile_url st in
  ((exists v, fst end_ = Val v /\ v <> JNull)
   \/ fst end_ = Exn (Failure ("Failed to scrape LinkedIn profile: " ++ profile_url)))
  /\ exists evs,
       trace (snd end_) = (trace st ++ evs)%list
       /\ forallb (fun e => is_print e || is_sleep e || is_provider_call e) evs = true.
Proof.
  intros end_. subst end_. unfold TestApi.get_linkedin_profile_data, bind.
  destruct (test_scrape_never_raises c w profile_url st) as (v & E).
  destruct (test_scrape_new_profile_emits c w
              (fun e => is_print e || is_sleep e || is_provider_call e)
              (fun _ => eq_refl) (fun _ => eq_refl) (fun _ => eq_refl)
              (fun _ => eq_refl) profile_url st) as (evs & T & F).
  destruct (TestModule._scrape_new_profile c w profile_url st) as [r st'].
  cbn [fst snd] in E, T. subst r.
  destruct v; cbn [fst snd raise ret];
    (split; [first [right; reflexivity | left; eexists; split; [reflexivity|discriminate]]
            |exists evs; split; assumption]).
Qed.

(** X19. [main] never raises, whatever the store and the provider do and
    whatever the scraped or cached value is: every exception of the scraper,
    of reading the profile or of formatting it ends in the failure message,
    and the completion message is always the last thing printed. *)
Theorem main_always_completes
    (c : codec) (w : world) (dumps_indent : json -> string) (st : state) :
  exists st',
    TestApi.main c w dumps_indent st = (Val tt, st')
    /\ last (trace st') CreateClient = Print "Smart scraping completed!".
Proof.
  unfold TestApi.main.
  unfold bind at 1, print. unfold bind at 1. unfold bind at 1. unfold bind at 1.
  match goal with
  | |- context [try_except ?b ?p ?h ?s] =>
      assert (N : exists s', try_except b p h s = (Val tt, s'))
  end.
  { unfold try_except.
    match goal with
    | |- context [bind ?a ?b ?s] => destruct (bind a b s) as [[[]|e] s']
    end.
    - eexists; reflexivity.
    - cbn. eexists; reflexivity. }
  destruct N as (s' & ->).
  unfold bind. cbv beta iota.
  eexists; split; [reflexivity|].
  cbn [trace log]. apply last_last.
Qed.

(* ================================================================== *)
(** ** The identity key of a user name *)

Section RoundTrip.
Import PyStr.

Lemma split_app_sep (c : ascii) (p s : string) :
  split c (p ++ String c s) = (split c p ++ split c s)%list.
Proof.
  induction p as [|a t IH]; simpl.
  - now rewrite Ascii.eqb_refl.
  - destruct (Ascii.eqb a c); [now rewrite IH|].
    rewrite IH.
    destruct (split c t) as [|h r] eqn:E; [now apply split_not_nil in E|].
    reflexivity.
Qed.

Lemma split_without_sep (c : ascii) (s : string) :
  Py.contains c s = false -> split c s = [s].
Proof.
  induction s as [|a t IH]; simpl; intros H; [reflexivity|].
  apply orb_false_iff in H. destruct H as [H1 H2].
  rewrite H1, IH by exact H2. reflexivity.
Qed.

Lemma split_fields_without_sep (c : ascii) (s : string) :
  Forall (fun x => Py.contains c x = false) (split c s).
Proof.
  induction s as [|a t IH]; simpl.
  - repeat constructor.
  - destruct (Ascii.eqb a c) eqn:E.
    + constructor; [reflexivity|exact IH].
    + destruct (split c t) as [|h r]; [repeat constructor; simpl; now rewrite E|].
      inversion IH; subst. constructor; [|assumption].
      simpl. now rewrite E.
Qed.

Lemma last_default_or_in {A} (l : list A) (d : A) :
  last l d = d \/ In (last l d) l.
Proof.
  induction l as [|x r IH]; [now left|].
  destruct r as [|y r']; [right; now left|].
  change (last (x :: y :: r') d) with (last (y :: r') d).
  destruct IH as [E|I]; [now left|right; now right].
Qed.

Lemma identity_key_without_slash (profile_url : string) :
  Py.contains slash (Server.username_of profile_url) = false.
Proof.
  unfold Server.username_of.
  destruct (last_default_or_in (split slash (rstrip slash profile_url)) EmptyString)
    as [->|I]; [reflexivity|].
  pose proof (split_fields_without_sep slash (rstrip slash profile_url)) as F.
  rewrite Forall_forall in F. now apply F.
Qed.

Lemma identity_key_of_user_name (p username : string) :
  username <> EmptyString ->
  Py.contains slash username = false ->
  Server.username_of (p ++ String slash (username ++ String slash EmptyString))
  = username.
Proof.
  intros Hn Hs. unfold Server.username_of.
  rewrite last_segment_after_rstrip. unfold last_nonempty_segment.
  rewrite !split_app_sep, (split_without_sep _ _ Hs).
  rewrite !filter_app. cbn [filter split nonempty app].
  destruct username as [|a u]; [congruence|].
  cbn [nonempty]. rewrite app_nil_r. apply last_last.
Qed.
End RoundTrip.

(** The identity key and the path of the URL. *)
Section PathSegment.
Import PyStr.

Lemma before_without (c : ascii) (s : string) :
  Py.contains c s = false -> Url.before c s = s.
Proof.
  induction s as [|a t IH]; simpl; intros H; [reflexivity|].
  apply orb_false_iff in H. destruct H as [H1 H2].
  now rewrite H1, IH.
Qed.

Lemma after_scheme (scheme r : string) :
  Py.contains ":" scheme = false ->
  Url.after "://" (scheme ++ "://" ++ r) = Some r.
Proof.
  induction scheme as [|a t IH]; intros H.
  - reflexivity.
  - simpl in H. apply orb_false_iff in H. destruct H as [H1 H2].
    cbn [append Url.after RefJson.drop_prefix].
    rewrite Ascii.eqb_sym, H1. exact (IH H2).
Qed.

Lemma from_slash (host p : string) :
  Py.contains "/" host = false ->
  Url.from "/" (host ++ String "/" p) = String "/" p.
Proof.
  induction host as [|a t IH]; intros H.
  - reflexivity.
  - simpl in H. apply orb_false_iff in H. destruct H as [H1 H2].
    cbn [append Url.from]. rewrite H1. exact (IH H2).
Qed.

Lemma append_empty (s : string) : s ++ EmptyString = s.
Proof. induction s as [|b u IH]; simpl; [reflexivity|now rewrite IH]. Qed.

Lemma append_snoc (s t : string) (a : ascii) :
  (s ++ String a EmptyString) ++ t = s ++ String a t.
Proof. induction s as [|b u IH]; simpl; [reflexivity|now rewrite IH]. Qed.

Lemma segments_split (current s : string) :
  Url.segments current s
  = (current ++ hd EmptyString (split slash s)) :: tl (split slash s).
Proof.
  revert current. induction s as [|a t IH]; intros current; simpl.
  - now rewrite append_empty.
  - unfold slash in *. destruct (Ascii.eqb a "/") eqn:E.
    + rewrite IH. cbn [hd tl append]. rewrite append_empty.
      pose proof (split_not_nil "/" t) as N.
      destruct (split "/" t); [congruence|reflexivity].
    + rewrite IH.
      pose proof (split_not_nil "/" t) as N.
      destruct (split "/" t) as [|h r]; [congruence|].
      cbn [hd tl]. now rewrite append_snoc.
Qed.

Lemma last_cons_default {A} (x d : A) (l : list A) : last (x :: l) d = last l x.
Proof.
  revert x d. induction l as [|y r IH]; intros x d; [reflexivity|].
  change (last (x :: y :: r) d) with (last (y :: r) d).
  now rewrite (IH y d), (IH y x).
Qed.

Lemma last_nonempty_filter (l : list string) (found : string) :
  Url.last_nonempty l found = last (filter nonempty l) found.
Proof.
  revert found. induction l as [|x r IH]; intros found; simpl; [reflexivity|].
  rewrite IH. destruct (nonempty x); [|reflexivity].
  now rewrite last_cons_default.
Qed.

Lemma last_nonempty_path_segment_split (url : string) :
  Url.last_nonempty_path_segment url
  = last (filter nonempty (split slash (Url.path url))) EmptyString.
Proof.
  unfold Url.last_nonempty_path_segment.
  rewrite segments_split, last_nonempty_filter.
  pose proof (split_not_nil slash (Url.path url)) as N.
  destruct (split slash (Url.path url)); [congruence|reflexivity].
Qed.

Lemma last_app_nonempty {A} (l1 l2 : list A) (d : A) :
  l2 <> [] -> last (l1 ++ l2) d = last l2 d.
Proof.
  intros H. induction l1 as [|x r IH]; [reflexivity|].
  simpl app. rewrite last_cons_default, <- IH.
  destruct (r ++ l2)%list eqn:E.
  - apply app_eq_nil in E. destruct E; congruence.
  - now rewrite !last_cons_default.
Qed.

(** On a URL with a scheme, an authority and a path that has a non-empty
    segment, and with no query and no fragment, the identity key is the
    last non-empty path segment. *)
Lemma identity_key_is_the_last_path_segment (scheme host p : string) :
  Py.contains ":" scheme = false ->
  Py.contains "/" host = false ->
  Py.contains "?" (scheme ++ "://" ++ host ++ String "/" p) = false ->
  Py.contains "#" (scheme ++ "://" ++ host ++ String "/" p) = false ->
  filter nonempty (split slash p) <> [] ->
  Server.username_of (scheme ++ "://" ++ host ++ String "/" p)
  = Url.last_nonempty_path_segment (scheme ++ "://" ++ host ++ String "/" p).
Proof.
  intros Hc Hh Hq Hf Hp.
  rewrite last_nonempty_path_segment_split.
  unfold Url.path. rewrite (before_without "#" _ Hf), (before_without "?" _ Hq).
  rewrite (after_scheme _ _ Hc), (from_slash _ _ Hh).
  unfold Server.username_of. rewrite last_segment_after_rstrip.
  unfold last_nonempty_segment.
  change (scheme ++ "://" ++ host ++ String "/" p)
    with (scheme ++ String ":" (String "/" (String "/" (host ++ String "/" p)))).
  rewrite <- (append_snoc scheme _ ":").
  unfold slash.
  rewrite (split_app_sep "/" (scheme ++ ":")).
  change (String "/" (host ++ String "/" p))
    with (EmptyString ++ String "/" (host ++ String "/" p)).
  rewrite (split_app_sep "/" EmptyString), (split_app_sep "/" host).
  change (split "/" (String "/" p)) with (EmptyString :: split "/" p).
  cbn [filter nonempty].
  rewrite !filter_app, !app_assoc.
  now rewrite last_app_nonempty by exact Hp.
Qed.
End PathSegment.

Example identity_key_of_a_plain_url :
  Server.username_of "https://www.linkedin.com/in/jane-doe/"
  = Url.last_nonempty_path_segment "https://www.linkedin.com/in/jane-doe/".
Proof.
  apply (identity_key_is_the_last_path_segment "https" "www.linkedin.com"
           "in/jane-doe/"); try reflexivity.
  vm_compute. discriminate.
Qed.

(** On the text alone: the URL built from a user name leads back to
    that name, as the identity key, exactly when the name is not empty and
    has no slash in it. *)
Lemma user_name_round_trip (username : string) :
  Server.username_of (ServerApi.linkedin_url username) = username
  <-> (username <> EmptyString /\ Py.contains PyStr.slash username = false).
Proof.
  split.
  - intros H. split.
    + intros ->. vm_compute in H. discriminate.
    + rewrite <- H. apply identity_key_without_slash.
  - intros [Hn Hs].
    exact (identity_key_of_user_name "https://www.linkedin.com/in" username Hn Hs).
Qed.

(* ================================================================== *)
(** ** The memory variant of the test module *)

Section MemoryEmits.
Variable c : codec.
Variable w : world.
Variable q : QArith_base.Q.
Variable P : event -> bool.
Hypothesis P_print : forall s, P (Print s) = true.
Hypothesis P_sleep : forall z, P (Sleep z) = true.
Hypothesis P_post : forall d, P (HttpPost d) = true.
Hypothesis P_get : forall d, P (HttpGet d) = true.
Hypothesis P_search : forall a, P (SearchMemory a) = true.
Hypothesis P_write : forall r, P (CreateLongTermMemory r) = true.

Lemma memory_body_emits (profile_url user : string) :
  emits P
    (cached <- TestApi.check_memory c w q profile_url user ;;
     match cached with
     | Stop cached_data => ret cached_data
     | Next => TestApi.scrape_and_remember c w profile_url user
     end).
Proof.
  apply emits_bind; [unfold TestApi.check_memory; emits_auto|].
  intros [|v]; [|apply emits_ret].
  unfold TestApi.scrape_and_remember. cbv zeta.
  apply emits_bind; [emits_auto|]. intros _.
  apply emits_bind; [now apply test_scrape_new_profile_emits|].
  intros scraped. unfold TestModule.profile_record.
  destruct scraped; emits_auto.
Qed.
End MemoryEmits.

(** X20. [get_linkedin_profile_data_with_memory] closes the client it
    opened on every path: once the client is created, the trace of a call
    is the creation, events that neither open nor close a client, and the
    closing, whether the call returns or raises; when the client cannot be
    created the exception is raised with nothing done. *)
Theorem memory_variant_closes_its_client
    (c : codec) (w : world) (q : QArith_base.Q) (profile_url user : string) :
  let '(r, tr) :=
    run (TestApi.get_linkedin_profile_data_with_memory c w q profile_url user) in
  match reply_create_client w with
  | Val _ =>
      exists mid, tr = (CreateClient :: mid ++ [CloseClient])%list
                  /\ forallb (fun e => negb (is_session e)) mid = true
  | Exn e => r = Exn e /\ tr = []
  end.
Proof.
  unfold run, TestApi.get_linkedin_profile_data_with_memory.
  unfold bind at 1, create_memory_client.
  destruct (reply_create_client w) as [[]|e]; [|now split].
  unfold try_finally, client_close. cbv zeta.
  destruct (memory_body_emits c w q (fun e => negb (is_session e))
              (fun _ => eq_refl) (fun _ => eq_refl) (fun _ => eq_refl)
              (fun _ => eq_refl) (fun _ => eq_refl) (fun _ => eq_refl)
              profile_url user (log CreateClient initial)) as (mid & T & F).
  revert T.
  match goal with
  | |- context [snd ?m] => destruct m as [r st]
  end.
  simpl. intros T. exists mid. rewrite T. now split.
Qed.

Lemma memory_cache_hit_from (c : codec) (w : world) (q : QArith_base.Q)
    (profile_url user : string) (m : memory) (rest : list memory) (v : json)
    (st : state) :
  reply_create_client w = Val tt ->
  reply_search w (n_search st) (memory_lookup q profile_url user) = Val (m :: rest) ->
  loads c (memory_text m) = Some v ->
  exists st',
    TestApi.get_linkedin_profile_data_with_memory c w q profile_url user st
    = (Val v, st')
    /\ effects (trace st')
       = (effects (trace st)
          ++ [CreateClient; SearchMemory (memory_lookup q profile_url user);
              CloseClient])%list.
Proof.
  intros Hc Hs Hl. unfold memory_lookup in *.
  unfold TestApi.get_linkedin_profile_data_with_memory.
  unfold bind at 1, create_memory_client. rewrite Hc.
  unfold try_finally, bind at 1, TestApi.check_memory, bind at 1,
    search_memory_tool.
  cbn [log n_search n_write n_post n_get trace]. rewrite Hs.
  unfold try_except, bind, json_loads. rewrite Hl.
  unfold ret, print, client_close. cbv beta iota.
  eexists; split; [reflexivity|].
  cbn [trace log]. rewrite !effects_app. cbn [effects filter is_print negb].
  rewrite ?app_nil_r, <- ?app_assoc. reflexivity.
Qed.

(** X21. When the client opens and the search returns a record whose
    text decodes, [get_linkedin_profile_data_with_memory] returns the
    decoded value, whatever it is, after that one search: the provider is
    not called, nothing is written, the client is closed, and the records
    after the first are not looked at. *)
Theorem memory_variant_cache_hit
    (c : codec) (w : world) (q : QArith_base.Q) (profile_url user : string)
    (m : memory) (rest : list memory) (v : json) :
  reply_create_client w = Val tt ->
  reply_search w 0 (memory_lookup q profile_url user) = Val (m :: rest) ->
  loads c (memory_text m) = Some v ->
  exists tr,
    run (TestApi.get_linkedin_profile_data_with_memory c w q profile_url user)
    = (Val v, tr)
    /\ effects tr
       = [CreateClient; SearchMemory (memory_lookup q profile_url user);
          CloseClient].
Proof.
  intros Hc Hs Hl. unfold run.
  destruct (memory_cache_hit_from c w q profile_url user m rest v initial Hc Hs Hl)
    as (st' & E & T).
  rewrite E. exists (trace st'). split; [reflexivity|exact T].
Qed.

Lemma weight_effects (f : event -> nat) (tr : list event) :
  (forall s, f (Print s) = 0%nat) ->
  weight f tr = weight f (effects tr).
Proof.
  intros H. induction tr as [|e r IH]; [reflexivity|].
  change (weight f (e :: r)) with (f e + weight f r)%nat.
  destruct e; cbn [effects filter is_print negb];
    try (change (weight f (?x :: ?l)) with (f x + weight f l)%nat);
    unfold effects in IH; rewrite IH; try reflexivity.
  now rewrite H.
Qed.

Section MemoryCosts.
Variable f : event -> nat.
Variables kp kg ks kw kz : nat.
Hypothesis f_print : forall s, f (Print s) = 0%nat.
Hypothesis f_create : f CreateClient = 0%nat.
Hypothesis f_close : f CloseClient = 0%nat.
Hypothesis f_post : forall d, (f (HttpPost d) <= kp)%nat.
Hypothesis f_get : forall d, (f (HttpGet d) <= kg)%nat.
Hypothesis f_search : forall a, (f (SearchMemory a) <= ks)%nat.
Hypothesis f_write : forall r, (f (CreateLongTermMemory r) <= kw)%nat.
Hypothesis f_sleep : (f (Sleep 10) <= kz)%nat.
Variable c : codec.
Variable w : world.

Lemma costs_test_scrape (profile_url : string) :
  costs f (4 * kp + 15 * (kg + kz)) (TestModule._scrape_new_profile c w profile_url).
Proof.
  intros st.
  destruct (costs_scrape f kp kg kz f_print f_create f_close f_post f_get f_sleep
              c w profile_url st) as (evS & TS & WS).
  destruct (test_scrape_new_profile_emits c w (fun _ => true)
              (fun _ => eq_refl) (fun _ => eq_refl) (fun _ => eq_refl)
              (fun _ => eq_refl) profile_url st) as (evT & TT & _).
  exists evT. split; [exact TT|].
  destruct (scrape_new_profile_equiv c w w 0 (fun _ _ => eq_refl)
              (fun _ _ => eq_refl) profile_url st st) as [_ SIM].
  { unfold sim. repeat split; lia. }
  destruct SIM as (_ & _ & _ & _ & _ & SE).
  rewrite TS, TT, !effects_app in SE. apply app_inv_head in SE.
  rewrite (weight_effects f evT f_print), <- SE, <- (weight_effects f evS f_print).
  exact WS.
Qed.

Ltac free_of_cost :=
  repeat (cbv beta;
    lazymatch goal with
    | |- costs _ _ (bind _ _) =>
        eapply (costs_bind f _ _ 0 0); [|intros ?|lia]
    | |- costs _ _ (try_except _ _ _) =>
        eapply (costs_try_except f _ _ _ 0 0); [|intros ?|lia]
    | |- costs _ _ (ret _) => apply costs_ret
    | |- costs _ _ (raise _) => apply costs_raise
    | |- costs _ _ (lift _) => apply costs_lift
    | |- costs _ _ (print _) =>
        apply (costs_print f kz f_print f_create f_close f_sleep)
    | |- costs _ _ (json_loads _ _) => apply costs_json_loads
    | |- costs _ _ (if ?b then _ else _) => destruct b
    | |- costs _ _ (match ?x with _ => _ end) => destruct x
    end).

Lemma costs_memory_variant (q : QArith_base.Q) (profile_url user : string) :
  costs f (4 * kp + 15 * (kg + kz) + ks + kw)
    (TestApi.get_linkedin_profile_data_with_memory c w q profile_url user).
Proof.
  unfold TestApi.get_linkedin_profile_data_with_memory.
  eapply (costs_bind f _ _ 0 (4 * kp + 15 * (kg + kz) + ks + kw));
    [apply (costs_create f kz f_create f_close f_sleep)|intros _|lia].
  eapply (costs_try_finally f _ _ (4 * kp + 15 * (kg + kz) + ks + kw) 0);
    [|apply (costs_close f kz f_create f_close f_sleep)|lia].
  eapply (costs_bind f _ _ ks (4 * kp + 15 * (kg + kz) + kw));
    [|intros cached|lia].
  { unfold TestApi.check_memory. cbv zeta.
    eapply (costs_bind f _ _ ks 0);
      [apply (costs_search f ks f_search)|intros search_results; free_of_cost|lia]. }
  destruct cached as [|v]; [|apply costs_ret].
  unfold TestApi.scrape_and_remember. cbv zeta.
  eapply (costs_bind f _ _ 0 (4 * kp + 15 * (kg + kz) + kw));
    [free_of_cost|intros _|lia].
  eapply (costs_bind f _ _ (4 * kp + 15 * (kg + kz)) kw);
    [apply costs_test_scrape|intros scraped|lia].
  assert (K : costs f kw
                (memory_record <-
                   TestModule.profile_record c (TestModule.username_of profile_url)
                     user scraped ;;
                 create_long_term_memory w [memory_record] ;;
                 print "Stored profile data in memory system" ;;
                 ret scraped)).
  { eapply (costs_bind f _ _ 0 kw);
      [unfold TestModule.profile_record; free_of_cost|intros r|lia].
    eapply (costs_bind f _ _ kw 0);
      [apply (costs_write f kw f_write)|intros; free_of_cost|lia]. }
  destruct scraped; solve [apply costs_raise | exact K].
Qed.
End MemoryCosts.

(** X22. Whatever the provider and the memory store answer, one call of
    [get_linkedin_profile_data_with_memory] submits at most 4 scrape
    requests, polls at most 15 times, sleeps at most 150 seconds, searches
    the memory store at most once and writes to it at most once. *)
Theorem memory_variant_is_bounded
    (c : codec) (w : world) (q : QArith_base.Q) (profile_url user : string) :
  let tr :=
    snd (run (TestApi.get_linkedin_profile_data_with_memory c w q profile_url user)) in
  (weight post_weight tr <= 4)%nat
  /\ (weight get_weight tr <= 15)%nat
  /\ (weight sleep_weight tr <= 150)%nat
  /\ (weight search_weight tr <= 1)%nat
  /\ (weight write_weight tr <= 1)%nat.
Proof.
  intros tr.
  assert (B : forall f kp kg ks kw kz,
             (forall s, f (Print s) = 0%nat) -> f CreateClient = 0%nat ->
             f CloseClient = 0%nat ->
             (forall d, (f (HttpPost d) <= kp)%nat) ->
             (forall d, (f (HttpGet d) <= kg)%nat) ->
             (forall a, (f (SearchMemory a) <= ks)%nat) ->
             (forall r, (f (CreateLongTermMemory r) <= kw)%nat) ->
             (f (Sleep 10) <= kz)%nat ->
             (weight f tr <= 4 * kp + 15 * (kg + kz) + ks + kw)%nat).
  { intros f kp kg ks kw kz H1 H2 H3 H4 H5 H6 H7 H8.
    destruct (costs_memory_variant f kp kg ks kw kz H1 H2 H3 H4 H5 H6 H7 H8
                c w q profile_url user initial) as (evs & T & W).
    subst tr. unfold run.
    destruct (TestApi.get_linkedin_profile_data_with_memory c w q profile_url user
                initial) as [r st].
    cbn [snd] in *. rewrite T. exact W. }
  repeat split.
  - apply (B post_weight 1 0 0 0 0)%nat; intros; cbn; lia.
  - apply (B get_weight 0 1 0 0 0)%nat; intros; cbn; lia.
  - apply (B sleep_weight 0 0 0 0 10)%nat; intros; cbn; lia.
  - apply (B search_weight 0 0 1 0 0)%nat; intros; cbn; lia.
  - apply (B write_weight 0 0 0 1 0)%nat; intros; cbn; lia.
Qed.

Lemma written_app (a b : list event) :
  written (a ++ b) = (written a ++ written b)%list.
Proof. unfold written. apply flat_map_app. Qed.

Lemma written_without_writes (evs : list event) :
  forallb (fun e => negb (is_write e)) evs = true -> written evs = [].
Proof.
  induction evs as [|e r IH]; [reflexivity|]. cbn [forallb].
  intros H. apply andb_true_iff in H. destruct H as [H1 H2].
  destruct e; try discriminate; exact (IH H2).
Qed.

Lemma remember_writes_one_record (c : codec) (w : world)
    (profile_url user : string) (st : state) :
  exists r st',
    TestApi.scrape_and_remember c w profile_url user st = (r, st')
    /\ (written (trace st') = written (trace st)
        \/ exists rec v,
             written (trace st') = (written (trace st) ++ [[rec]])%list
             /\ is_profile_record c (TestModule.username_of profile_url) user v rec
             /\ v <> JNull
             /\ forall v', r = Val v' -> v' = v).
Proof.
  unfold TestApi.scrape_and_remember. cbv zeta.
  unfold bind at 1, print. unfold bind at 1.
  destruct (test_scrape_new_profile_emits c w (fun e => negb (is_write e))
              (fun _ => eq_refl) (fun _ => eq_refl) (fun _ => eq_refl)
              (fun _ => eq_refl) profile_url
              (log (Print "No cached data in memory, scraping fresh data for: {profile_url}") st))
    as (evs & T & F).
  destruct (TestModule._scrape_new_profile c w profile_url _) as [[scraped|e] st1];
    cbn [snd fst] in T.
  2:{ do 2 eexists. split; [reflexivity|]. left.
      rewrite T. cbn [trace log]. rewrite !written_app.
      rewrite (written_without_writes evs F). cbn. now rewrite !app_nil_r. }
  assert (W : written (trace st1) = written (trace st)).
  { rewrite T. cbn [trace log]. rewrite !written_app.
    rewrite (written_without_writes evs F). cbn. now rewrite !app_nil_r. }
  assert (K : scraped <> JNull ->
            exists r st',
              (memory_record <-
                 TestModule.profile_record c
                   (TestModule.username_of profile_url) user scraped ;;
               create_long_term_memory w [memory_record] ;;
               print "Stored profile data in memory system" ;;
               ret scraped) st1 = (r, st')
              /\ (written (trace st') = written (trace st)
                  \/ exists rec v,
                       written (trace st') = (written (trace st) ++ [[rec]])%list
                       /\ is_profile_record c (TestModule.username_of profile_url)
                            user v rec
                       /\ v <> JNull
                       /\ forall v', r = Val v' -> v' = v)).
  { intros Hv.
    unfold TestModule.profile_record, bind, lift, ret, create_long_term_memory,
      print, validated.
    destruct (Py.get scraped "name" (JStr EmptyString)) as [name|e1];
      cbv beta iota;
      [|do 2 eexists; split; [reflexivity|left; exact W]].
    destruct (Py.get scraped "current_company" (JObj [])) as [company|e2];
      cbv beta iota;
      [|do 2 eexists; split; [reflexivity|left; exact W]].
    destruct (Py.get company "name" (JStr EmptyString)) as [company_name|e3];
      cbv beta iota;
      [|do 2 eexists; split; [reflexivity|left; exact W]].
    cbn [entities].
    destruct (forallb Py.is_str [JStr (TestModule.username_of profile_url);
                                 name; company_name]);
      cbv beta iota;
      [|do 2 eexists; split; [reflexivity|left; exact W]].
    match goal with
    | |- context [reply_write w ?n ?r] =>
        destruct (reply_write w n r) as [[]|e4]
    end;
      (do 2 eexists; split; [reflexivity|]);
      right; eexists; exists scraped;
      cbn [fst snd trace log]; rewrite !written_app, W;
      (split; [cbn; rewrite ?app_nil_r; reflexivity|]);
      (split; [repeat split|]);
      (split; [exact Hv|]);
      intros v' E; congruence. }
  destruct scraped;
    [do 2 eexists; split; [reflexivity|left; exact W]
    | apply K; discriminate ..].
Qed.

(** X23. [get_linkedin_profile_data_with_memory] writes nothing, or
    exactly one batch holding exactly one record: the semantic record of a
    scraped value that is not [None], with its JSON text, the profile
    topics, the namespace and the user given; a value the call returns
    after writing is the value written.  It never writes an activity
    record. *)
Theorem memory_variant_writes_one_record
    (c : codec) (w : world) (q : QArith_base.Q) (profile_url user : string)
    (st : state) :
  let end_ :=
    TestApi.get_linkedin_profile_data_with_memory c w q profile_url user st in
  written (trace (snd end_)) = written (trace st)
  \/ exists rec v,
       written (trace (snd end_)) = (written (trace st) ++ [[rec]])%list
       /\ is_profile_record c (TestModule.username_of profile_url) user v rec
       /\ v <> JNull
       /\ forall v', fst end_ = Val v' -> v' = v.
Proof.
  intros end_.
  assert (EQ : exists r st',
             end_ = (r, st')
             /\ (written (trace st') = written (trace st)
                 \/ exists rec v,
                      written (trace st') = (written (trace st) ++ [[rec]])%list
                      /\ is_profile_record c (TestModule.username_of profile_url)
                           user v rec
                      /\ v <> JNull
                      /\ forall v', r = Val v' -> v' = v)).
  { subst end_.
    unfold TestApi.get_linkedin_profile_data_with_memory.
    unfold bind at 1, create_memory_client.
    destruct (reply_create_client w) as [[]|e];
      [|do 2 eexists; split; [reflexivity|left; reflexivity]].
    unfold try_finally, client_close. unfold bind at 1.
    assert (E : emits (fun e => negb (is_write e))
                  (TestApi.check_memory c w q profile_url user)).
    { unfold TestApi.check_memory. cbv zeta.
      apply emits_bind; [apply emits_search; reflexivity|].
      intros [|m rest]; [apply emits_ret|].
      apply emits_try_except.
      - apply emits_bind; [apply emits_json_loads|]. intros v.
        apply emits_bind; [apply emits_print; reflexivity|]. intros _.
        apply emits_ret.
      - intros e. apply emits_bind; [apply emits_print; reflexivity|].
        intros _. apply emits_ret. }
    destruct (E (log CreateClient st)) as (evs & T & F).
    assert (W : forall st1, trace st1 = (trace (log CreateClient st) ++ evs)%list ->
                written (trace st1) = written (trace st)).
    { intros st1 T1. rewrite T1. cbn [trace log]. rewrite !written_app.
      rewrite (written_without_writes evs F). cbn. now rewrite !app_nil_r. }
    destruct (TestApi.check_memory c w q profile_url user (log CreateClient st))
      as [[[|v]|e] st1]; cbn [snd fst] in T; cbv beta iota.
    - destruct (remember_writes_one_record c w profile_url user st1)
        as (r & st2 & E2 & R).
      rewrite E2. cbv beta iota.
      do 2 eexists. split; [reflexivity|].
      cbn [trace log]. rewrite written_app. cbn [written flat_map app].
      rewrite app_nil_r, <- (W st1 T). exact R.
    - do 2 eexists. split; [reflexivity|]. left.
      cbn [trace log]. rewrite written_app. cbn [written flat_map app].
      rewrite app_nil_r. exact (W st1 T).
    - do 2 eexists. split; [reflexivity|]. left.
      cbn [trace log]. rewrite written_app. cbn [written flat_map app].
      rewrite app_nil_r. exact (W st1 T). }
  destruct EQ as (r & st' & -> & H). exact H.
Qed.

(** X18. When the validation accepts the URL [scrape_by_username] builds
    and returns its text as it is, the user name is not empty and has no
    slash in it, and the client opens, the call starts by opening the
    client and searching the cache under the user name itself: the identity
    key of the built URL is the name it was built from. *)
Theorem by_username_searches_under_the_name
    (c : codec) (w : world) (dumps_indent : json -> string)
    (http_url : string -> result string) (username user : string) :
  http_url (ServerApi.linkedin_url username)
    = Val (ServerApi.linkedin_url username) ->
  username <> EmptyString ->
  Py.contains PyStr.slash username = false ->
  reply_create_client w = Val tt ->
  exists more,
    effects (snd (run (ServerApi.scrape_by_username c w dumps_indent http_url
                         username user)))
    = CreateClient :: SearchMemory (cache_lookup username user) :: more.
Proof.
  intros Hv Hn Hs Hc.
  assert (K : Server.username_of (ServerApi.linkedin_url username) = username)
    by exact (identity_key_of_user_name "https://www.linkedin.com/in" username Hn Hs).
  assert (G : exists e,
             trace (snd (ServerApi.scrape_by_username c w dumps_indent http_url
                           username user initial))
             = (([Print "API Request: Scraping profile for {username}"]
                 ++ [CreateClient;
                     Print "Checking RAMS for cached data for username: {username}";
                     SearchMemory (cache_lookup username user)])
                ++ e)%list).
  { unfold ServerApi.scrape_by_username. unfold bind at 1, lift. rewrite Hv.
    unfold ServerApi.scrape_linkedin_profile. cbv zeta.
    cbn [ServerApi.url ServerApi.user_id].
    apply grows_try_except.
    - unfold bind at 1. unfold print at 1.
      apply grows_bind.
      + destruct (smart_begins_with_the_lookup c w
                    (ServerApi.linkedin_url username) user
                    (log (Print "API Request: Scraping profile for {username}")
                       initial) Hc) as (e & B).
        rewrite K in B. exists e. exact B.
      + intros profile_data.
        assert (P1 : forall s : string, true = true) by reflexivity.
        emits_auto.
    - intros x.
      assert (P1 : forall s : string, true = true) by reflexivity.
      emits_auto. }
  destruct G as (e & G). exists (effects e).
  unfold run.
  destruct (ServerApi.scrape_by_username c w dumps_indent http_url username user
              initial) as [r st].
  cbn [snd] in *. rewrite G, !effects_app. reflexivity.
Qed.

(* ================================================================== *)
(** ** The further theorems at concrete inputs *)

Lemma scrape_times_out_witness :
  exists tr,
    run (Server._scrape_new_profile RefJson.ref_codec
           (polls_with (ok_with running_body)) jane_url) = (Val JNull, tr)
    /\ effects tr
       = (map HttpPost (firstn 1 (Server.payloads_to_try jane_url))
          ++ polls (snapshot_id_of job_started) 15)%list
    /\ weight sleep_weight tr = 150%nat.
Proof.
  apply (scrape_times_out_after_fifteen_polls RefJson.ref_codec
           (polls_with (ok_with running_body)) jane_url 0 job_started).
  - lia.
  - intros j Hj. lia.
  - vm_compute. reflexivity.
  - reflexivity.
  - intros k. exists (ok_with running_body). split; [reflexivity|].
    left. split; [reflexivity|].
    exists [("status", JStr "building")]. split; vm_compute; reflexivity.
Defined.

Lemma first_accepted_variant_witness :
  exists tr,
    run (Server._scrape_new_profile RefJson.ref_codec
           (scraped_then_checked jane_profile []) jane_url) = (Val jane, tr)
    /\ effects tr
       = (map HttpPost (firstn 1 (Server.payloads_to_try jane_url))
          ++ [HttpGet (snapshot_id_of job_started)])%list.
Proof.
  apply (first_accepted_variant_is_polled RefJson.ref_codec
           (scraped_then_checked jane_profile []) jane_url 0 job_started
           (ok_with jane_profile) jane).
  - lia.
  - intros j Hj. lia.
  - vm_compute. reflexivity.
  - reflexivity.
  - reflexivity.
  - reflexivity.
  - vm_compute. reflexivity.
  - reflexivity.
Defined.

Lemma rejected_scrape_witness :
  exists tr,
    run (Server.smart_linkedin_scraper RefJson.ref_codec refuses_all
           jane_url "api_user")
    = (Exn (Failure ("Failed to scrape LinkedIn profile: " ++ jane_url)), tr)
    /\ effects tr
       = (CreateClient
          :: SearchMemory (cache_lookup (Server.username_of jane_url) "api_user")
          :: map HttpPost (Server.payloads_to_try jane_url)
          ++ [CloseClient])%list.
Proof.
  apply (rejected_scrape_is_raised RefJson.ref_codec refuses_all jane_url
           "api_user").
  - reflexivity.
  - reflexivity.
  - intros j Hj. reflexivity.
Defined.

Lemma all_variants_rejected_witness :
  exists tr,
    run (Server._scrape_new_profile RefJson.ref_codec refuses_all jane_url)
    = (Val JNull, tr)
    /\ effects tr = map HttpPost (Server.payloads_to_try jane_url).
Proof.
  apply (all_variants_rejected RefJson.ref_codec refuses_all jane_url).
  intros j Hj. reflexivity.
Defined.

Lemma duplicate_is_not_written_witness :
  let w := scraped_then_checked jane_profile
             [activity_note; {| memory_text := jane_stored |}] in
  let st := after_miss "jane-doe" "api_user" in
  exists st',
    Server.store_unless_exists RefJson.ref_codec w "jane-doe" "api_user" jane st
      = (Val jane, st')
    /\ n_write st' = n_write st
    /\ effects (trace st')
       = (effects (trace st) ++ [SearchMemory (wider_lookup "jane-doe" "api_user")])%list.
Proof.
  apply (duplicate_is_not_written RefJson.ref_codec
           (scraped_then_checked jane_profile
              [activity_note; {| memory_text := jane_stored |}])
           "jane-doe" "api_user" jane [activity_note] []
           {| memory_text := jane_stored |} (after_miss "jane-doe" "api_user")).
  - reflexivity.
  - constructor; [left; vm_compute; reflexivity | constructor].
  - exists [("linkedin_id", JStr "jane-doe")]. split; vm_compute; reflexivity.
Defined.

Lemma store_profile_caps_witness :
  let events := map activity_fields [1; 2; 3; 4; 5; 6; 7; 8; 9; 10]%Z in
  let records := batch RefJson.ref_codec "jane-doe" "api_user"
                   jane_at_acme_fields events in
  let end_ := Server.store_profile RefJson.ref_codec
                (scraped_then_checked jane_profile []) "jane-doe" "api_user"
                (JObj jane_at_acme_fields) initial in
  length events = 10%nat
  /\ length records = 11%nat
  /\ Forall (fun e => (String.length (PyStr.slice_to 100 (event_title e)) <= 100)%nat)
       events
  /\ effects (trace (snd end_))
     = (effects (trace initial) ++ [CreateLongTermMemory records])%list
  /\ n_write (snd end_) = S (n_write initial)
  /\ (reply_write (scraped_then_checked jane_profile []) (n_write initial) records
      = Val tt -> fst end_ = Val tt).
Proof.
  apply (store_profile_caps_activities RefJson.ref_codec
           (scraped_then_checked jane_profile []) "jane-doe" "api_user"
           jane_at_acme_fields eleven_events
           (map activity_fields [1; 2; 3; 4; 5; 6; 7; 8; 9; 10]%Z) initial).
  - reflexivity.
  - split; reflexivity.
  - reflexivity.
  - cbn. lia.
  - reflexivity.
  - repeat constructor.
Defined.

Lemma new_profile_is_written_witness :
  let w := scraped_then_checked jane_profile [activity_note] in
  let st := after_miss "jane-doe" "api_user" in
  let profile := [("name", JStr "Jane Doe")] in
  let end_ := Server.store_unless_exists RefJson.ref_codec w "jane-doe" "api_user"
                (JObj profile) st in
  fst end_
  = match reply_write w (n_write st)
            [semantic_record RefJson.ref_codec "jane-doe" "api_user" profile] with
    | Val _ => Val (JObj profile)
    | Exn e => Exn e
    end
  /\ effects (trace (snd end_))
     = (effects (trace st)
        ++ [SearchMemory (wider_lookup "jane-doe" "api_user");
            CreateLongTermMemory
              [semantic_record RefJson.ref_codec "jane-doe" "api_user" profile]])%list.
Proof.
  apply (new_profile_is_written RefJson.ref_codec
           (scraped_then_checked jane_profile [activity_note])
           "jane-doe" "api_user" [("name", JStr "Jane Doe")] [activity_note]
           (after_miss "jane-doe" "api_user")).
  - reflexivity.
  - constructor; [left; vm_compute; reflexivity | constructor].
  - reflexivity.
  - split; reflexivity.
  - reflexivity.
Defined.

Lemma linkedin_id_shadows_id_witness :
  Server.already_exists RefJson.ref_codec "jane-doe"
    [ {| memory_text := john_with_janes_id |} ] initial
  = (Val false, initial).
Proof.
  apply (linkedin_id_shadows_id RefJson.ref_codec "jane-doe"
           {| memory_text := john_with_janes_id |}
           [("linkedin_id", JStr "john-roe"); ("id", JStr "jane-doe")] initial).
  - vm_compute. reflexivity.
  - reflexivity.
  - reflexivity.
Defined.

Lemma summary_replaces_activity_witness :
  exists fields' counts,
    format_profile_output RefIndent.dumps_indent (JObj jane_with_mixed_events)
    = Val (RefIndent.dumps_indent (JObj fields'))
    /\ count_interactions (map JObj mixed_events) [] = Val counts
    /\ Py.assoc "activity" fields' = None
    /\ Py.assoc "activity_summary" fields'
       = Some (JStr ("User has " ++ Py.string_of_Z (Z.of_nat (length mixed_events))
                     ++ " recent activities: " ++ interaction_stats counts ++ "."))
    /\ (forall k, k <> "activity" -> k <> "activity_summary" ->
                  Py.assoc k fields' = Py.assoc k jane_with_mixed_events).
Proof.
  apply (summary_replaces_activity RefIndent.dumps_indent jane_with_mixed_events
           mixed_events).
  - reflexivity.
  - discriminate.
  - repeat first [exact I | constructor].
Defined.

Lemma interactions_are_tallied_witness :
  exists counts,
    count_interactions (map JObj mixed_events) [] = Val counts
    /\ NoDup (map fst counts)
    /\ (forall t, count_of t counts
                  = count_occ string_dec (map kind_of mixed_events) t)
    /\ Forall (fun kv => (0 < snd kv)%nat) counts
    /\ list_sum (map snd counts) = length mixed_events.
Proof.
  apply (interactions_are_tallied mixed_events).
  repeat first [exact I | constructor].
Defined.

Lemma summary_fails_witness :
  format_profile_output RefIndent.dumps_indent (JObj jane_with_null_interaction)
  = Exn (if Py.is_dict null_interaction then TypeError else AttributeError).
Proof.
  apply (summary_fails_on_a_malformed_event RefIndent.dumps_indent
           jane_with_null_interaction
           [ [("interaction", JStr "Liked by Jane Doe")] ] null_interaction []).
  - reflexivity.
  - repeat first [exact I | constructor].
  - exact I.
Defined.

Lemma cache_hit_is_served_witness :
  let request := {| ServerApi.url := jane_url; ServerApi.user_id := "api_user" |} in
  let out := RefIndent.dumps_indent (JObj jane_timed_fields) in
  let end_ := ServerApi.scrape_linkedin_profile RefJson.ref_codec cached_jane_timed
                RefIndent.dumps_indent request initial in
  fst end_ = Val (served out jane_timed_fields)
  /\ ServerApi.cached (served out jane_timed_fields)
     = negb (Py.truthy (field "timestamp" JNull jane_timed_fields))
  /\ effects (trace (snd end_))
     = (effects (trace initial)
        ++ [CreateClient;
            SearchMemory (cache_lookup (Server.username_of (ServerApi.url request))
                                       (ServerApi.user_id request));
            CloseClient])%list.
Proof.
  apply (cache_hit_is_served RefJson.ref_codec cached_jane_timed
           RefIndent.dumps_indent
           {| ServerApi.url := jane_url; ServerApi.user_id := "api_user" |}
           {| memory_text := jane_timed |} [] jane_timed_fields
           (RefIndent.dumps_indent (JObj jane_timed_fields)) initial).
  - reflexivity.
  - reflexivity.
  - vm_compute. reflexivity.
  - reflexivity.
Defined.

Lemma rejected_scrape_is_reported_witness :
  let request := {| ServerApi.url := jane_url; ServerApi.user_id := "api_user" |} in
  exists tr,
    run (ServerApi.scrape_linkedin_profile RefJson.ref_codec refuses_all
           RefIndent.dumps_indent request)
    = (Val (failed (Failure ("Failed to scrape LinkedIn profile: "
                             ++ ServerApi.url request))), tr)
    /\ effects tr
       = (CreateClient
          :: SearchMemory (cache_lookup (Server.username_of (ServerApi.url request))
                                        (ServerApi.user_id request))
          :: map HttpPost (Server.payloads_to_try (ServerApi.url request))
          ++ [CloseClient])%list.
Proof.
  apply (rejected_scrape_is_reported RefJson.ref_codec refuses_all
           RefIndent.dumps_indent
           {| ServerApi.url := jane_url; ServerApi.user_id := "api_user" |}).
  - reflexivity.
  - reflexivity.
  - intros j Hj. reflexivity.
Defined.

(** The cached record with a time stamp is served as not cached, and a
    profile scraped a moment ago, which has none, as cached. *)
Example cached_flag_follows_the_timestamp :
  let request := {| ServerApi.url := jane_url; ServerApi.user_id := "api_user" |} in
  let answer w :=
    run (ServerApi.scrape_linkedin_profile RefJson.ref_codec w
           RefIndent.dumps_indent request) in
  option_map ServerApi.cached
    (match fst (answer cached_jane_timed) with Val r => Some r | Exn _ => None end)
  = Some false
  /\ filter is_provider_call (snd (answer cached_jane_timed)) = []
  /\ option_map ServerApi.cached
       (match fst (answer (scraped_then_checked jane_profile []))
        with Val r => Some r | Exn _ => None end)
     = Some true
  /\ length (filter is_provider_call
               (snd (answer (scraped_then_checked jane_profile [])))) = 2%nat.
Proof. vm_compute. repeat split. Qed.

(** A profile one of whose events has [null] for its interaction is scraped
    and stored, and the call is answered with a failure all the same. *)
Example stored_and_reported_as_failed :
  let request := {| ServerApi.url := jane_url; ServerApi.user_id := "api_user" |} in
  let r := run (ServerApi.scrape_linkedin_profile RefJson.ref_codec
                  (scraped_then_checked
                     (RefJson.dumps (JObj jane_with_null_interaction)) [])
                  RefIndent.dumps_indent request) in
  fst r = Val (failed TypeError)
  /\ map (map memory_type) (written (snd r)) = [[SEMANTIC; EPISODIC; EPISODIC]].
Proof. vm_compute. repeat split. Qed.

Lemma memory_variant_cache_hit_witness :
  let q := QArith_base.Qmake 0 1 in
  exists tr,
    run (TestApi.get_linkedin_profile_data_with_memory RefJson.ref_codec cached_jane
           q jane_url "scraper_user")
    = (Val jane, tr)
    /\ effects tr
       = [CreateClient; SearchMemory (memory_lookup q jane_url "scraper_user");
          CloseClient].
Proof.
  apply (memory_variant_cache_hit RefJson.ref_codec cached_jane
           (QArith_base.Qmake 0 1) jane_url "scraper_user"
           {| memory_text := jane_profile |} [] jane).
  - reflexivity.
  - reflexivity.
  - vm_compute. reflexivity.
Defined.

(** The convenience endpoint asks the cache for the user name it was
    given; a URL that the validation refuses is raised to the caller, since
    the request is built outside the [try] of the scraping endpoint. *)
Example by_username_is_served_from_the_cache :
  let by_name validate :=
    run (ServerApi.scrape_by_username RefJson.ref_codec cached_jane
           RefIndent.dumps_indent validate "jane-doe" "api_user") in
  fst (by_name any_url) = Val (served (RefIndent.dumps_indent jane) [("name", JStr "Jane Doe")])
  /\ effects (snd (by_name any_url))
     = [CreateClient; SearchMemory (cache_lookup "jane-doe" "api_user"); CloseClient]
  /\ by_name (fun _ => Exn (ExternalError "ValidationError"))
     = (Exn (ExternalError "ValidationError"), []).
Proof. vm_compute. repeat split. Qed.

Lemma by_username_witness :
  exists more,
    effects (snd (run (ServerApi.scrape_by_username RefJson.ref_codec cached_jane
                         RefIndent.dumps_indent any_url "jane-doe" "api_user")))
    = CreateClient :: SearchMemory (cache_lookup "jane-doe" "api_user") :: more.
Proof.
  apply (by_username_searches_under_the_name RefJson.ref_codec cached_jane
           RefIndent.dumps_indent any_url "jane-doe" "api_user").
  - reflexivity.
  - discriminate.
  - reflexivity.
  - reflexivity.
Defined.

(** A scraped profile with [null] for its name is refused by the record
    class: the call raises and nothing is written. *)
Example null_name_is_refused :
  let r := run (Server.smart_linkedin_scraper RefJson.ref_codec
                  (scraped_then_checked (RefJson.dumps (JObj [("name", JNull)])) [])
                  jane_url "api_user") in
  fst r = Exn (ExternalError "ValidationError")
  /\ written (snd r) = [].
Proof. vm_compute. repeat split. Qed.

(** [repr] escapes the characters that are not printable, the no-break
    space among them. *)
Example repr_of_a_no_break_space :
  Py.str (JArr [JStr (String (ascii_of_nat 160) "x")]) = "['\xa0x']".
Proof. reflexivity. Qed.
